(** * btc-alerts: regime/zone engine and paper-trade fill loop

    A shallow embedding of the parts of [alerts.py] and [paper_exec.py]
    that decide zones, regime keys, the mean-revert filter, trade planning
    and the per-tick fill simulation, with the properties proved about them.

    Numbers.  The Python code computes with [float].  A float is modelled
    as an exact rational, one of the two infinities that [float()] reads
    from texts such as [inf] and [1e999], or the [NaN] sentinel that
    [safe_float] returns on a failed coercion.  Comparisons with [NaN] are
    false and arithmetic on [NaN] gives [NaN], as in Python; the
    infinities follow IEEE 754, so [inf - inf], [0 * inf] and [inf / inf]
    are [NaN].  Rounding error of binary arithmetic and the overflow of a
    finite result are not modelled.  Results of arithmetic are kept in
    lowest terms so that equal values are equal terms. *)

From Stdlib Require Import ZArith QArith Qround Qabs Qreduction Lqa Lia.
From Stdlib Require Import Bool List String Ascii DecimalString.
Import ListNotations.

Local Open Scope string_scope.
Local Open Scope Q_scope.

(* ================================================================== *)
(** ** Python floats *)

Module PyFloat.

Inductive pyfloat : Type :=
| NaN
| Num (q : Q)
| Inf (neg : bool).

(** The sign bit of a rational that is not zero. *)
Definition Qneg (q : Q) : bool := negb (Qle_bool 0 q).

Definition fadd (x y : pyfloat) : pyfloat :=
  match x, y with
  | Num a, Num b => Num (Qred (a + b))
  | Inf s, Inf t => if Bool.eqb s t then Inf s else NaN
  | Inf s, Num _ => Inf s
  | Num _, Inf t => Inf t
  | _, _ => NaN
  end.

Definition fsub (x y : pyfloat) : pyfloat :=
  match x, y with
  | Num a, Num b => Num (Qred (a - b))
  | Inf s, Inf t => if Bool.eqb s t then NaN else Inf s
  | Inf s, Num _ => Inf s
  | Num _, Inf t => Inf (negb t)
  | _, _ => NaN
  end.

Definition fmul (x y : pyfloat) : pyfloat :=
  match x, y with
  | Num a, Num b => Num (Qred (a * b))
  | Inf s, Inf t => Inf (xorb s t)
  | Inf s, Num b => if Qeq_bool b 0 then NaN else Inf (xorb s (Qneg b))
  | Num a, Inf t => if Qeq_bool a 0 then NaN else Inf (xorb (Qneg a) t)
  | _, _ => NaN
  end.

(** Every division of the modelled code is guarded by a test that the
    divisor is positive, so Python's [ZeroDivisionError] never arises. *)
Definition fdiv (x y : pyfloat) : pyfloat :=
  match x, y with
  | Num a, Num b => Num (Qred (a / b))
  | Num _, Inf _ => Num 0
  | Inf s, Num b => Inf (xorb s (Qneg b))
  | _, _ => NaN
  end.

Definition fabs (x : pyfloat) : pyfloat :=
  match x with
  | NaN => NaN
  | Num a => Num (Qred (Qabs a))
  | Inf _ => Inf false
  end.

Definition fneg (x : pyfloat) : pyfloat :=
  match x with
  | NaN => NaN
  | Num a => Num (Qred (- a))
  | Inf s => Inf (negb s)
  end.

(** Comparisons: false as soon as one side is [nan]; [-inf] is below
    and [inf] above every number. *)
Definition fle (x y : pyfloat) : bool :=
  match x, y with
  | Num a, Num b => Qle_bool a b
  | Inf true, (Num _ | Inf _) => true
  | (Num _ | Inf false), Inf false => true
  | _, _ => false
  end.

Definition flt (x y : pyfloat) : bool :=
  match x, y with
  | Num a, Num b => negb (Qle_bool b a)
  | Inf true, (Num _ | Inf false) => true
  | Num _, Inf false => true
  | _, _ => false
  end.

Definition fge (x y : pyfloat) := fle y x.
Definition fgt (x y : pyfloat) := flt y x.

(** [math.isnan] and [math.isfinite]. *)
Definition isnan (x : pyfloat) : bool :=
  match x with NaN => true | _ => false end.
Definition isfinite (x : pyfloat) : bool :=
  match x with Num _ => true | _ => false end.

(** Truth value of a float: only zero is false; [nan] and the
    infinities are true. *)
Definition truthy (x : pyfloat) : bool :=
  match x with Num a => negb (Qeq_bool a 0) | _ => true end.

(** The builtins [max(a, b)] and [min(a, b)]: the first argument is kept
    unless the second compares strictly beyond it. *)
Definition py_max (a b : pyfloat) : pyfloat := if fgt b a then b else a.
Definition py_min (a b : pyfloat) : pyfloat := if flt b a then b else a.

(** [max(xs)] and [min(xs)] over a list; [None] is the [ValueError] of an
    empty argument. *)
Definition py_max_list (xs : list pyfloat) : option pyfloat :=
  match xs with
  | [] => None
  | x :: r => Some (fold_left py_max r x)
  end.

Definition py_min_list (xs : list pyfloat) : option pyfloat :=
  match xs with
  | [] => None
  | x :: r => Some (fold_left py_min r x)
  end.

(** Rounding to the nearest integer, ties to even. *)
Definition round_half_even (q : Q) : Z :=
  let f := Qfloor q in
  match Qcompare (q - inject_Z f) (1 # 2) with
  | Lt => f
  | Gt => (f + 1)%Z
  | Eq => if Z.even f then f else (f + 1)%Z
  end.

(** [float(f"{x:.<d>f}")]: the value rounded to [d] decimals. *)
Definition round_dp (d : nat) (x : pyfloat) : pyfloat :=
  match x with
  | Num q =>
      let scale := inject_Z (10 ^ Z.of_nat d) in
      Num (Qred (inject_Z (round_half_even (q * scale)) / scale))
  | _ => x
  end.

Declare Scope pyfloat_scope.
Delimit Scope pyfloat_scope with F.
Bind Scope pyfloat_scope with pyfloat.
Infix "+" := fadd : pyfloat_scope.
Infix "-" := fsub : pyfloat_scope.
Infix "*" := fmul : pyfloat_scope.
Infix "/" := fdiv : pyfloat_scope.
Infix "<=?" := fle (at level 70) : pyfloat_scope.
Infix "<?" := flt (at level 70) : pyfloat_scope.
Infix ">=?" := fge (at level 70) : pyfloat_scope.
Infix ">?" := fgt (at level 70) : pyfloat_scope.

(** A decimal literal such as [0.0007] is written [dec 7 4]. *)
Definition dec (m : Z) (d : nat) : pyfloat :=
  Num (Qred (inject_Z m / inject_Z (10 ^ Z.of_nat d))).
Definition of_Z (z : Z) : pyfloat := Num (inject_Z z).

(** The operations are unfolded on request only. *)
Arguments fadd : simpl never.
Arguments fsub : simpl never.
Arguments fmul : simpl never.
Arguments fdiv : simpl never.
Arguments fabs : simpl never.
Arguments fneg : simpl never.
Arguments fle : simpl never.
Arguments flt : simpl never.
Arguments fge : simpl never.
Arguments fgt : simpl never.
Arguments py_max : simpl never.
Arguments py_min : simpl never.
Arguments round_dp : simpl never.
Arguments dec : simpl never.
Arguments of_Z : simpl never.

End PyFloat.
Import PyFloat.

(* ================================================================== *)
(** ** Python strings (ASCII) *)

Module PyStr.

(** [in]: substring test. *)
Fixpoint contains (needle hay : string) : bool :=
  if prefix needle hay then true
  else match hay with
       | EmptyString => false
       | String _ rest => contains needle rest
       end.

Definition upper_char (c : ascii) : ascii :=
  let n := nat_of_ascii c in
  if (97 <=? n)%nat && (n <=? 122)%nat then ascii_of_nat (n - 32) else c.

(** [str.upper] on ASCII text. *)
Fixpoint upper (s : string) : string :=
  match s with
  | EmptyString => EmptyString
  | String c r => String (upper_char c) (upper r)
  end.

(** Characters removed by [str.strip]: tab, LF, VT, FF, CR, FS, GS, RS,
    US and space. *)
Definition is_space (c : ascii) : bool :=
  let n := nat_of_ascii c in
  ((9 <=? n)%nat && (n <=? 13)%nat) || ((28 <=? n)%nat && (n <=? 32)%nat).

Fixpoint lstrip (s : string) : string :=
  match s with
  | EmptyString => EmptyString
  | String c r => if is_space c then lstrip r else s
  end.

Fixpoint rstrip (s : string) : string :=
  match s with
  | EmptyString => EmptyString
  | String c r =>
      match rstrip r with
      | EmptyString => if is_space c then EmptyString else String c EmptyString
      | r' => String c r'
      end
  end.

Definition strip (s : string) : string := rstrip (lstrip s).

(** [s[:n]] *)
Definition take (n : nat) (s : string) : string := substring 0 n s.

(** [needle] occurs in [hay] as a contiguous block. *)
Definition Substring (needle hay : string) : Prop :=
  exists before after, hay = before ++ needle ++ after.

(** [str(int)] for the decimal rendering of an integer. *)
Definition str_of_Z (z : Z) : string := NilZero.string_of_int (Z.to_int z).

End PyStr.
Import PyStr.

(* ================================================================== *)
(** ** Raw values and exceptions *)

(** A value of type [Any] handed to [float()]: either it coerces to a
    number, or to an infinity (the texts [inf], [-Infinity], [1e999], a
    JSON number beyond the range of a float), or [float()] raises
    ([None], a malformed string, a list).  Every call of [safe_float]
    modelled here has the default [nan], so a text that [float()] reads
    as [nan] behaves as [RBad]. *)
Inductive raw : Type :=
| RNum (q : Q)
| RInf (neg : bool)
| RBad.

(** A computation that may raise. *)
Inductive outcome (A : Type) : Type :=
| Returns (a : A)
| Raises.
Arguments Returns {A} a.
Arguments Raises {A}.

Definition bind {A B : Type} (c : outcome A) (k : A -> outcome B) : outcome B :=
  match c with
  | Returns a => k a
  | Raises => Raises
  end.

Notation "x <- c ;; k" := (bind c (fun x => k))
  (at level 61, c at next level, right associativity).

Fixpoint mapM {A B : Type} (f : A -> outcome B) (l : list A) : outcome (list B) :=
  match l with
  | [] => Returns []
  | a :: r => b <- f a ;; bs <- mapM f r ;; Returns (b :: bs)
  end.

(** [k[i]]: [IndexError] when the row is too short. *)
Definition item {A : Type} (k : list A) (i : nat) : outcome A :=
  match nth_error k i with
  | Some v => Returns v
  | None => Raises
  end.

Definition of_option {A : Type} (o : option A) : outcome A :=
  match o with
  | Some a => Returns a
  | None => Raises
  end.

(** [l[i:]]: a negative [i] counts from the end. *)
Definition slice_from {A : Type} (i : Z) (l : list A) : list A :=
  if (i <? 0)%Z then skipn (List.length l - Z.to_nat (- i)) l
  else skipn (Z.to_nat i) l.

(* ================================================================== *)
(** ** alerts.py *)

Module Alerts.

Record Config : Type := {
  MEAN_REVERT_MAX_WIDTH_PCT : Q;
  OI_CONTRA_FILTER : bool;
  OI_CONTRA_MIN_ABS : Q
}.

(** The values taken when the environment sets nothing. *)
Definition default_config : Config := {|
  MEAN_REVERT_MAX_WIDTH_PCT := 45 # 100;
  OI_CONTRA_FILTER := true;
  OI_CONTRA_MIN_ABS := 250
|}.

Definition safe_float (v : raw) (default : pyfloat) : pyfloat :=
  match v with
  | RNum q => Num q
  | RInf s => Inf s
  | RBad => default
  end.

Record Zones : Type := {
  upper_lo : pyfloat;
  upper_hi : pyfloat;
  lower_lo : pyfloat;
  lower_hi : pyfloat;
  width_pct : pyfloat
}.

(** The cell [k[i]] exists and coerces to a number. *)
Definition numeric_at (i : nat) (k : list raw) : Prop :=
  match nth_error k i with
  | Some (RNum _) => True
  | _ => False
  end.

(** [[safe_float(k[i]) for k in sample]] *)
Definition column (i : nat) (sample : list (list raw)) : outcome (list pyfloat) :=
  mapM (fun k => v <- item k i ;; Returns (safe_float v NaN)) sample.

Definition compute_zones (kl_1m : list (list raw)) (atr : option pyfloat)
    (lookback_min : Z) : outcome (option Zones) :=
  match kl_1m with
  | [] => Returns None
  | _ :: _ =>
    let n := Z.min (Z.of_nat (List.length kl_1m)) (Z.max 60 lookback_min) in
    let sample := slice_from (- n) kl_1m in
    highs <- column 2 sample ;;
    lows <- column 3 sample ;;
    closes_all <- column 4 sample ;;
    let closes := filter (fun c => c >? of_Z 0)%F closes_all in
    match closes with
    | [] => Returns None
    | _ :: _ =>
      recent_high <- of_option (py_max_list highs) ;;
      recent_low <- of_option (py_min_list lows) ;;
      let mid := last closes NaN in
      let pad :=
        match atr with
        | Some a => if truthy a && (a >? of_Z 0)%F then (a * dec 25 2)%F else of_Z 0
        | None => of_Z 0
        end in
      let pad := py_max pad (mid * dec 7 4)%F in
      let upper_hi := recent_high in
      let upper_lo := (recent_high - pad)%F in
      let lower_lo := recent_low in
      let lower_hi := (recent_low + pad)%F in
      let width := py_max (of_Z 0) (upper_lo - lower_hi)%F in
      let width_pct :=
        if (mid >? of_Z 0)%F then (width / mid * of_Z 100)%F else of_Z 0 in
      Returns (Some {| upper_lo := upper_lo; upper_hi := upper_hi;
                       lower_lo := lower_lo; lower_hi := lower_hi;
                       width_pct := width_pct |})
    end
  end.

Definition classify_regime (px15m oi15m width_pct : option pyfloat) : string :=
  match px15m, width_pct with
  | Some px, Some w =>
    match oi15m with
    | None =>
      if (w <=? dec 30 2)%F && (fabs px <=? dec 25 2)%F
      then "RANGE / CHOP (OI n/a)"
      else "TRANSITION (OI n/a)"
    | Some oi =>
      if (oi <? of_Z (-250))%F && (px <? dec (-20) 2)%F
      then "DELEVERAGING / LONG UNWIND"
      else if (oi <? of_Z (-250))%F && (px >? dec 20 2)%F
      then "SHORT COVER / SQUEEZE"
      else if (w <=? dec 30 2)%F && (fabs px <=? dec 25 2)%F
              && (fabs oi <=? of_Z 200)%F
      then "RANGE / CHOP"
      else "TRANSITION"
    end
  | _, _ => "UNKNOWN"
  end.

(** The chain of substring tests of [norm_regime], on the upper-cased
    label [r]. *)
Definition regime_key_of (r : string) : string :=
  if contains "RANGE" r then "RANGE"
  else if contains "TRANSITION" r then "TRANSITION"
  else if contains "SQUEEZE" r || contains "SHORT COVER" r then "SHORT_SQUEEZE"
  else if contains "LONG UNWIND" r then "LONG_UNWIND"
  else if contains "DELEVERAGING" r then "DELEVERAGING"
  else "UNKNOWN".

(** [regime_raw or ""]: [None] and the empty string both give [""]. *)
Definition or_empty (s : option string) : string :=
  match s with
  | Some v => v
  | None => ""
  end.

Definition norm_regime (regime_raw : option string) : string :=
  let r := upper (or_empty regime_raw) in
  regime_key_of r.

(** The six values of the regime key. *)
Definition regime_keys : list string :=
  ["RANGE"; "TRANSITION"; "SHORT_SQUEEZE"; "LONG_UNWIND"; "DELEVERAGING"; "UNKNOWN"].

(** Why [mean_revert_ok] answered as it did (the message text of the
    source is formatting of the same facts). *)
Inductive verdict : Type :=
| Ok
| BlockedWidth
| BlockedOiAbs
| BlockedOiLong
| BlockedOiShort.

Section Filters.
Variable cfg : Config.

Definition mean_revert_ok (z : Zones) (oi15m : option pyfloat)
    (direction : string) : bool * verdict :=
  if (width_pct z >? Num (MEAN_REVERT_MAX_WIDTH_PCT cfg))%F
  then (false, BlockedWidth)
  else
    match oi15m with
    | None => (true, Ok)
    | Some oi =>
      if negb (OI_CONTRA_FILTER cfg) then (true, Ok)
      else if (fabs oi <? Num (OI_CONTRA_MIN_ABS cfg))%F
      then (false, BlockedOiAbs)
      else if (direction =? "LONG")%string
              && (oi >? fneg (Num (OI_CONTRA_MIN_ABS cfg)))%F
      then (false, BlockedOiLong)
      else if (direction =? "SHORT")%string
              && (oi <? Num (OI_CONTRA_MIN_ABS cfg))%F
      then (false, BlockedOiShort)
      else (true, Ok)
    end.

End Filters.

End Alerts.

(* ================================================================== *)
(** ** paper_exec.py *)

Module PaperExec.

Record Config : Type := {
  EXCHANGE_ID : string;
  DEFAULT_LEVERAGE : Z;
  RISK_PCT : pyfloat;
  MAX_OPEN_TRADES_PER_SYMBOL : Z;
  ENTRY_TIMEOUT_SEC : Z;
  ENTRY_PRICE_MODE : string;
  TP1_CLOSE_FRAC : pyfloat;
  MOVE_SL_TO_BE_ON_TP1 : bool;
  STOP_FILL_MODE : string;
  BE_BUFFER_PCT : pyfloat;
  DEDUP_WINDOW : Z
}.

(** The values taken when the environment sets nothing. *)
Definition default_config : Config := {|
  EXCHANGE_ID := "mexc";
  DEFAULT_LEVERAGE := 5;
  RISK_PCT := dec 5 3;
  MAX_OPEN_TRADES_PER_SYMBOL := 1;
  ENTRY_TIMEOUT_SEC := 1800;
  ENTRY_PRICE_MODE := "ZONE";
  TP1_CLOSE_FRAC := dec 50 2;
  MOVE_SL_TO_BE_ON_TP1 := true;
  STOP_FILL_MODE := "CAP";
  BE_BUFFER_PCT := of_Z 0;
  DEDUP_WINDOW := 4000
|}.

Definition safe_float (v : raw) (default : pyfloat) : pyfloat :=
  match v with
  | RNum q => Num q
  | RInf s => Inf s
  | RBad => default
  end.

(** *** Data model *)

Record Trade : Type := {
  ts_created : string;
  ts_closed : string;
  trade_id : string;
  exchange : string;
  market : string;
  symbol : string;
  symbol_raw : string;
  setup : string;
  regime : string;
  side : string;
  status : string;
  leverage : Z;
  entry : pyfloat;
  sl : pyfloat;
  tp1 : pyfloat;
  tp2 : pyfloat;
  qty : pyfloat;
  filled_entry : pyfloat;
  filled_qty : pyfloat;
  tp1_hit : bool;
  tp1_qty_closed : pyfloat;
  pnl_usdt : pyfloat;
  pnl_pct_equity : pyfloat;
  close_reason : string
}.

(** Attribute assignment [tr.f = v]. *)

Definition set_sl (v : pyfloat) (tr : Trade) : Trade :=
  {| ts_created := ts_created tr; ts_closed := ts_closed tr;
     trade_id := trade_id tr; exchange := exchange tr; market := market tr;
     symbol := symbol tr; symbol_raw := symbol_raw tr; setup := setup tr;
     regime := regime tr; side := side tr; status := status tr;
     leverage := leverage tr; entry := entry tr; sl := v; tp1 := tp1 tr;
     tp2 := tp2 tr; qty := qty tr; filled_entry := filled_entry tr;
     filled_qty := filled_qty tr; tp1_hit := tp1_hit tr;
     tp1_qty_closed := tp1_qty_closed tr; pnl_usdt := pnl_usdt tr;
     pnl_pct_equity := pnl_pct_equity tr; close_reason := close_reason tr |}.

Definition set_status (v : string) (tr : Trade) : Trade :=
  {| ts_created := ts_created tr; ts_closed := ts_closed tr;
     trade_id := trade_id tr; exchange := exchange tr; market := market tr;
     symbol := symbol tr; symbol_raw := symbol_raw tr; setup := setup tr;
     regime := regime tr; side := side tr; status := v;
     leverage := leverage tr; entry := entry tr; sl := sl tr; tp1 := tp1 tr;
     tp2 := tp2 tr; qty := qty tr; filled_entry := filled_entry tr;
     filled_qty := filled_qty tr; tp1_hit := tp1_hit tr;
     tp1_qty_closed := tp1_qty_closed tr; pnl_usdt := pnl_usdt tr;
     pnl_pct_equity := pnl_pct_equity tr; close_reason := close_reason tr |}.

Definition set_ts_closed (v : string) (tr : Trade) : Trade :=
  {| ts_created := ts_created tr; ts_closed := v; trade_id := trade_id tr;
     exchange := exchange tr; market := market tr; symbol := symbol tr;
     symbol_raw := symbol_raw tr; setup := setup tr; regime := regime tr;
     side := side tr; status := status tr; leverage := leverage tr;
     entry := entry tr; sl := sl tr; tp1 := tp1 tr; tp2 := tp2 tr;
     qty := qty tr; filled_entry := filled_entry tr;
     filled_qty := filled_qty tr; tp1_hit := tp1_hit tr;
     tp1_qty_closed := tp1_qty_closed tr; pnl_usdt := pnl_usdt tr;
     pnl_pct_equity := pnl_pct_equity tr; close_reason := close_reason tr |}.

Definition set_filled_entry (v : pyfloat) (tr : Trade) : Trade :=
  {| ts_created := ts_created tr; ts_closed := ts_closed tr;
     trade_id := trade_id tr; exchange := exchange tr; market := market tr;
     symbol := symbol tr; symbol_raw := symbol_raw tr; setup := setup tr;
     regime := regime tr; side := side tr; status := status tr;
     leverage := leverage tr; entry := entry tr; sl := sl tr; tp1 := tp1 tr;
     tp2 := tp2 tr; qty := qty tr; filled_entry := v;
     filled_qty := filled_qty tr; tp1_hit := tp1_hit tr;
     tp1_qty_closed := tp1_qty_closed tr; pnl_usdt := pnl_usdt tr;
     pnl_pct_equity := pnl_pct_equity tr; close_reason := close_reason tr |}.

Definition set_filled_qty (v : pyfloat) (tr : Trade) : Trade :=
  {| ts_created := ts_created tr; ts_closed := ts_closed tr;
     trade_id := trade_id tr; exchange := exchange tr; market := market tr;
     symbol := symbol tr; symbol_raw := symbol_raw tr; setup := setup tr;
     regime := regime tr; side := side tr; status := status tr;
     leverage := leverage tr; entry := entry tr; sl := sl tr; tp1 := tp1 tr;
     tp2 := tp2 tr; qty := qty tr; filled_entry := filled_entry tr;
     filled_qty := v; tp1_hit := tp1_hit tr;
     tp1_qty_closed := tp1_qty_closed tr; pnl_usdt := pnl_usdt tr;
     pnl_pct_equity := pnl_pct_equity tr; close_reason := close_reason tr |}.

Definition set_tp1_hit (v : bool) (tr : Trade) : Trade :=
  {| ts_created := ts_created tr; ts_closed := ts_closed tr;
     trade_id := trade_id tr; exchange := exchange tr; market := market tr;
     symbol := symbol tr; symbol_raw := symbol_raw tr; setup := setup tr;
     regime := regime tr; side := side tr; status := status tr;
     leverage := leverage tr; entry := entry tr; sl := sl tr; tp1 := tp1 tr;
     tp2 := tp2 tr; qty := qty tr; filled_entry := filled_entry tr;
     filled_qty := filled_qty tr; tp1_hit := v;
     tp1_qty_closed := tp1_qty_closed tr; pnl_usdt := pnl_usdt tr;
     pnl_pct_equity := pnl_pct_equity tr; close_reason := close_reason tr |}.

Definition set_tp1_qty_closed (v : pyfloat) (tr : Trade) : Trade :=
  {| ts_created := ts_created tr; ts_closed := ts_closed tr;
     trade_id := trade_id tr; exchange := exchange tr; market := market tr;
     symbol := symbol tr; symbol_raw := symbol_raw tr; setup := setup tr;
     regime := regime tr; side := side tr; status := status tr;
     leverage := leverage tr; entry := entry tr; sl := sl tr; tp1 := tp1 tr;
     tp2 := tp2 tr; qty := qty tr; filled_entry := filled_entry tr;
     filled_qty := filled_qty tr; tp1_hit := tp1_hit tr; tp1_qty_closed := v;
     pnl_usdt := pnl_usdt tr; pnl_pct_equity := pnl_pct_equity tr;
     close_reason := close_reason tr |}.

Definition set_pnl_usdt (v : pyfloat) (tr : Trade) : Trade :=
  {| ts_created := ts_created tr; ts_closed := ts_closed tr;
     trade_id := trade_id tr; exchange := exchange tr; market := market tr;
     symbol := symbol tr; symbol_raw := symbol_raw tr; setup := setup tr;
     regime := regime tr; side := side tr; status := status tr;
     leverage := leverage tr; entry := entry tr; sl := sl tr; tp1 := tp1 tr;
     tp2 := tp2 tr; qty := qty tr; filled_entry := filled_entry tr;
     filled_qty := filled_qty tr; tp1_hit := tp1_hit tr;
     tp1_qty_closed := tp1_qty_closed tr; pnl_usdt := v;
     pnl_pct_equity := pnl_pct_equity tr; close_reason := close_reason tr |}.

Definition set_pnl_pct_equity (v : pyfloat) (tr : Trade) : Trade :=
  {| ts_created := ts_created tr; ts_closed := ts_closed tr;
     trade_id := trade_id tr; exchange := exchange tr; market := market tr;
     symbol := symbol tr; symbol_raw := symbol_raw tr; setup := setup tr;
     regime := regime tr; side := side tr; status := status tr;
     leverage := leverage tr; entry := entry tr; sl := sl tr; tp1 := tp1 tr;
     tp2 := tp2 tr; qty := qty tr; filled_entry := filled_entry tr;
     filled_qty := filled_qty tr; tp1_hit := tp1_hit tr;
     tp1_qty_closed := tp1_qty_closed tr; pnl_usdt := pnl_usdt tr;
     pnl_pct_equity := v; close_reason := close_reason tr |}.

Definition set_close_reason (v : string) (tr : Trade) : Trade :=
  {| ts_created := ts_created tr; ts_closed := ts_closed tr;
     trade_id := trade_id tr; exchange := exchange tr; market := market tr;
     symbol := symbol tr; symbol_raw := symbol_raw tr; setup := setup tr;
     regime := regime tr; side := side tr; status := status tr;
     leverage := leverage tr; entry := entry tr; sl := sl tr; tp1 := tp1 tr;
     tp2 := tp2 tr; qty := qty tr; filled_entry := filled_entry tr;
     filled_qty := filled_qty tr; tp1_hit := tp1_hit tr;
     tp1_qty_closed := tp1_qty_closed tr; pnl_usdt := pnl_usdt tr;
     pnl_pct_equity := pnl_pct_equity tr; close_reason := v |}.

(** A signal event, one parsed line of the signals file.  The text
    fields hold [str(evt.get(k, ""))]; [evt_market] and [evt_exchange]
    are [None] when the key is missing; [evt_lower] and [evt_upper] are
    [None] when the value is not a list. *)
Record Event : Type := {
  evt_ts : string;
  evt_symbol : string;
  evt_symbol_raw : string;
  evt_setup : string;
  evt_regime : string;
  evt_market : option string;
  evt_exchange : option string;
  evt_lower : option (list raw);
  evt_upper : option (list raw);
  evt_close : raw
}.

(** What the clock says during one pass of the loop: [now_iso()],
    [int(time.time())], and the seconds elapsed since a [ts_created]
    stamp (the stamps are those [now_iso()] wrote, so parsing them does
    not raise). *)
Record Clock : Type := {
  now_iso : string;
  time_time : Z;
  age_of : string -> pyfloat
}.

Definition get_default (default : string) (v : option string) : string :=
  match v with
  | Some s => s
  | None => default
  end.

Section WithConfig.
Variable cfg : Config.

(** *** Planning logic from a signal event *)

(** Entry, stop and targets from the zone geometry:
    [(entry, sl, tp1, tp2)]. *)
Definition plan_levels (side : string)
    (lower_lo lower_hi upper_lo upper_hi : pyfloat)
    : pyfloat * pyfloat * pyfloat * pyfloat :=
  let entry :=
    if (ENTRY_PRICE_MODE cfg =? "LOHI")%string
    then (if (side =? "LONG")%string then lower_lo else upper_hi)
    else (if (side =? "LONG")%string then lower_hi else upper_lo) in
  let zone_h := py_max (dec 1 9) (lower_hi - lower_lo)%F in
  let zone_u := py_max (dec 1 9) (upper_hi - upper_lo)%F in
  let pad :=
    py_max (dec 5 1)
      ((if (side =? "LONG")%string then zone_h else zone_u) * dec 15 1)%F in
  if (side =? "LONG")%string then
    let sl := (lower_lo - pad)%F in
    let tp1 := py_min upper_lo (entry + (upper_lo - entry) * dec 35 2)%F in
    let tp2 := upper_lo in
    let tp2 :=
      if (tp2 <=? entry)%F
      then py_max (entry * dec 1001 3)%F (entry + fabs (entry - sl) * dec 12 1)%F
      else tp2 in
    let tp1 :=
      if (tp1 <=? entry)%F then (entry + fabs (entry - sl) * dec 6 1)%F
      else tp1 in
    (entry, sl, tp1, tp2)
  else
    let sl := (upper_hi + pad)%F in
    let tp1 := py_max lower_hi (entry - (entry - lower_hi) * dec 35 2)%F in
    let tp2 := lower_hi in
    let tp2 :=
      if (tp2 >=? entry)%F
      then py_min (entry * dec 999 3)%F (entry - fabs (entry - sl) * dec 12 1)%F
      else tp2 in
    let tp1 :=
      if (tp1 >=? entry)%F then (entry - fabs (entry - sl) * dec 6 1)%F
      else tp1 in
    (entry, sl, tp1, tp2).

(** Risk sizing before the rounding for display. *)
Definition plan_qty (equity : pyfloat) (leverage : Z)
    (per_unit_risk : pyfloat) : pyfloat :=
  let risk_usdt := py_max (of_Z 0) (equity * RISK_PCT cfg)%F in
  (risk_usdt / per_unit_risk * of_Z leverage)%F.

Definition plan_from_event (clk : Clock) (evt : Event) (equity : pyfloat)
    (leverage : Z) : option Trade :=
  let sym := strip (evt_symbol evt) in
  let sym_raw := strip (evt_symbol_raw evt) in
  let setup := strip (evt_setup evt) in
  let regime := strip (evt_regime evt) in
  let market := strip (get_default "futures" (evt_market evt)) in
  let exchange := strip (get_default (EXCHANGE_ID cfg) (evt_exchange evt)) in
  match evt_lower evt, evt_upper evt with
  | Some [l0; l1], Some [u0; u1] =>
    if (sym =? "")%string then None else
    let lower_lo := safe_float l0 NaN in
    let lower_hi := safe_float l1 NaN in
    let upper_lo := safe_float u0 NaN in
    let upper_hi := safe_float u1 NaN in
    if isnan lower_lo || isnan lower_hi || isnan upper_lo || isnan upper_hi
    then None else
    let close_px := safe_float (evt_close evt) NaN in
    if isnan close_px || (close_px <=? of_Z 0)%F then None else
    let side := if contains "SHORT" (upper setup) then "SHORT" else "LONG" in
    let '(entry, sl, tp1, tp2) :=
      plan_levels side lower_lo lower_hi upper_lo upper_hi in
    let per_unit_risk := fabs (entry - sl)%F in
    if (per_unit_risk <=? of_Z 0)%F then None else
    let qty := plan_qty equity leverage per_unit_risk in
    if negb (isfinite qty) || (qty <=? of_Z 0)%F then None else
    let qty := round_dp 6 qty in
    let trade_id :=
      str_of_Z (time_time clk) ++ "-" ++ sym_raw ++ "-" ++ take 16 setup in
    Some {|
      ts_created := now_iso clk;
      ts_closed := "";
      trade_id := trade_id;
      exchange := exchange;
      market := market;
      symbol := sym;
      symbol_raw := sym_raw;
      setup := setup;
      regime := regime;
      side := side;
      status := "OPEN";
      leverage := leverage;
      entry := round_dp 4 entry;
      sl := round_dp 4 sl;
      tp1 := round_dp 4 tp1;
      tp2 := round_dp 4 tp2;
      qty := qty;
      filled_entry := of_Z 0;
      filled_qty := of_Z 0;
      tp1_hit := false;
      tp1_qty_closed := of_Z 0;
      pnl_usdt := of_Z 0;
      pnl_pct_equity := of_Z 0;
      close_reason := ""
    |}
  | _, _ => None
  end.

(** *** PnL *)

Definition pnl_for_move (side : string) (entry exit_px qty : pyfloat)
    (leverage : Z) : pyfloat :=
  if (qty <=? of_Z 0)%F then of_Z 0
  else if (side =? "LONG")%string then ((exit_px - entry) * qty)%F
  else ((entry - exit_px) * qty)%F.

(** *** Tick / fill simulation *)

Definition should_fill_entry (side : string) (entry px : pyfloat) : bool :=
  if (side =? "LONG")%string then (px <=? entry)%F else (px >=? entry)%F.

Definition stop_triggered (side : string) (sl px : pyfloat) : bool :=
  if (side =? "LONG")%string then (px <=? sl)%F else (px >=? sl)%F.

Definition tp1_triggered (side : string) (tp1 px : pyfloat) : bool :=
  if (side =? "LONG")%string then (px >=? tp1)%F else (px <=? tp1)%F.

Definition tp2_triggered (side : string) (tp2 px : pyfloat) : bool :=
  if (side =? "LONG")%string then (px >=? tp2)%F else (px <=? tp2)%F.

Definition apply_be_move (tr : Trade) : Trade :=
  if negb (MOVE_SL_TO_BE_ON_TP1 cfg) then tr
  else if (filled_qty tr <=? of_Z 0)%F then tr
  else if (side tr =? "LONG")%string then
    let be := (filled_entry tr * (of_Z 1 + BE_BUFFER_PCT cfg))%F in
    set_sl (round_dp 4 be) tr
  else
    let be := (filled_entry tr * (of_Z 1 - BE_BUFFER_PCT cfg))%F in
    set_sl (round_dp 4 be) tr.

Definition stop_fill_price (tr : Trade) (px : pyfloat) : pyfloat :=
  if (STOP_FILL_MODE cfg =? "MARKET")%string then px
  else sl tr.

(** *** Event identity and the recently-seen list *)

Definition dedup_key (evt : Event) : string :=
  evt_ts evt ++ "|" ++ evt_symbol_raw evt ++ "|" ++ evt_setup evt.

(** [dedup_accept]: the answer and the list left in [st["dedup"]]. *)
Definition dedup_accept (arr : list string) (evt : Event) : bool * list string :=
  let key := dedup_key evt in
  if existsb (String.eqb key) arr then (false, arr)
  else
    let arr := (arr ++ [key])%list in
    let arr :=
      if (DEDUP_WINDOW cfg <? Z.of_nat (List.length arr))%Z
      then slice_from (- DEDUP_WINDOW cfg) arr
      else arr in
    (true, arr).

(** *** The store of trades

    [open_trades] is a [dict] from trade id to the row of the trade; it
    keeps insertion order, and rows are never removed. *)

Definition Store : Type := list (string * Trade).

Fixpoint dict_get (k : string) (d : Store) : option Trade :=
  match d with
  | [] => None
  | (k', v) :: r => if (k' =? k)%string then Some v else dict_get k r
  end.

(** [d[k] = v]: an existing key keeps its place, a new key goes last. *)
Fixpoint dict_set (k : string) (v : Trade) (d : Store) : Store :=
  match d with
  | [] => [(k, v)]
  | (k', v') :: r =>
      if (k' =? k)%string then (k', v) :: r else (k', v') :: dict_set k v r
  end.

(** What the loop carries from pass to pass, and the rows appended to the
    trade log (JSONL and CSV receive the same rows). *)
Record World : Type := {
  equity : pyfloat;
  open_trades : Store;
  dedup : list string;
  out_rows : list Trade
}.

(** *** Ingesting signal events *)

(** Trades of a symbol recorded with status OPEN. *)
Definition per_sym (sym : string) (d : Store) : list string :=
  map fst
    (filter (fun kv => (symbol (snd kv) =? sym)%string
                       && (status (snd kv) =? "OPEN")%string) d).

Definition ingest_event (clk : Clock) (w : World) (evt : Event) : World :=
  let '(accepted, arr) := dedup_accept (dedup w) evt in
  if negb accepted then w
  else
    let w := {| equity := equity w; open_trades := open_trades w;
                dedup := arr; out_rows := out_rows w |} in
    let sym := strip (evt_symbol evt) in
    if (sym =? "")%string then w
    else if (MAX_OPEN_TRADES_PER_SYMBOL cfg
               <=? Z.of_nat (List.length (per_sym sym (open_trades w))))%Z
    then w
    else
      match plan_from_event clk evt (equity w) (DEFAULT_LEVERAGE cfg) with
      | None => w
      | Some t =>
          {| equity := equity w;
             open_trades := dict_set (trade_id t) t (open_trades w);
             dedup := dedup w; out_rows := out_rows w |}
      end.

Definition ingest (clk : Clock) (evts : list Event) (w : World) : World :=
  fold_left (ingest_event clk) evts w.

(** *** Ticking one trade *)

(** The effect of one iteration of the loop over trades: the row
    assigned to [open_trades[trade_id]] (if the iteration assigns one),
    the row appended to the trade log (if any), the equity afterwards,
    and the local object [tr] as the iteration leaves it. *)
Record Step : Type := {
  stored : option Trade;
  logged : option Trade;
  equity_after : pyfloat;
  local_tr : Trade
}.

Definition pct_of_equity (pnl equity : pyfloat) : pyfloat :=
  if (equity >? of_Z 0)%F then (pnl / equity * of_Z 100)%F else of_Z 0.

(** A terminal transition: the row is logged, stored, and (for a
    close) credited to the equity. *)
Definition close_step (tr : Trade) (equity : pyfloat) : Step :=
  {| stored := Some tr; logged := Some tr;
     equity_after := (equity + pnl_usdt tr)%F; local_tr := tr |}.

(** The body of the loop for a trade whose row [raw] has status OPEN and
    whose symbol has the price [px]. *)
Definition tick_trade (clk : Clock) (equity px : pyfloat) (raw : Trade) : Step :=
  let tr := raw in
  let age := age_of clk (ts_created tr) in
  if (filled_qty tr <=? of_Z 0)%F then
    (* ENTRY fill *)
    if should_fill_entry (side tr) (entry tr) px then
      let tr := set_filled_entry (entry tr) tr in
      let tr := set_filled_qty (qty tr) tr in
      {| stored := None; logged := None; equity_after := equity;
         local_tr := tr |}
    else if (age >=? of_Z (ENTRY_TIMEOUT_SEC cfg))%F then
      let tr := set_status "CANCELED" tr in
      let tr := set_ts_closed (now_iso clk) tr in
      let tr :=
        set_close_reason
          ("ENTRY_TIMEOUT_" ++ str_of_Z (ENTRY_TIMEOUT_SEC cfg) ++ "s") tr in
      let tr := set_pnl_usdt (of_Z 0) tr in
      let tr := set_pnl_pct_equity (of_Z 0) tr in
      {| stored := Some tr; logged := Some tr; equity_after := equity;
         local_tr := tr |}
    else
      (* keep waiting *)
      {| stored := Some tr; logged := None; equity_after := equity;
         local_tr := tr |}
  else if stop_triggered (side tr) (sl tr) px then
    (* SL check first *)
    let exit_px := stop_fill_price tr px in
    let pnl :=
      pnl_for_move (side tr) (filled_entry tr) exit_px (filled_qty tr)
        (leverage tr) in
    let tr := set_pnl_usdt (pnl_usdt tr + pnl)%F tr in
    let tr := set_status "CLOSED" tr in
    let tr := set_ts_closed (now_iso clk) tr in
    let tr := set_close_reason "SL" tr in
    let tr := set_pnl_pct_equity (pct_of_equity (pnl_usdt tr) equity) tr in
    close_step tr equity
  else if negb (tp1_hit tr) && tp1_triggered (side tr) (tp1 tr) px then
    (* TP1 *)
    let qty_close := (filled_qty tr * TP1_CLOSE_FRAC cfg)%F in
    let qty_close := py_max (of_Z 0) (py_min qty_close (filled_qty tr)) in
    let pnl_add :=
      pnl_for_move (side tr) (filled_entry tr) (tp1 tr) qty_close
        (leverage tr) in
    let tr := set_pnl_usdt (pnl_usdt tr + pnl_add)%F tr in
    let tr := set_filled_qty (filled_qty tr - qty_close)%F tr in
    let tr := set_tp1_hit true tr in
    let tr := set_tp1_qty_closed (tp1_qty_closed tr + qty_close)%F tr in
    let tr := apply_be_move tr in
    if (filled_qty tr <=? dec 1 12)%F then
      let tr := set_status "CLOSED" tr in
      let tr := set_ts_closed (now_iso clk) tr in
      let tr := set_close_reason "TP1_FULL" tr in
      let tr := set_pnl_pct_equity (pct_of_equity (pnl_usdt tr) equity) tr in
      close_step tr equity
    else
      {| stored := Some tr; logged := None; equity_after := equity;
         local_tr := tr |}
  else if tp2_triggered (side tr) (tp2 tr) px then
    (* TP2 *)
    let qty_close := filled_qty tr in
    let pnl_add :=
      pnl_for_move (side tr) (filled_entry tr) (tp2 tr) qty_close
        (leverage tr) in
    let tr := set_pnl_usdt (pnl_usdt tr + pnl_add)%F tr in
    let tr := set_filled_qty (of_Z 0) tr in
    let tr := set_status "CLOSED" tr in
    let tr := set_ts_closed (now_iso clk) tr in
    let tr := set_close_reason "TP2" tr in
    let tr := set_pnl_pct_equity (pct_of_equity (pnl_usdt tr) equity) tr in
    close_step tr equity
  else
    (* still open *)
    {| stored := Some tr; logged := None; equity_after := equity;
       local_tr := tr |}.

(** *** One pass over the trades *)

(** [px_map]: the last price the exchange reports for a symbol, kept
    only when it is finite and positive.  [ticker sym] is the ["last"]
    field of [fetch_ticker(sym)], [None] when the call raises. *)
Definition px_of (ticker : string -> option raw) (sym : string) : option pyfloat :=
  if (sym =? "")%string then None
  else
    match ticker sym with
    | None => None
    | Some v =>
        let px := safe_float v NaN in
        if isfinite px && (px >? of_Z 0)%F then Some px else None
    end.

(** One iteration, guards included: rows not OPEN and symbols without a
    price are passed over. *)
Definition tick_entry (clk : Clock) (ticker : string -> option raw)
    (equity : pyfloat) (raw : Trade) : option Step :=
  if negb (status raw =? "OPEN")%string then None
  else
    match px_of ticker (symbol raw) with
    | None => None
    | Some px => Some (tick_trade clk equity px raw)
    end.

(** What an iteration leaves behind: the row under the trade id (the
    old row when nothing was assigned), the trade log, the equity. *)
Definition row_of (s : option Step) (raw : Trade) : Trade :=
  match s with
  | Some {| stored := Some r |} => r
  | _ => raw
  end.

Definition log_of (s : option Step) (log : list Trade) : list Trade :=
  match s with
  | Some {| logged := Some r |} => (log ++ [r])%list
  | _ => log
  end.

Definition equity_of (s : option Step) (equity : pyfloat) : pyfloat :=
  match s with
  | Some st => equity_after st
  | None => equity
  end.

Definition row_after (clk : Clock) (ticker : string -> option raw)
    (equity : pyfloat) (raw : Trade) : Trade :=
  row_of (tick_entry clk ticker equity raw) raw.

(** The loop [for trade_id, raw in list(open_trades.items())] as it is
    written: it walks a snapshot of the items and assigns into the
    dictionary [d]. *)
Definition assign (trade_id : string) (s : option Step) (d : Store) : Store :=
  match s with
  | Some {| stored := Some r |} => dict_set trade_id r d
  | _ => d
  end.

Fixpoint tick_loop (clk : Clock) (ticker : string -> option raw)
    (snapshot d : Store) (equity : pyfloat) (log : list Trade)
    : Store * pyfloat * list Trade :=
  match snapshot with
  | [] => (d, equity, log)
  | (trade_id, raw) :: rest =>
      let s := tick_entry clk ticker equity raw in
      tick_loop clk ticker rest (assign trade_id s d)
        (equity_of s equity) (log_of s log)
  end.

(** The same loop as a rewriting of the entries in place.  An iteration
    assigns at most [open_trades[trade_id]], the key it reads, and a
    [dict] has each key once, so the two agree on every store
    ([tick_loop_in_place] below); the properties are proved on this
    form. *)
Fixpoint tick_entries (clk : Clock) (ticker : string -> option raw)
    (entries : Store) (equity : pyfloat) (log : list Trade)
    : Store * pyfloat * list Trade :=
  match entries with
  | [] => ([], equity, log)
  | (trade_id, raw) :: rest =>
      let s := tick_entry clk ticker equity raw in
      let '(rest', eq', log') :=
        tick_entries clk ticker rest (equity_of s equity) (log_of s log) in
      ((trade_id, row_of s raw) :: rest', eq', log')
  end.

Definition tick_pass (clk : Clock) (ticker : string -> option raw)
    (w : World) : World :=
  let '(d, eq', log') :=
    tick_entries clk ticker (open_trades w) (equity w) (out_rows w) in
  {| equity := eq'; open_trades := d; dedup := dedup w; out_rows := log' |}.

(** *** The main loop *)

(** What one wake-up of the loop reads from outside. *)
Record Input : Type := {
  in_clock : Clock;
  in_events : list Event;
  in_ticker : string -> option raw
}.

Definition loop_body (w : World) (i : Input) : World :=
  tick_pass (in_clock i) (in_ticker i) (ingest (in_clock i) (in_events i) w).

Definition run (inputs : list Input) (w : World) : World :=
  fold_left loop_body inputs w.

(** Successive passes over the trades with no new event in between. *)
Definition tick_passes (ticks : list (Clock * (string -> option raw)))
    (w : World) : World :=
  fold_left (fun w t => tick_pass (fst t) (snd t) w) ticks w.

End WithConfig.

(** The rows a trade can show in the store: the row the planner made,
    and any row an iteration leaves from such a row. *)
Inductive reachable (cfg : Config) : Trade -> Prop :=
| reach_plan clk evt equity leverage t :
    plan_from_event cfg clk evt equity leverage = Some t ->
    reachable cfg t
| reach_tick clk ticker equity raw :
    reachable cfg raw ->
    reachable cfg (row_after cfg clk ticker equity raw).

(** Number of rows of a symbol with status OPEN. *)
Definition open_count (sym : string) (d : Store) : Z :=
  Z.of_nat (List.length (per_sym sym d)).

(** 1 for a row of the symbol with status OPEN, else 0. *)
Definition counts (sym : string) (v : Trade) : Z :=
  if (symbol v =? sym)%string && (status v =? "OPEN")%string then 1%Z
  else 0%Z.

(** The store is within the cap on open trades per symbol. *)
Definition capped (cfg : Config) (w : World) : Prop :=
  forall sym,
    (open_count sym (open_trades w) <= MAX_OPEN_TRADES_PER_SYMBOL cfg)%Z.

End PaperExec.

(* ================================================================== *)
(** ** Concrete inputs used below *)

Module Scenario.
Import PaperExec.

(** The trade of scenarios A and B as the planner would store it:
    LONG, entry 100, stop 95, targets 103 and 108, size 10, not filled. *)
Definition trade_AB : Trade := {|
  ts_created := "2024-01-01T00:00:00+00:00";
  ts_closed := "";
  trade_id := "1704067200-BTCUSDT-MEAN_REVERT_LOWE";
  exchange := "mexc";
  market := "futures";
  symbol := "BTC/USDT:USDT";
  symbol_raw := "BTCUSDT";
  setup := "MEAN_REVERT_LOWER_TOUCH_LONG";
  regime := "RANGE_CHOP";
  side := "LONG";
  status := "OPEN";
  leverage := 5;
  entry := of_Z 100;
  sl := of_Z 95;
  tp1 := of_Z 103;
  tp2 := of_Z 108;
  qty := of_Z 10;
  filled_entry := of_Z 0;
  filled_qty := of_Z 0;
  tp1_hit := false;
  tp1_qty_closed := of_Z 0;
  pnl_usdt := of_Z 0;
  pnl_pct_equity := of_Z 0;
  close_reason := ""
|}.

(** A clock one minute after the trade was created. *)
Definition clock_1m : Clock := {|
  now_iso := "2024-01-01T00:01:00+00:00";
  time_time := 1704067260;
  age_of := fun _ => of_Z 60
|}.

Definition world_AB : World := {|
  equity := of_Z 1000;
  open_trades := [(trade_id trade_AB, trade_AB)];
  dedup := [];
  out_rows := []
|}.

(** A wake-up with no new event in which every symbol trades at [p]. *)
Definition tick_at (p : Z) : Input := {|
  in_clock := clock_1m;
  in_events := [];
  in_ticker := fun _ => Some (RNum (inject_Z p))
|}.

(** [trade_AB] once its entry is filled, as the claim of scenario A
    expects the first tick to leave it. *)
Definition trade_AB_filled : Trade :=
  set_filled_qty (of_Z 10) (set_filled_entry (of_Z 100) trade_AB).

(** The same trade closed at its stop, and a store that holds it. *)
Definition trade_AB_stopped : Trade :=
  set_pnl_pct_equity (of_Z (-5))
    (set_close_reason "SL"
       (set_ts_closed "2024-01-01T00:01:00+00:00"
          (set_status "CLOSED"
             (set_pnl_usdt (of_Z (-50)) trade_AB_filled)))).

Definition world_stopped : World := {|
  equity := of_Z 950;
  open_trades := [(trade_id trade_AB_stopped, trade_AB_stopped)];
  dedup := [];
  out_rows := [trade_AB_stopped]
|}.

(** A mean-revert LONG signal with zones 100..101 and 110..111. *)
Definition event_long : Event := {|
  evt_ts := "2024-01-01T00:00:00+0000";
  evt_symbol := "BTC/USDT:USDT";
  evt_symbol_raw := "BTCUSDT";
  evt_setup := "MEAN_REVERT_LOWER_TOUCH_LONG";
  evt_regime := "RANGE_CHOP";
  evt_market := Some "futures";
  evt_exchange := Some "mexc";
  evt_lower := Some [RNum 100; RNum 101];
  evt_upper := Some [RNum 110; RNum 111];
  evt_close := RNum 105
|}.

Definition clock_0 : Clock := {|
  now_iso := "2024-01-01T00:00:00+00:00";
  time_time := 1704067200;
  age_of := fun _ => of_Z 0
|}.

(** A one-candle window whose high does not coerce to a number. *)
Definition window_bad_high : list (list raw) :=
  [[RNum 0; RNum 1; RBad; RNum 1; RNum 1]].

(** A one-candle window whose high and close are [inf]. *)
Definition window_inf_high : list (list raw) :=
  [[RNum 0; RNum 1; RInf false; RNum 1; RInf false]].

(** A filled SHORT whose stop and both targets sit at one price. *)
Definition trade_short_filled : Trade := {|
  ts_created := "2024-01-01T00:00:00+00:00";
  ts_closed := "";
  trade_id := "1704067200-ETHUSDT-MEAN_REVERT_UPPE";
  exchange := "mexc";
  market := "futures";
  symbol := "ETH/USDT:USDT";
  symbol_raw := "ETHUSDT";
  setup := "MEAN_REVERT_UPPER_TOUCH_SHORT";
  regime := "RANGE_CHOP";
  side := "SHORT";
  status := "OPEN";
  leverage := 5;
  entry := of_Z 100;
  sl := of_Z 100;
  tp1 := of_Z 100;
  tp2 := of_Z 100;
  qty := of_Z 10;
  filled_entry := of_Z 100;
  filled_qty := of_Z 10;
  tp1_hit := false;
  tp1_qty_closed := of_Z 0;
  pnl_usdt := of_Z 0;
  pnl_pct_equity := of_Z 0;
  close_reason := ""
|}.

End Scenario.

(* ================================================================== *)
(** ** More of Python: indexing, text, sums *)

Module PyExt.

(** Two floats that are the same number, the same infinity, or both
    [nan]. *)
Definition feq (x y : pyfloat) : Prop :=
  match x, y with
  | Num a, Num b => a == b
  | Inf s, Inf t => s = t
  | NaN, NaN => True
  | _, _ => False
  end.

Definition Qltb (a b : Q) : bool := negb (Qle_bool b a).

(** [l[i]]: a negative [i] counts from the end; [IndexError] outside. *)
Definition py_index {A : Type} (l : list A) (i : Z) : outcome A :=
  if (i <? 0)%Z then
    if (Z.of_nat (List.length l) <? - i)%Z then Raises
    else item l (List.length l - Z.to_nat (- i))
  else item l (Z.to_nat i).

(** [sum(xs)]: the fold starts from the integer 0. *)
Definition fsum (xs : list pyfloat) : pyfloat := fold_left fadd xs (of_Z 0).

(** [int(x)] for a finite float: truncation toward zero. *)
Definition py_int (q : Q) : Z := Z.quot (Qnum q) (Zpos (Qden q)).

(** [s.endswith(suffix)] *)
Fixpoint ends_with (suffix s : string) : bool :=
  if (s =? suffix)%string then true
  else match s with
       | EmptyString => false
       | String _ r => ends_with suffix r
       end.

(** [s[:-n]] *)
Definition drop_last (n : nat) (s : string) : string :=
  substring 0 (String.length s - n) s.

(** [s.replace(c, by)] for a pattern [c] of one character. *)
Fixpoint replace_char (c : ascii) (by_ : string) (s : string) : string :=
  match s with
  | EmptyString => EmptyString
  | String a r =>
      if Ascii.eqb a c then by_ ++ replace_char c by_ r
      else String a (replace_char c by_ r)
  end.

(** A [dict] with text keys, in insertion order. *)
Fixpoint aget {V : Type} (k : string) (d : list (string * V)) : option V :=
  match d with
  | [] => None
  | (k', v) :: r => if (k' =? k)%string then Some v else aget k r
  end.

Fixpoint aset {V : Type} (k : string) (v : V) (d : list (string * V))
    : list (string * V) :=
  match d with
  | [] => [(k, v)]
  | (k', v') :: r =>
      if (k' =? k)%string then (k', v) :: r else (k', v') :: aset k v r
  end.

(** A float written to JSON and read back, then handed to [float()]. *)
Definition as_raw (x : pyfloat) : raw :=
  match x with
  | Num q => RNum q
  | Inf s => RInf s
  | NaN => RBad
  end.

End PyExt.
Import PyExt.

(* ================================================================== *)
(** ** alerts.py: data health, price statistics, setups, gates *)

Module AlertsExt.
Import Alerts.

(** *** Settings *)

Record Settings : Type := {
  SYMBOL : string;
  SETUP_COOLDOWN_SEC : Z;
  WATCH_ALT_BTC : list string;
  ALT_BTC_BIAS_PCT : Q;
  filters : Config
}.

Definition default_settings : Settings := {|
  SYMBOL := "BTCUSDT";
  SETUP_COOLDOWN_SEC := 600;
  WATCH_ALT_BTC := ["ETHBTC"; "SOLBTC"];
  ALT_BTC_BIAS_PCT := 3 # 100;
  filters := default_config
|}.

(** *** Paper signal emitter *)

Definition to_ccxt_swap_symbol (binance_symbol : option string) : string :=
  let s := strip (upper (or_empty binance_symbol)) in
  if negb (ends_with "USDT" s) || (String.length s <=? 4)%nat then s
  else
    let base := drop_last 4 s in
    base ++ "/USDT:USDT".

(** *** API health gate *)

Record Health : Type := {
  down_since : option Q;
  degraded_sent : bool;
  last_degraded_sent : option Q
}.

Definition healthy : Health :=
  {| down_since := None; degraded_sent := false; last_degraded_sent := None |}.

Definition _HEALTH : list (string * Health) :=
  [("Binance fapi", healthy); ("Binance spot", healthy); ("Bybit api", healthy)].

Definition DEGRADED_AFTER_S : Q := 180.
Definition DEGRADED_GAP_S : Q := 1800.

(** A message handed to [send_regime], with the clock reading of the
    call. *)
Inductive notice : Type :=
| Degraded (src : string) (now : Q)
| Recovered (src : string) (down_for : Z).

(** [_health_fail(src)] with [time.time() = now]: the table afterwards
    and the messages sent. *)
Definition _health_fail (src : string) (now : Q)
    (H : list (string * Health)) : list (string * Health) * list notice :=
  match aget src H with
  | None => (H, [])
  | Some st =>
      let since :=
        match down_since st with
        | None => now
        | Some t => t
        end in
      let st := {| down_since := Some since;
                   degraded_sent := degraded_sent st;
                   last_degraded_sent := last_degraded_sent st |} in
      let down_for := now - since in
      if Qltb down_for DEGRADED_AFTER_S then (aset src st H, [])
      else if degraded_sent st then (aset src st H, [])
      else
        let quiet :=
          match last_degraded_sent st with
          | Some last => Qltb (now - last) DEGRADED_GAP_S
          | None => false
          end in
        if quiet then (aset src st H, [])
        else
          (aset src {| down_since := Some since;
                       degraded_sent := true;
                       last_degraded_sent := Some now |} H,
           [Degraded src now])
  end.

Definition _health_ok (src : string) (now : Q)
    (H : list (string * Health)) : list (string * Health) * list notice :=
  match aget src H with
  | None => (H, [])
  | Some st =>
      match down_since st with
      | None => (H, [])
      | Some since =>
          let down_for := py_int (now - since) in
          (aset src {| down_since := None;
                       degraded_sent := false;
                       last_degraded_sent := last_degraded_sent st |} H,
           [Recovered src down_for])
      end
  end.

(** What [fetch_json] reports about a source, in the order of the calls:
    a failed attempt or a good answer, at a clock reading. *)
Inductive probe : Type :=
| Failed (now : Q)
| Answered (now : Q).

Definition probe_time (p : probe) : Q :=
  match p with
  | Failed t => t
  | Answered t => t
  end.

Definition health_step (src : string) (p : probe)
    (H : list (string * Health)) : list (string * Health) * list notice :=
  match p with
  | Failed now => _health_fail src now H
  | Answered now => _health_ok src now H
  end.

Fixpoint health_run (src : string) (ps : list probe)
    (H : list (string * Health)) : list (string * Health) * list notice :=
  match ps with
  | [] => (H, [])
  | p :: rest =>
      let '(H1, out1) := health_step src p H in
      let '(H2, out2) := health_run src rest H1 in
      (H2, (out1 ++ out2)%list)
  end.

(** The clock readings of the DEGRADED messages of a source. *)
Fixpoint degraded_times (src : string) (out : list notice) : list Q :=
  match out with
  | [] => []
  | Degraded s t :: r =>
      if (s =? src)%string then t :: degraded_times src r
      else degraded_times src r
  | Recovered _ _ :: r => degraded_times src r
  end.

(** Successive readings at least [gap] apart, the first one at least
    [gap] after [prev] when there is a [prev]. *)
Fixpoint spaced (gap : Q) (prev : option Q) (ts : list Q) : Prop :=
  match ts with
  | [] => True
  | t :: r =>
      match prev with
      | Some p => gap <= t - p
      | None => True
      end /\ spaced gap (Some t) r
  end.

(** The last alert time kept for a source, if the source is tracked. *)
Definition last_alert (src : string) (H : list (string * Health)) : option Q :=
  match aget src H with
  | Some st => last_degraded_sent st
  | None => None
  end.

(** *** Price statistics *)

(** [safe_float(k[i])] *)
Definition cell (k : list raw) (i : nat) : outcome pyfloat :=
  v <- item k i ;; Returns (safe_float v NaN).

Definition px_change_15m_from_1m (kl_1m : list (list raw))
    : outcome (option pyfloat) :=
  if (List.length kl_1m <? 20)%nat then Returns None
  else
    k_now <- py_index kl_1m (-1) ;;
    close_now <- cell k_now 4 ;;
    k_15m <- py_index kl_1m (-16) ;;
    close_15m <- cell k_15m 4 ;;
    if (close_now <=? of_Z 0)%F || (close_15m <=? of_Z 0)%F then Returns None
    else Returns (Some ((close_now / close_15m - of_Z 1) * of_Z 100)%F).

(** [max(a, b, c)] *)
Definition py_max3 (a b c : pyfloat) : pyfloat := py_max (py_max a b) c.

(** True ranges of the candles 1.. of a series: [(h, l)] of a candle
    with the close [pc] of the one before. *)
Definition true_ranges (highs lows closes : list pyfloat) : list pyfloat :=
  map (fun '(h, l, pc) => py_max3 (h - l)%F (fabs (h - pc)%F) (fabs (l - pc)%F))
      (combine (combine (tl highs) (tl lows)) closes).

Definition atr_from_15m (kl_15m : list (list raw)) (period : Z)
    : outcome (option pyfloat) :=
  if (Z.of_nat (List.length kl_15m) <? period + 2)%Z then Returns None
  else
    highs <- column 2 kl_15m ;;
    lows <- column 3 kl_15m ;;
    closes <- column 4 kl_15m ;;
    let trs := true_ranges highs lows closes in
    let recent := slice_from (- period) trs in
    match recent with
    | [] => Returns None
    | _ :: _ =>
        Returns (Some (fsum recent / of_Z (Z.of_nat (List.length recent)))%F)
    end.

(** *** Setup detection *)

(** [fmt_int]: the integer [int(round(x))] that is shown; [round]
    raises [ValueError] on [nan] and [OverflowError] on an infinity.  The
    grouping of the digits is left out. *)
Definition fmt_int (x : pyfloat) : outcome Z :=
  match x with
  | Num q => Returns (round_half_even q)
  | _ => Raises
  end.

(** A detected setup.  The display texts [title] and [info] of the
    source are left out; that building [info] raises when a value it
    shows is not finite is kept. *)
Record SetupSignal : Type := {
  key : string;
  direction : string
}.

Definition detect_setups (regime_key : string) (kl_1m : list (list raw))
    (z : Zones) : outcome (list SetupSignal) :=
  if (List.length kl_1m <? 3)%nat then Returns []
  else
    k1 <- py_index kl_1m (-1) ;;
    h1 <- cell k1 2 ;;
    l1 <- cell k1 3 ;;
    c1 <- cell k1 4 ;;
    k0 <- py_index kl_1m (-2) ;;
    h0 <- cell k0 2 ;;
    l0 <- cell k0 3 ;;
    let sigs := [] in
    (* A) Sweep + reclaim (upper -> short) *)
    let swept_up := (h1 >? upper_hi z)%F || (h0 >? upper_hi z)%F in
    let reclaimed_down := (c1 <? upper_lo z)%F && (h1 >? upper_lo z)%F in
    sigs <-
      (if swept_up && reclaimed_down
       then
         i1 <- fmt_int (upper_lo z) ;;
         i2 <- fmt_int (upper_hi z) ;;
         i3 <- fmt_int c1 ;;
         Returns
           (sigs ++ [{| key := "SWEEP_RECLAIM_SHORT"; direction := "SHORT" |}])%list
       else Returns sigs) ;;
    (* B) Sweep + reclaim (lower -> long) *)
    let swept_down := (l1 <? lower_lo z)%F || (l0 <? lower_lo z)%F in
    let reclaimed_up := (c1 >? lower_hi z)%F && (l1 <? lower_hi z)%F in
    sigs <-
      (if swept_down && reclaimed_up
       then
         i1 <- fmt_int (lower_lo z) ;;
         i2 <- fmt_int (lower_hi z) ;;
         i3 <- fmt_int c1 ;;
         Returns
           (sigs ++ [{| key := "SWEEP_RECLAIM_LONG"; direction := "LONG" |}])%list
       else Returns sigs) ;;
    (* C) Mean revert (RANGE only) *)
    if (regime_key =? "RANGE")%string then
      let touch_upper := (h1 >=? upper_lo z)%F in
      let back_inside_upper := (c1 <? upper_lo z)%F in
      sigs <-
        (if touch_upper && back_inside_upper
         then
           i1 <- fmt_int (upper_lo z) ;;
           i2 <- fmt_int c1 ;;
           Returns
             (sigs ++ [{| key := "MEAN_REVERT_SHORT"; direction := "SHORT" |}])%list
         else Returns sigs) ;;
      let touch_lower := (l1 <=? lower_hi z)%F in
      let back_inside_lower := (c1 >? lower_hi z)%F in
      if touch_lower && back_inside_lower
      then
        i1 <- fmt_int (lower_hi z) ;;
        i2 <- fmt_int c1 ;;
        Returns
          (sigs ++ [{| key := "MEAN_REVERT_LONG"; direction := "LONG" |}])%list
      else Returns sigs
    else Returns sigs.

Definition all_setups : list string :=
  ["SWEEP_RECLAIM_SHORT"; "SWEEP_RECLAIM_LONG";
   "MEAN_REVERT_SHORT"; "MEAN_REVERT_LONG"].

(** [ALLOWED_SETUPS.get(regime_key, set())] *)
Definition ALLOWED_SETUPS (regime_key : string) : list string :=
  if (regime_key =? "SHORT_SQUEEZE")%string then ["SWEEP_RECLAIM_SHORT"]
  else if (regime_key =? "LONG_UNWIND")%string then ["SWEEP_RECLAIM_LONG"]
  else if (regime_key =? "RANGE")%string then all_setups
  else if (regime_key =? "DELEVERAGING")%string then all_setups
  else [].

Definition is_in (x : string) (xs : list string) : bool :=
  existsb (String.eqb x) xs.

(** *** ALT/BTC bias gate *)

(** [spot_klines sym] stands for [binance_spot_klines(sym, "1m", 240)],
    [None] when the request fails.  The answer is the verdict and the
    15-minute change of the ALT/BTC pair when it was looked at. *)
Definition altbtc_bias_ok (cfg : Settings)
    (spot_klines : string -> option (list (list raw)))
    (alt_symbol_usdt : option string) (direction : string)
    : outcome (bool * option pyfloat) :=
  let s := strip (upper (or_empty alt_symbol_usdt)) in
  if negb (ends_with "USDT" s) then Returns (true, None)
  else
    let base := drop_last 4 s in
    let altbtc := base ++ "BTC" in
    if negb (is_in altbtc (WATCH_ALT_BTC cfg)) then Returns (true, None)
    else
      match spot_klines altbtc with
      | None => Returns (true, None)
      | Some [] => Returns (true, None)
      | Some kl =>
          r <- px_change_15m_from_1m kl ;;
          match r with
          | None => Returns (true, None)
          | Some ch =>
              if (direction =? "LONG")%string
                 && (ch <? fneg (Num (ALT_BTC_BIAS_PCT cfg)))%F
              then Returns (false, Some ch)
              else if (direction =? "SHORT")%string
                      && (ch >? Num (ALT_BTC_BIAS_PCT cfg))%F
              then Returns (false, Some ch)
              else Returns (true, Some ch)
          end
      end.

(** *** The pass over the BTC setups in [main] *)

(** The event handed to [emit_signal_event]. *)
Record SignalEvent : Type := {
  ev_exchange : string;
  ev_market : string;
  ev_symbol : string;
  ev_symbol_raw : string;
  ev_setup : string;
  ev_regime : string;
  ev_lower : pyfloat * pyfloat;
  ev_upper : pyfloat * pyfloat;
  ev_close : pyfloat;
  ev_width_pct : pyfloat;
  ev_oi15m : option pyfloat
}.

Definition paper_event (sym : string) (setup : string) (regime_key : string)
    (z : Zones) (close_px : pyfloat) (oi15m : option pyfloat) : SignalEvent :=
  {| ev_exchange := "mexc";
     ev_market := "futures";
     ev_symbol := to_ccxt_swap_symbol (Some sym);
     ev_symbol_raw := sym;
     ev_setup := setup;
     ev_regime :=
       if (regime_key =? "RANGE")%string then "RANGE_CHOP" else regime_key;
     ev_lower := (lower_lo z, lower_hi z);
     ev_upper := (upper_lo z, upper_hi z);
     ev_close := close_px;
     ev_width_pct := width_pct z;
     ev_oi15m := oi15m |}.

(** What the pass has done so far: the setups sent to the signals
    channel, the paper events written, the last emission time per
    [SYMBOL:key]. *)
Record Gate : Type := {
  sent : list SetupSignal;
  events : list SignalEvent;
  last_setup_ts : list (string * Q)
}.

(** The four zone bounds that [build_setup_message] shows; the rest of
    its text is left out. *)
Definition build_setup_message (z : Zones) : outcome (Z * Z * Z * Z) :=
  ul <- fmt_int (upper_lo z) ;;
  uh <- fmt_int (upper_hi z) ;;
  ll <- fmt_int (lower_lo z) ;;
  lh <- fmt_int (lower_hi z) ;;
  Returns (ul, uh, ll, lh).

(** One iteration of [for sig in btc_sigs]. *)
Definition btc_setup_step (cfg : Settings) (now : Q) (regime_key : string)
    (kl_1m : list (list raw)) (z : Zones) (oi15m : option pyfloat)
    (g : Gate) (sig : SetupSignal) : outcome Gate :=
  if negb (is_in (key sig) (ALLOWED_SETUPS regime_key)) then Returns g
  else if is_in (key sig) ["MEAN_REVERT_LONG"; "MEAN_REVERT_SHORT"]
          && negb (fst (mean_revert_ok (filters cfg) z oi15m (direction sig)))
  then Returns g
  else
    let k := SYMBOL cfg ++ ":" ++ key sig in
    let prev :=
      match aget k (last_setup_ts g) with
      | Some t => t
      | None => 0
      end in
    if Qltb (now - prev) (inject_Z (SETUP_COOLDOWN_SEC cfg)) then Returns g
    else
      setup_msg <- build_setup_message z ;;
      k_last <- py_index kl_1m (-1) ;;
      close_px <- cell k_last 4 ;;
      let evs :=
        if (key sig =? "MEAN_REVERT_LONG")%string then
          [paper_event (SYMBOL cfg) "MEAN_REVERT_LOWER_TOUCH_LONG"
             regime_key z close_px oi15m]
        else if (key sig =? "MEAN_REVERT_SHORT")%string then
          [paper_event (SYMBOL cfg) "MEAN_REVERT_UPPER_TOUCH_SHORT"
             regime_key z close_px oi15m]
        else [] in
      Returns {| sent := (sent g ++ [sig])%list;
                 events := (events g ++ evs)%list;
                 last_setup_ts := aset k now (last_setup_ts g) |}.

Fixpoint btc_setups_pass (cfg : Settings) (now : Q) (regime_key : string)
    (kl_1m : list (list raw)) (z : Zones) (oi15m : option pyfloat)
    (btc_sigs : list SetupSignal) (g : Gate) : outcome Gate :=
  match btc_sigs with
  | [] => Returns g
  | sig :: rest =>
      g1 <- btc_setup_step cfg now regime_key kl_1m z oi15m g sig ;;
      btc_setups_pass cfg now regime_key kl_1m z oi15m rest g1
  end.

(** The event as [paper_exec.py] reads it back from the signals file,
    with the stamp [ts] that [emit_signal_event] added. *)
Definition as_read (ts : string) (e : SignalEvent) : PaperExec.Event :=
  {| PaperExec.evt_ts := ts;
     PaperExec.evt_symbol := ev_symbol e;
     PaperExec.evt_symbol_raw := ev_symbol_raw e;
     PaperExec.evt_setup := ev_setup e;
     PaperExec.evt_regime := ev_regime e;
     PaperExec.evt_market := Some (ev_market e);
     PaperExec.evt_exchange := Some (ev_exchange e);
     PaperExec.evt_lower :=
       Some [as_raw (fst (ev_lower e)); as_raw (snd (ev_lower e))];
     PaperExec.evt_upper :=
       Some [as_raw (fst (ev_upper e)); as_raw (snd (ev_upper e))];
     PaperExec.evt_close := as_raw (ev_close e) |}.

End AlertsExt.

(* ================================================================== *)
(** ** paper_exec.py: what a pass logs and credits *)

Module PaperExecExt.
Import PaperExec.

(** The equity after crediting the PnL of the rows, in order. *)
Definition credit (equity : pyfloat) (rows : list Trade) : pyfloat :=
  fold_left (fun e r => (e + pnl_usdt r)%F) rows equity.

(** A row in a final state. *)
Definition terminal (t : Trade) : Prop :=
  status t = "CLOSED" \/ status t = "CANCELED".

(** A row that holds no fill. *)
Definition unfilled (t : Trade) : Prop :=
  fle (filled_qty t) (of_Z 0) = true.

(** Every row of the store satisfies [P]. *)
Definition all_rows (P : Trade -> Prop) (d : Store) : Prop :=
  Forall (fun kv => P (snd kv)) d.

(** Number of rows with status OPEN, of any symbol. *)
Definition n_open (d : Store) : nat :=
  List.length (filter (fun kv => (status (snd kv) =? "OPEN")%string) d).

End PaperExecExt.

(* ================================================================== *)
(** ** daily_report.py and daily_paper_report.py *)

Module Reports.

(** [escape]: five replacements, the ampersand first. *)
Definition escape (s : string) : string :=
  replace_char "'" "&#39;"
    (replace_char (ascii_of_nat 34) "&quot;"
       (replace_char ">" "&gt;"
          (replace_char "<" "&lt;"
             (replace_char "&" "&amp;" s)))).

(** What one character becomes in a single pass. *)
Definition escape_char (c : ascii) : string :=
  if Ascii.eqb c "&" then "&amp;"
  else if Ascii.eqb c "<" then "&lt;"
  else if Ascii.eqb c ">" then "&gt;"
  else if Ascii.eqb c (ascii_of_nat 34) then "&quot;"
  else if Ascii.eqb c "'" then "&#39;"
  else String c EmptyString.

Fixpoint escape_each (s : string) : string :=
  match s with
  | EmptyString => EmptyString
  | String c r => escape_char c ++ escape_each r
  end.

(** The character [c] occurs in [s]. *)
Fixpoint occurs (c : ascii) (s : string) : bool :=
  match s with
  | EmptyString => false
  | String a r => Ascii.eqb a c || occurs c r
  end.

(** The day's figures of [daily_paper_report.main]: count, total, wins,
    losses, flats, win rate, average.  They are computed from the list
    [today] of the values [float(t.get("pnl_usdt", 0.0) or 0.0)] of the
    day's trades, for trades on which that coercion does not raise. *)
Record DayStats : Type := {
  n : nat;
  pnl : pyfloat;
  wins : nat;
  losses : nat;
  flats : Z;
  winrate : pyfloat;
  avg : pyfloat
}.

Definition count_if (p : pyfloat -> bool) (xs : list pyfloat) : nat :=
  List.length (filter p xs).

Definition day_stats (today : list pyfloat) : DayStats :=
  let n := List.length today in
  let pnl := fsum today in
  let wins := count_if (fun x => x >? of_Z 0)%F today in
  let losses := count_if (fun x => x <? of_Z 0)%F today in
  let flats := (Z.of_nat n - Z.of_nat wins - Z.of_nat losses)%Z in
  let winrate :=
    match n with
    | O => of_Z 0
    | _ => (of_Z (Z.of_nat wins) / of_Z (Z.of_nat n) * of_Z 100)%F
    end in
  let avg :=
    match n with
    | O => of_Z 0
    | _ => (pnl / of_Z (Z.of_nat n))%F
    end in
  {| n := n; pnl := pnl; wins := wins; losses := losses; flats := flats;
     winrate := winrate; avg := avg |}.

End Reports.

(* ================================================================== *)
(** ** Further scenarios *)

Module ScenarioExt.
Import Alerts AlertsExt.

(** Zones with the bands 106..107 and 98..99. *)
Definition zones_106_98 : Zones :=
  {| upper_lo := of_Z 106; upper_hi := of_Z 107;
     lower_lo := of_Z 98; lower_hi := of_Z 99;
     width_pct := of_Z 7 |}.

(** Three candles, the last one with a high of 108 above the upper band
    and a close of 105 back below it. *)
Definition window_sweep_up : list (list raw) :=
  [[RNum 0; RNum 100; RNum 105; RNum 99; RNum 101];
   [RNum 1; RNum 101; RNum 106; RNum 100; RNum 102];
   [RNum 2; RNum 102; RNum 108; RNum 100; RNum 105]].

Definition short_setups : list SetupSignal :=
  [{| key := "SWEEP_RECLAIM_SHORT"; direction := "SHORT" |};
   {| key := "MEAN_REVERT_SHORT"; direction := "SHORT" |}].

(** Twenty one-minute candles of ETHBTC closing at 100, then at 99. *)
Definition ethbtc_falling : list (list raw) :=
  (repeat [RNum 0; RNum 100; RNum 100; RNum 100; RNum 100] 19
   ++ [[RNum 0; RNum 100; RNum 100; RNum 99; RNum 99]])%list.

Definition spot_ethbtc (sym : string) : option (list (list raw)) :=
  if (sym =? "ETHBTC")%string then Some ethbtc_falling else None.

(** Narrow zones, 100.3..100.4 above 99.9..100.0, with a width of 0.3
    percent. *)
Definition zones_narrow : Zones :=
  {| upper_lo := Num (1003 # 10); upper_hi := Num (1004 # 10);
     lower_lo := Num (999 # 10); lower_hi := of_Z 100;
     width_pct := Num (3 # 10) |}.

(** Three candles, the last one touching the lower band and closing at
    100.1 above it. *)
Definition window_touch_low : list (list raw) :=
  [[RNum 0; RNum 100; RNum (1002 # 10); RNum 100; RNum (1001 # 10)];
   [RNum 1; RNum 100; RNum (1002 # 10); RNum 100; RNum (1001 # 10)];
   [RNum 2; RNum 100; RNum (1002 # 10); RNum 100; RNum (1001 # 10)]].

(** Sixteen 15-minute candles with high 101, low 99 and close 100. *)
Definition window_15m : list (list raw) :=
  repeat [RNum 0; RNum 100; RNum 101; RNum 99; RNum 100] 16.

Definition sig_long : SetupSignal :=
  {| key := "MEAN_REVERT_LONG"; direction := "LONG" |}.

Definition gate_empty : Gate :=
  {| sent := []; events := []; last_setup_ts := [] |}.

(** The state of the pass after the setup was sent at time 1000. *)
Definition gate_after : Gate :=
  {| sent := [sig_long];
     events :=
       [paper_event "BTCUSDT" "MEAN_REVERT_LOWER_TOUCH_LONG" "RANGE"
          zones_narrow (Num (1001 # 10)) None];
     last_setup_ts := [("BTCUSDT:MEAN_REVERT_LONG", 1000)] |}.

End ScenarioExt.

(* ================================================================== *)
(** ** Facts about floats and strings *)

Module PyFacts.

Lemma fle_Num a b : fle (Num a) (Num b) = true <-> a <= b.
Proof. unfold fle. apply Qle_bool_iff. Qed.

Lemma flt_Num a b : flt (Num a) (Num b) = true <-> a < b.
Proof.
  unfold flt. rewrite negb_true_iff.
  split; intro H.
  - apply Qnot_le_lt. intro L. apply Qle_bool_iff in L. congruence.
  - destruct (Qle_bool b a) eqn:E; [|reflexivity].
    apply Qle_bool_iff in E. exfalso. apply (Qlt_not_le _ _ H E).
Qed.

Lemma flt_Num_false a b : flt (Num a) (Num b) = false <-> b <= a.
Proof.
  unfold flt. rewrite negb_false_iff. apply Qle_bool_iff.
Qed.

Lemma fle_Num_false a b : fle (Num a) (Num b) = false <-> b < a.
Proof.
  rewrite <- flt_Num. unfold fle, flt.
  destruct (Qle_bool a b); simpl; split; congruence.
Qed.

(** A value that compares above a number is a larger number or [inf]. *)
Lemma fgt_inv x b :
  fgt x (Num b) = true -> (exists a, x = Num a /\ b < a) \/ x = Inf false.
Proof.
  destruct x as [|a|[|]]; try discriminate.
  - intro H. left. exists a. split; [reflexivity|]. now apply flt_Num.
  - now right.
Qed.

Lemma fgt_not_fle x y : fgt x y = true -> fle x y = false.
Proof.
  destruct x as [|a|[|]], y as [|b|[|]]; try discriminate; try reflexivity.
  intro H. apply flt_Num in H. now apply fle_Num_false.
Qed.

Lemma py_max_Num a b :
  exists c, py_max (Num a) (Num b) = Num c /\ a <= c /\ b <= c.
Proof.
  unfold py_max, fgt. destruct (flt (Num a) (Num b)) eqn:E.
  - apply flt_Num in E. exists b. repeat split; [lra|lra].
  - apply flt_Num_false in E. exists a. repeat split; [lra|lra].
Qed.

(** [max(0.0, x)] is a non-negative number or [inf] whatever [x] is. *)
Lemma py_max_zero x :
  (exists c, py_max (of_Z 0) x = Num c /\ 0 <= c) \/
  (x = Inf false /\ py_max (of_Z 0) x = Inf false).
Proof.
  destruct x as [|a|[|]].
  - left. exists 0. split; [reflexivity|lra].
  - left. destruct (py_max_Num 0 a) as (c & E & H0 & _). exists c. now split.
  - left. exists 0. split; [reflexivity|lra].
  - right. split; reflexivity.
Qed.

Lemma prefix_spec needle hay :
  prefix needle hay = true <-> exists rest, hay = needle ++ rest.
Proof.
  revert hay. induction needle as [|a n IH]; intros hay.
  - destruct hay; simpl; split; eauto.
  - destruct hay as [|b h]; simpl.
    + split; [discriminate|]. intros (r & E). discriminate.
    + destruct (ascii_dec a b) as [->|D].
      * rewrite IH. split; intros (r & E); exists r; congruence.
      * split; [discriminate|]. intros (r & E). congruence.
Qed.

Lemma contains_unfold needle hay :
  contains needle hay =
  if prefix needle hay then true
  else match hay with
       | EmptyString => false
       | String _ rest => contains needle rest
       end.
Proof. destruct hay; reflexivity. Qed.

(** The substring test decides [Substring]. *)
Lemma contains_spec needle hay :
  contains needle hay = true <-> Substring needle hay.
Proof.
  unfold Substring. split.
  - induction hay as [|c h IH]; rewrite contains_unfold;
      destruct (prefix needle _) eqn:P.
    + apply prefix_spec in P. destruct P as (r & E). now exists "", r.
    + discriminate.
    + apply prefix_spec in P. destruct P as (r & E). now exists "", r.
    + intro H. destruct (IH H) as (p & q & E).
      exists (String c p), q. simpl. now rewrite E.
  - intros (p & q & E). revert hay E.
    induction p as [|c p IH]; intros hay E; rewrite contains_unfold.
    + assert (prefix needle hay = true) as ->; [|reflexivity].
      apply prefix_spec. now exists q.
    + destruct (prefix needle hay); [reflexivity|].
      subst hay. simpl. now apply (IH _ eq_refl).
Qed.

Lemma contains_false needle hay :
  contains needle hay = false <-> ~ Substring needle hay.
Proof.
  rewrite <- contains_spec. destruct (contains needle hay); split; congruence.
Qed.

End PyFacts.

(* ================================================================== *)
(** ** Properties of alerts.py *)

Module AlertsSpec.
Import Alerts PyFacts.

(** *** Regime key *)

(** C6.  [norm_regime] is total: every label, the empty one and a
    missing one included, gets one of the six regime keys, which are
    pairwise different; and the key is decided by the first keyword, in
    the order RANGE, TRANSITION, SQUEEZE or SHORT COVER, LONG UNWIND,
    DELEVERAGING, that occurs in the upper-cased label, UNKNOWN when none
    occurs. *)
Theorem norm_regime_total_precedence (regime_raw : option string) :
  let r := upper (or_empty regime_raw) in
  let k := norm_regime regime_raw in
  In k regime_keys /\ NoDup regime_keys /\
  (Substring "RANGE" r -> k = "RANGE") /\
  (~ Substring "RANGE" r -> Substring "TRANSITION" r -> k = "TRANSITION") /\
  (~ Substring "RANGE" r -> ~ Substring "TRANSITION" r ->
   Substring "SQUEEZE" r \/ Substring "SHORT COVER" r -> k = "SHORT_SQUEEZE") /\
  (~ Substring "RANGE" r -> ~ Substring "TRANSITION" r ->
   ~ Substring "SQUEEZE" r -> ~ Substring "SHORT COVER" r ->
   Substring "LONG UNWIND" r -> k = "LONG_UNWIND") /\
  (~ Substring "RANGE" r -> ~ Substring "TRANSITION" r ->
   ~ Substring "SQUEEZE" r -> ~ Substring "SHORT COVER" r ->
   ~ Substring "LONG UNWIND" r -> Substring "DELEVERAGING" r ->
   k = "DELEVERAGING") /\
  (~ Substring "RANGE" r -> ~ Substring "TRANSITION" r ->
   ~ Substring "SQUEEZE" r -> ~ Substring "SHORT COVER" r ->
   ~ Substring "LONG UNWIND" r -> ~ Substring "DELEVERAGING" r ->
   k = "UNKNOWN").
Proof.
  intros r k. subst k. unfold norm_regime. fold r. unfold regime_key_of.
  split.
  { destruct (contains "RANGE" r); [simpl; tauto|].
    destruct (contains "TRANSITION" r); [simpl; tauto|].
    destruct (contains "SQUEEZE" r || contains "SHORT COVER" r); [simpl; tauto|].
    destruct (contains "LONG UNWIND" r); [simpl; tauto|].
    destruct (contains "DELEVERAGING" r); simpl; tauto. }
  split.
  { unfold regime_keys.
    repeat (constructor; [simpl; intuition discriminate|]). constructor. }
  repeat split; intros;
    repeat match goal with
           | H : Substring _ _ |- _ => apply contains_spec in H; rewrite H
           | H : ~ Substring _ _ |- _ => apply contains_false in H; rewrite H
           | H : _ \/ _ |- _ => destruct H
           end; simpl; rewrite ?orb_true_r; reflexivity.
Qed.

(** A label naming two regimes gets the key of the keyword that comes
    first in the order of precedence, not first in the label. *)
Lemma norm_regime_precedence_witness :
  Substring "RANGE" (upper (or_empty (Some "transition into range")))
  /\ norm_regime (Some "transition into range") = "RANGE".
Proof.
  split.
  - exists "TRANSITION INTO ", "". reflexivity.
  - apply (norm_regime_total_precedence (Some "transition into range")).
    exists "TRANSITION INTO ", "". reflexivity.
Defined.

(** Totality does not depend on how the label was upper-cased: the
    chain of tests answers with one of the six keys on any text. *)
Lemma regime_key_of_total (r : string) : In (regime_key_of r) regime_keys.
Proof.
  unfold regime_key_of, regime_keys.
  repeat match goal with
         | |- context [if ?b then _ else _] => destruct b
         end; simpl; tauto.
Qed.

(** The two-keyword label of [classify_regime] goes to LONG_UNWIND: LONG
    UNWIND is tested before DELEVERAGING. *)
Example norm_regime_deleveraging_label :
  norm_regime (Some "DELEVERAGING / LONG UNWIND") = "LONG_UNWIND"
  /\ norm_regime (Some "SHORT COVER / SQUEEZE") = "SHORT_SQUEEZE"
  /\ norm_regime (Some "RANGE / CHOP (OI n/a)") = "RANGE"
  /\ norm_regime (Some "") = "UNKNOWN"
  /\ norm_regime None = "UNKNOWN".
Proof. repeat split; reflexivity. Qed.

(** Whatever [classify_regime] answers, its label is normalised to one
    of five keys: the label that mentions DELEVERAGING also mentions LONG
    UNWIND, which is tested first. *)
Lemma norm_regime_of_classified px15m oi15m width_pct :
  In (norm_regime (Some (classify_regime px15m oi15m width_pct)))
     ["RANGE"; "TRANSITION"; "SHORT_SQUEEZE"; "LONG_UNWIND"; "UNKNOWN"].
Proof.
  unfold classify_regime.
  destruct px15m as [px|]; [|vm_compute; tauto].
  destruct width_pct as [w|]; [|vm_compute; tauto].
  destruct oi15m as [oi|];
    repeat match goal with
           | |- context [if ?b then _ else _] => destruct b
           end;
    vm_compute; tauto.
Qed.

(** *** Mean-revert quality filter *)

Lemma fabs_Num a : fabs (Num a) = Num (Qred (Qabs a)).
Proof. reflexivity. Qed.

Lemma fneg_Num a : fneg (Num a) = Num (Qred (- a)).
Proof. reflexivity. Qed.

(** C8.  The filter rejects whenever the zone width is above the cap;
    with the contra filter on and an open-interest delta present it
    accepts exactly when the width is within the cap, the delta is at
    least the minimum in size, and its sign opposes the direction (LONG:
    at most minus the minimum, SHORT: at least the minimum); with the
    filter off or no delta, only the width cap decides. *)
Theorem mean_revert_ok_spec (cfg : Config) (z : Zones)
    (oi15m : option pyfloat) (direction : string) :
  let cap := Num (MEAN_REVERT_MAX_WIDTH_PCT cfg) in
  let m := OI_CONTRA_MIN_ABS cfg in
  let ok := fst (mean_revert_ok cfg z oi15m direction) in
  (fgt (width_pct z) cap = true -> ok = false) /\
  (forall oi : Q,
      OI_CONTRA_FILTER cfg = true -> oi15m = Some (Num oi) ->
      (ok = true <->
       fgt (width_pct z) cap = false /\ m <= Qabs oi /\
       (direction = "LONG" -> oi <= - m) /\
       (direction = "SHORT" -> m <= oi))) /\
  (OI_CONTRA_FILTER cfg = false \/ oi15m = None ->
   ok = negb (fgt (width_pct z) cap)).
Proof.
  intros cap m ok. subst ok. unfold mean_revert_ok. fold cap.
  split; [|split].
  - intros ->. reflexivity.
  - intros oi On ->. rewrite On. simpl negb. cbv iota.
    destruct (fgt (width_pct z) cap); cbn [fst].
    { split; [discriminate|]. intros (F & _). discriminate. }
    rewrite fabs_Num, fneg_Num. fold m.
    destruct (flt (Num (Qred (Qabs oi))) (Num m)) eqn:A.
    { apply flt_Num in A. rewrite Qred_correct in A. cbn [fst].
      split; [discriminate|]. intros (_ & H & _). lra. }
    apply flt_Num_false in A. rewrite Qred_correct in A.
    destruct (String.eqb_spec direction "LONG") as [L|L].
    { subst direction. unfold fgt. rewrite andb_true_l.
      destruct (flt (Num (Qred (- m))) (Num oi)) eqn:B.
      - apply flt_Num in B. rewrite Qred_correct in B. cbn [fst].
        split; [discriminate|]. intros (_ & _ & H & _).
        specialize (H eq_refl). lra.
      - apply flt_Num_false in B. rewrite Qred_correct in B. cbn [fst].
        split; [|reflexivity]. intros _.
        repeat split; try assumption; intros; try discriminate; lra. }
    rewrite andb_false_l.
    destruct (String.eqb_spec direction "SHORT") as [S|S].
    { subst direction. rewrite andb_true_l.
      destruct (flt (Num oi) (Num m)) eqn:B.
      - apply flt_Num in B. cbn [fst].
        split; [discriminate|]. intros (_ & _ & _ & H).
        specialize (H eq_refl). lra.
      - apply flt_Num_false in B. cbn [fst].
        split; [|reflexivity]. intros _.
        repeat split; try assumption; intros; try discriminate; lra. }
    rewrite andb_false_l. cbn [fst]. split; [|reflexivity]. intros _.
    repeat split; try assumption; intros; contradiction.
  - intros [Off | ->].
    + rewrite Off. destruct (fgt (width_pct z) cap); [reflexivity|].
      destruct oi15m; reflexivity.
    + destruct (fgt (width_pct z) cap); reflexivity.
Qed.

(** Scenario E and its neighbours on the default settings: a zone of
    width 0.50% is rejected for a LONG whatever the open interest did; a
    zone of width 0.40% passes with a delta of -300 and fails with +300
    or with -100. *)
Lemma mean_revert_ok_spec_witness :
  fgt (dec 50 2) (Num (MEAN_REVERT_MAX_WIDTH_PCT default_config)) = true
  /\ fst (mean_revert_ok default_config
            {| upper_lo := of_Z 110; upper_hi := of_Z 111;
               lower_lo := of_Z 100; lower_hi := of_Z 101;
               width_pct := dec 50 2 |}
            (Some (of_Z (-300))) "LONG") = false.
Proof.
  split; [reflexivity|].
  apply (proj1 (mean_revert_ok_spec default_config
                  {| upper_lo := of_Z 110; upper_hi := of_Z 111;
                     lower_lo := of_Z 100; lower_hi := of_Z 101;
                     width_pct := dec 50 2 |}
                  (Some (of_Z (-300))) "LONG")).
  reflexivity.
Defined.

Example mean_revert_ok_contra_examples :
  let z := {| upper_lo := of_Z 110; upper_hi := of_Z 111;
              lower_lo := of_Z 100; lower_hi := of_Z 101;
              width_pct := dec 40 2 |} in
  mean_revert_ok default_config z (Some (of_Z (-300))) "LONG" = (true, Ok)
  /\ mean_revert_ok default_config z (Some (of_Z 300)) "LONG"
     = (false, BlockedOiLong)
  /\ mean_revert_ok default_config z (Some (of_Z (-100))) "LONG"
     = (false, BlockedOiAbs)
  /\ mean_revert_ok default_config z (Some (of_Z 300)) "SHORT" = (true, Ok)
  /\ mean_revert_ok default_config z (Some (of_Z (-300))) "SHORT"
     = (false, BlockedOiShort)
  /\ mean_revert_ok default_config z None "LONG" = (true, Ok).
Proof. repeat split; reflexivity. Qed.

(** *** Zones *)

Lemma Forall_skipn {A} (P : A -> Prop) n (l : list A) :
  Forall P l -> Forall P (skipn n l).
Proof.
  revert l. induction n as [|n IH]; intros l H; [exact H|].
  destruct l as [|a l]; [constructor|].
  simpl. apply IH. now inversion H.
Qed.

Lemma Forall_slice_from {A} (P : A -> Prop) i (l : list A) :
  Forall P l -> Forall P (slice_from i l).
Proof.
  intro H. unfold slice_from. destruct (i <? 0)%Z; now apply Forall_skipn.
Qed.

Lemma Forall_last {A} (P : A -> Prop) (l : list A) d :
  Forall P l -> l <> [] -> P (last l d).
Proof.
  induction l as [|a l IH]; intros H N; [congruence|].
  inversion H as [|? ? Pa Pl]; subst.
  destruct l as [|b l]; [exact Pa|].
  apply IH; [exact Pl|discriminate].
Qed.

(** A column of cells that all coerce to numbers holds numbers only. *)
Lemma column_numeric i sample xs :
  Forall (numeric_at i) sample ->
  column i sample = Returns xs ->
  Forall (fun x => isfinite x = true) xs.
Proof.
  unfold column. revert xs.
  induction sample as [|k rest IH]; intros xs H E; simpl in E.
  - inversion E. constructor.
  - inversion H as [|? ? Hk Hrest]; subst.
    unfold numeric_at in Hk. unfold item in E.
    destruct (nth_error k i) as [[q| |]|]; try contradiction.
    simpl in E.
    destruct (mapM _ rest) as [ys|] eqn:M; simpl in E; [|discriminate].
    inversion E; subst. constructor; [reflexivity|].
    now apply IH.
Qed.

Lemma py_max_isfinite a b :
  isfinite a = true -> isfinite b = true -> isfinite (py_max a b) = true.
Proof. unfold py_max. now destruct (fgt b a). Qed.

Lemma py_min_isfinite a b :
  isfinite a = true -> isfinite b = true -> isfinite (py_min a b) = true.
Proof. unfold py_min. now destruct (flt b a). Qed.

Lemma fold_numeric (f : pyfloat -> pyfloat -> pyfloat) xs x :
  (forall a b, isfinite a = true -> isfinite b = true ->
               isfinite (f a b) = true) ->
  isfinite x = true ->
  Forall (fun y => isfinite y = true) xs ->
  isfinite (fold_left f xs x) = true.
Proof.
  intros Hf. revert x. induction xs as [|y ys IH]; intros x Hx H; [exact Hx|].
  inversion H; subst. simpl. apply IH; [|assumption]. now apply Hf.
Qed.

(** A value that is at least zero is a non-negative number or [inf]. *)
Lemma fge_zero_inv p :
  fge p (of_Z 0) = true -> (exists q, p = Num q /\ 0 <= q) \/ p = Inf false.
Proof.
  destruct p as [|q|[|]]; try discriminate.
  - intro H. left. exists q. split; [reflexivity|].
    apply fle_Num in H. exact H.
  - now right.
Qed.

Lemma py_max_nonneg a b :
  fge a (of_Z 0) = true -> fge b (of_Z 0) = true ->
  fge (py_max a b) (of_Z 0) = true.
Proof. unfold py_max. now destruct (fgt b a). Qed.

(** A positive value times a positive literal is positive. *)
Lemma fmul_dec_nonneg x m d :
  (0 < m)%Z -> fgt x (of_Z 0) = true -> fge (x * dec m d)%F (of_Z 0) = true.
Proof.
  intros Hm Hx.
  assert (L : exists l, dec m d = Num l /\ 0 < l).
  { eexists. split; [reflexivity|]. rewrite Qred_correct.
    apply Qlt_shift_div_l.
    - change 0 with (inject_Z 0). rewrite <- Zlt_Qlt. lia.
    - rewrite Qmult_0_l. change 0 with (inject_Z 0). rewrite <- Zlt_Qlt. lia. }
  destruct L as (l & -> & Hl).
  destruct (fgt_inv _ _ Hx) as [(a & -> & Ha)| ->].
  - change (inject_Z 0) with 0 in Ha.
    apply fle_Num. rewrite Qred_correct. change (inject_Z 0) with 0. nra.
  - unfold fmul.
    assert (Z : Qeq_bool l 0 = false).
    { destruct (Qeq_bool l 0) eqn:E; [|reflexivity].
      apply Qeq_bool_iff in E. lra. }
    assert (S : Qneg l = false).
    { unfold Qneg. apply negb_false_iff. apply Qle_bool_iff. lra. }
    now rewrite Z, S.
Qed.

(** Taking a non-negative pad off a value gives at most that value, and
    adding it at least that value, unless the result is [nan]. *)
Lemma fsub_fle x p :
  fge p (of_Z 0) = true -> fle (x - p)%F x = negb (isnan (x - p)%F).
Proof.
  intro Hp.
  destruct (fge_zero_inv _ Hp) as [(q & -> & Hq)| ->].
  - destruct x as [|h|[|]]; try reflexivity.
    unfold fsub. cbn [isnan negb]. apply fle_Num.
    rewrite Qred_correct. lra.
  - destruct x as [|h|[|]]; reflexivity.
Qed.

Lemma fadd_fle x p :
  fge p (of_Z 0) = true -> fle x (x + p)%F = negb (isnan (x + p)%F).
Proof.
  intro Hp.
  destruct (fge_zero_inv _ Hp) as [(q & -> & Hq)| ->].
  - destruct x as [|h|[|]]; try reflexivity.
    unfold fadd. cbn [isnan negb]. apply fle_Num.
    rewrite Qred_correct. lra.
  - destruct x as [|h|[|]]; reflexivity.
Qed.

(** The width percentage [max(0.0, x) / mid * 100] for a positive [mid]
    is at least zero unless [x] and [mid] are both [inf]. *)
Lemma width_pct_nonneg x mid :
  fgt mid (of_Z 0) = true ->
  (mid = Inf false -> x <> Inf false) ->
  fge (py_max (of_Z 0) x / mid * of_Z 100)%F (of_Z 0) = true.
Proof.
  intros Hmid Hx.
  destruct (py_max_zero x) as [(c & -> & Hc)|(Ex & ->)];
    destruct (fgt_inv _ _ Hmid) as [(m & -> & Hm)| ->];
    try change (inject_Z 0) with 0 in Hm.
  - unfold fge, fdiv, fmul, of_Z. apply fle_Num.
    rewrite !Qred_correct. change (inject_Z 0) with 0.
    change (inject_Z 100) with 100.
    assert (0 <= c / m) by (apply Qle_shift_div_l; lra).
    nra.
  - reflexivity.
  - unfold fdiv.
    assert (S : Qneg m = false).
    { unfold Qneg. apply negb_false_iff. apply Qle_bool_iff. lra. }
    rewrite S. reflexivity.
  - now elim (Hx eq_refl).
Qed.

(** What [compute_zones] computes when it returns zones: the extreme
    high and low of the window, a positive last close [mid], a pad that
    is at least zero, the two padded bounds, and the width percentage. *)
Lemma compute_zones_inv kl_1m atr lookback_min z :
  compute_zones kl_1m atr lookback_min = Returns (Some z) ->
  exists highs lows mid pad,
    let n := Z.min (Z.of_nat (List.length kl_1m)) (Z.max 60 lookback_min) in
    let sample := slice_from (- n) kl_1m in
    column 2 sample = Returns highs /\
    column 3 sample = Returns lows /\
    py_max_list highs = Some (upper_hi z) /\
    py_min_list lows = Some (lower_lo z) /\
    fgt mid (of_Z 0) = true /\
    fge pad (of_Z 0) = true /\
    (mid = Inf false -> pad = Inf false) /\
    upper_lo z = (upper_hi z - pad)%F /\
    lower_hi z = (lower_lo z + pad)%F /\
    width_pct z =
      (py_max (of_Z 0) (upper_lo z - lower_hi z) / mid * of_Z 100)%F.
Proof.
  unfold compute_zones. destruct kl_1m as [|k0 kl]; [discriminate|].
  set (n := Z.min _ _). set (sample := slice_from _ _).
  destruct (column 2 sample) as [highs|]; [|discriminate].
  destruct (column 3 sample) as [lows|]; [|discriminate].
  destruct (column 4 sample) as [closes_all|]; [|discriminate].
  cbn [bind].
  set (closes := filter _ closes_all).
  assert (Hpos : closes <> [] -> fgt (last closes NaN) (of_Z 0) = true).
  { intro N.
    apply (Forall_last (fun c => fgt c (of_Z 0) = true)); [|exact N].
    apply Forall_forall. intros c Hc. now apply filter_In in Hc. }
  destruct closes as [|c0 cs] eqn:Ec; [discriminate|].
  specialize (Hpos ltac:(discriminate)).
  set (mid := last (c0 :: cs) NaN) in *.
  destruct (py_max_list highs) as [recent_high|] eqn:Eh; [|discriminate].
  destruct (py_min_list lows) as [recent_low|] eqn:El; [|discriminate].
  cbn [of_option bind]. rewrite Hpos.
  set (pad0 := match atr with Some a => _ | None => _ end).
  assert (Hp0 : fge pad0 (of_Z 0) = true).
  { subst pad0. destruct atr as [a|]; [|reflexivity].
    destruct (truthy a); cbn [andb]; [|reflexivity].
    destruct (fgt a (of_Z 0)) eqn:Ea; [|reflexivity].
    apply fmul_dec_nonneg; [lia|exact Ea]. }
  assert (Hm : fge (mid * dec 7 4)%F (of_Z 0) = true)
    by (apply fmul_dec_nonneg; [lia|exact Hpos]).
  set (pad := py_max pad0 (mid * dec 7 4)%F).
  intro E. inversion E; subst z; cbn.
  exists highs, lows, mid, pad. cbn zeta.
  repeat apply conj; try reflexivity; try assumption.
  - now apply py_max_nonneg.
  - intro Em. subst pad. rewrite Em.
    destruct (fge_zero_inv _ Hp0) as [(q & -> & _)| ->]; reflexivity.
Qed.

(** The part of C7 that holds.  Whenever the zone calculator returns
    zones, the width percentage is at least zero, and each band is
    ordered unless its padded bound is [nan]; so both bands are ordered
    for every window whose highs and lows all coerce to numbers. *)
Lemma compute_zones_bands kl_1m atr lookback_min z :
  compute_zones kl_1m atr lookback_min = Returns (Some z) ->
  fge (width_pct z) (of_Z 0) = true /\
  fle (upper_lo z) (upper_hi z) = negb (isnan (upper_lo z)) /\
  fle (lower_lo z) (lower_hi z) = negb (isnan (lower_hi z)) /\
  (Forall (fun k => numeric_at 2 k /\ numeric_at 3 k) kl_1m ->
   fle (upper_lo z) (upper_hi z) = true /\
   fle (lower_lo z) (lower_hi z) = true).
Proof.
  intro E.
  destruct (compute_zones_inv _ _ _ _ E)
    as (highs & lows & mid & pad & Hh & Hl & Emax & Emin
        & Hmid & Hpad & Hinf & Eul & Elh & Ew).
  assert (U : fle (upper_lo z) (upper_hi z) = negb (isnan (upper_lo z))).
  { rewrite Eul. now apply fsub_fle. }
  assert (L : fle (lower_lo z) (lower_hi z) = negb (isnan (lower_hi z))).
  { rewrite Elh. now apply fadd_fle. }
  repeat apply conj; try assumption.
  - rewrite Ew. apply width_pct_nonneg; [exact Hmid|].
    intro Em. rewrite Eul, Elh, (Hinf Em).
    destruct (upper_hi z) as [|h|[|]], (lower_lo z) as [|l|[|]]; discriminate.
  - intro H. split.
    + rewrite U.
      assert (Hn : Forall (numeric_at 2)
                     (slice_from
                        (- Z.min (Z.of_nat (List.length kl_1m))
                             (Z.max 60 lookback_min)) kl_1m)).
      { apply Forall_slice_from.
        refine (Forall_impl _ _ H). intros k [? ?]. assumption. }
      pose proof (column_numeric _ _ _ Hn Hh) as Nh.
      destruct highs as [|x xs]; [discriminate|].
      inversion Emax as [Ex]. inversion Nh; subst.
      assert (F : isfinite (upper_hi z) = true)
        by (rewrite <- Ex; apply fold_numeric; auto using py_max_isfinite).
      rewrite Eul.
      destruct (upper_hi z) as [|h|[|]]; try discriminate.
      destruct (fge_zero_inv _ Hpad) as [(q & -> & _)| ->]; reflexivity.
    + rewrite L.
      assert (Hn : Forall (numeric_at 3)
                     (slice_from
                        (- Z.min (Z.of_nat (List.length kl_1m))
                             (Z.max 60 lookback_min)) kl_1m)).
      { apply Forall_slice_from.
        refine (Forall_impl _ _ H). intros k [? ?]. assumption. }
      pose proof (column_numeric _ _ _ Hn Hl) as Nl.
      destruct lows as [|x xs]; [discriminate|].
      inversion Emin as [Ex]. inversion Nl; subst.
      assert (F : isfinite (lower_lo z) = true)
        by (rewrite <- Ex; apply fold_numeric; auto using py_min_isfinite).
      rewrite Elh.
      destruct (lower_lo z) as [|l|[|]]; try discriminate.
      destruct (fge_zero_inv _ Hpad) as [(q & -> & _)| ->]; reflexivity.
Qed.

(** A window of three candles with highs 105, 107, 106 and lows 99, 98,
    100, closing at 100, with an ATR of 4: the bands are 106..107 and
    98..99. *)
Lemma compute_zones_bands_example :
  let kl := [[RNum 0; RNum 100; RNum 105; RNum 99; RNum 101];
             [RNum 1; RNum 101; RNum 107; RNum 98; RNum 102];
             [RNum 2; RNum 102; RNum 106; RNum 100; RNum 100]] in
  let z := {| upper_lo := of_Z 106; upper_hi := of_Z 107;
              lower_lo := of_Z 98; lower_hi := of_Z 99;
              width_pct := of_Z 7 |} in
  compute_zones kl (Some (of_Z 4)) 180 = Returns (Some z)
  /\ fge (width_pct z) (of_Z 0) = true
  /\ fle (upper_lo z) (upper_hi z) = true
  /\ fle (lower_lo z) (lower_hi z) = true.
Proof.
  intros kl z.
  assert (E : compute_zones kl (Some (of_Z 4)) 180 = Returns (Some z))
    by (vm_compute; reflexivity).
  pose proof (compute_zones_bands kl (Some (of_Z 4)) 180 z E)
    as (W & _ & _ & O).
  assert (N : Forall (fun k => numeric_at 2 k /\ numeric_at 3 k) kl)
    by (repeat constructor).
  destruct (O N) as (U & L).
  repeat apply conj; assumption.
Defined.

(** C7.  The zone calculator returns zones whose upper band is not
    ordered.  On a one-candle window whose high does not coerce to a
    number the maximum high is [nan], zones are returned all the same,
    both bounds of the upper band are [nan] and [upper_lo <= upper_hi]
    is false.  On a one-candle window whose high and close are [inf] the
    pad is [inf], [upper_lo] is [inf - inf = nan] beside
    [upper_hi = inf], and the comparison is false again. *)
Theorem compute_zones_band_unordered :
  (exists z,
     compute_zones Scenario.window_bad_high None 180 = Returns (Some z)
     /\ upper_lo z = NaN /\ upper_hi z = NaN
     /\ fle (upper_lo z) (upper_hi z) = false) /\
  (exists z,
     compute_zones Scenario.window_inf_high None 180 = Returns (Some z)
     /\ upper_lo z = NaN /\ upper_hi z = Inf false
     /\ fle (upper_lo z) (upper_hi z) = false).
Proof.
  split; eexists; (split; [vm_compute; reflexivity|]);
    repeat apply conj; reflexivity.
Qed.

End AlertsSpec.

(* ================================================================== *)
(** ** Properties of paper_exec.py *)

Module PaperExecSpec.
Import PaperExec PyFacts.
Local Open Scope list_scope.

(** *** One iteration over a trade *)

(** Case analysis on every test of an iteration. *)
Ltac tick_cases :=
  unfold tick_trade, close_step, apply_be_move;
  repeat match goal with
         | |- context [if ?b then _ else _] => destruct b eqn:?
         end;
  cbn.

(** An iteration never touches the identity of the trade, and leaves its
    status as it was or moves it to CLOSED or CANCELED. *)
Lemma tick_trade_row cfg clk equity px raw :
  let r := row_of (Some (tick_trade cfg clk equity px raw)) raw in
  trade_id r = trade_id raw /\ symbol r = symbol raw /\ side r = side raw /\
  (status r = status raw \/ status r = "CLOSED" \/ status r = "CANCELED").
Proof.
  unfold row_of. tick_cases; auto 6.
Qed.

(** Rows that are not OPEN are passed over. *)
Lemma tick_entry_terminal cfg clk ticker equity raw :
  status raw <> "OPEN" -> tick_entry cfg clk ticker equity raw = None.
Proof.
  intro H. unfold tick_entry.
  destruct (String.eqb_spec (status raw) "OPEN"); [contradiction|reflexivity].
Qed.

Lemma row_after_terminal cfg clk ticker equity raw :
  status raw <> "OPEN" -> row_after cfg clk ticker equity raw = raw.
Proof.
  intro H. unfold row_after. now rewrite tick_entry_terminal.
Qed.

Lemma row_after_spec cfg clk ticker equity raw :
  let r := row_after cfg clk ticker equity raw in
  trade_id r = trade_id raw /\ symbol r = symbol raw /\ side r = side raw /\
  (status r = status raw \/
   status raw = "OPEN" /\ (status r = "CLOSED" \/ status r = "CANCELED")).
Proof.
  unfold row_after, tick_entry.
  destruct (String.eqb_spec (status raw) "OPEN") as [O|O]; cbn [negb].
  - destruct (px_of ticker (symbol raw)) as [px|]; [|cbn; auto].
    destruct (tick_trade_row cfg clk equity px raw) as (I & S & D & T).
    repeat split; try assumption. tauto.
  - cbn. auto.
Qed.

(** *** The pass over the store *)

Lemma tick_entries_cons cfg clk ticker k raw rest equity log :
  tick_entries cfg clk ticker ((k, raw) :: rest) equity log =
  let s := tick_entry cfg clk ticker equity raw in
  let '(rest', eq', log') :=
    tick_entries cfg clk ticker rest (equity_of s equity) (log_of s log) in
  ((k, row_of s raw) :: rest', eq', log').
Proof. reflexivity. Qed.

Lemma dict_set_at k v v0 (pre rest : Store) :
  ~ In k (map fst pre) ->
  dict_set k v (pre ++ (k, v0) :: rest) = pre ++ (k, v) :: rest.
Proof.
  induction pre as [|[k' v'] pre IH]; intro N; cbn [dict_set app].
  - now rewrite String.eqb_refl.
  - cbn [map fst In] in N.
    destruct (String.eqb_spec k' k) as [E|E]; [tauto|].
    rewrite IH; [reflexivity|tauto].
Qed.

Lemma assign_at k s raw (pre rest : Store) :
  ~ In k (map fst pre) ->
  assign k s (pre ++ (k, raw) :: rest) = pre ++ (k, row_of s raw) :: rest.
Proof.
  intro N. unfold assign, row_of.
  destruct s as [[[r|] ? ? ?]|]; [now apply dict_set_at|reflexivity..].
Qed.

Lemma tick_loop_append cfg clk ticker (pre snap : Store) equity log :
  NoDup (map fst (pre ++ snap)) ->
  tick_loop cfg clk ticker snap (pre ++ snap) equity log =
  let '(snap', eq', log') := tick_entries cfg clk ticker snap equity log in
  (pre ++ snap', eq', log').
Proof.
  revert pre equity log.
  induction snap as [|[k raw] rest IH]; intros pre equity log D.
  - reflexivity.
  - rewrite tick_entries_cons. cbn [tick_loop]. cbv zeta.
    set (s := tick_entry cfg clk ticker equity raw).
    assert (N : ~ In k (map fst pre)).
    { rewrite map_app in D. cbn [map fst] in D.
      apply NoDup_remove_2 in D. intro I. apply D.
      apply in_or_app. now left. }
    rewrite assign_at by exact N.
    replace (pre ++ (k, row_of s raw) :: rest)
      with ((pre ++ [(k, row_of s raw)]) ++ rest)
      by (rewrite <- app_assoc; reflexivity).
    rewrite IH.
    + destruct (tick_entries cfg clk ticker rest _ _) as [[rest' eq'] log'].
      now rewrite <- app_assoc.
    + rewrite <- app_assoc. cbn [app].
      rewrite map_app in *. exact D.
Qed.

(** On a store with each key once, the loop as written and the
    rewriting in place give the same store, equity and log. *)
Lemma tick_loop_in_place cfg clk ticker (d : Store) equity log :
  NoDup (map fst d) ->
  tick_loop cfg clk ticker d d equity log
  = tick_entries cfg clk ticker d equity log.
Proof.
  intro D.
  pose proof (tick_loop_append cfg clk ticker [] d equity log D) as E.
  cbn [app] in E. rewrite E.
  now destruct (tick_entries cfg clk ticker d equity log) as [[d' eq'] log'].
Qed.

(** Keys stay as they are, each once, through assignments and passes. *)
Lemma dict_set_keys k v (d : Store) :
  map fst (dict_set k v d)
  = if existsb (String.eqb k) (map fst d) then map fst d
    else (map fst d ++ [k])%list.
Proof.
  induction d as [|[k' v'] r IH]; cbn [dict_set map fst existsb]; [reflexivity|].
  rewrite (String.eqb_sym k k').
  destruct (k' =? k)%string; cbn [map fst orb]; [reflexivity|].
  rewrite IH. now destruct (existsb _ _).
Qed.

Lemma dict_set_NoDup k v (d : Store) :
  NoDup (map fst d) -> NoDup (map fst (dict_set k v d)).
Proof.
  intro D. rewrite dict_set_keys.
  destruct (existsb (String.eqb k) (map fst d)) eqn:E; [exact D|].
  apply NoDup_app; [exact D|repeat constructor; intros []|].
  intros x I [<-|[]].
  assert (existsb (String.eqb k) (map fst d) = true); [|congruence].
  apply existsb_exists. exists k. split; [exact I|apply String.eqb_refl].
Qed.

Lemma tick_entries_keys cfg clk ticker entries equity log :
  map fst (fst (fst (tick_entries cfg clk ticker entries equity log)))
  = map fst entries.
Proof.
  revert equity log.
  induction entries as [|[k raw] rest IH]; intros equity log; [reflexivity|].
  rewrite tick_entries_cons. cbv zeta.
  specialize (IH (equity_of (tick_entry cfg clk ticker equity raw) equity)
                 (log_of (tick_entry cfg clk ticker equity raw) log)).
  destruct (tick_entries cfg clk ticker rest _ _) as [[rest' eq'] log'].
  cbn [fst map] in *. now rewrite IH.
Qed.

(** A row that is not OPEN is found unchanged after a pass. *)
Lemma tick_entries_keeps cfg clk ticker entries equity log id t :
  dict_get id entries = Some t -> status t <> "OPEN" ->
  dict_get id (fst (fst (tick_entries cfg clk ticker entries equity log)))
  = Some t.
Proof.
  revert equity log.
  induction entries as [|[k raw] rest IH]; intros equity log G T;
    [discriminate|].
  rewrite tick_entries_cons. cbv zeta.
  specialize (IH (equity_of (tick_entry cfg clk ticker equity raw) equity)
                 (log_of (tick_entry cfg clk ticker equity raw) log)).
  destruct (tick_entries cfg clk ticker rest _ _) as [[rest' eq'] log'].
  cbn [fst dict_get] in *.
  destruct (k =? id)%string.
  - inversion G; subst raw. now rewrite tick_entry_terminal.
  - now apply IH.
Qed.

Lemma tick_pass_keeps cfg clk ticker w id t :
  dict_get id (open_trades w) = Some t -> status t <> "OPEN" ->
  dict_get id (open_trades (tick_pass cfg clk ticker w)) = Some t.
Proof.
  intros G T. unfold tick_pass.
  pose proof (tick_entries_keeps cfg clk ticker (open_trades w) (equity w)
                (out_rows w) id t G T) as K.
  destruct (tick_entries cfg clk ticker _ _ _) as [[d eq'] log'].
  exact K.
Qed.

(** C5.  A trade whose row is CLOSED or CANCELED is the same row, field
    for field, after any number of further passes of the fill loop,
    whatever the prices and the clock. *)
Theorem terminal_rows_frozen cfg ticks w id t :
  dict_get id (open_trades w) = Some t ->
  status t = "CLOSED" \/ status t = "CANCELED" ->
  dict_get id (open_trades (tick_passes cfg ticks w)) = Some t.
Proof.
  intros G T.
  assert (N : status t <> "OPEN") by (destruct T as [E|E]; rewrite E; discriminate).
  clear T. revert w G. unfold tick_passes.
  induction ticks as [|[clk ticker] rest IH]; intros w G; [exact G|].
  cbn [fold_left fst snd]. apply IH. now apply tick_pass_keeps.
Qed.

(** The trade closed at its stop is the same row after passes at 103
    and at 108, prices at which an open trade would take profit. *)
Lemma terminal_rows_frozen_witness :
  status Scenario.trade_AB_stopped = "CLOSED"
  /\ dict_get (trade_id Scenario.trade_AB_stopped)
       (open_trades
          (tick_passes default_config
             [(Scenario.clock_1m, fun _ => Some (RNum 103));
              (Scenario.clock_1m, fun _ => Some (RNum 108))]
             Scenario.world_stopped))
     = Some Scenario.trade_AB_stopped.
Proof.
  split; [reflexivity|].
  apply terminal_rows_frozen; [reflexivity|left; reflexivity].
Defined.

(** *** Stop before targets *)

(** C2.  For a filled OPEN trade and a price at which the stop and a
    target both trigger, the iteration takes the stop branch: the row
    is stored and logged as CLOSED with reason SL, its PnL grows by the
    move from the filled entry to the stop-fill price on the whole filled
    quantity, and the TP1 flag, the filled quantity, the quantity closed
    at TP1 and the stop are as before. *)
Theorem stop_before_targets cfg clk ticker equity raw px :
  status raw = "OPEN" ->
  px_of ticker (symbol raw) = Some px ->
  fgt (filled_qty raw) (of_Z 0) = true ->
  stop_triggered (side raw) (sl raw) px = true ->
  tp1_triggered (side raw) (tp1 raw) px = true
  \/ tp2_triggered (side raw) (tp2 raw) px = true ->
  exists s r,
    tick_entry cfg clk ticker equity raw = Some s /\
    stored s = Some r /\ logged s = Some r /\
    status r = "CLOSED" /\ close_reason r = "SL" /\
    pnl_usdt r =
      (pnl_usdt raw
       + pnl_for_move (side raw) (filled_entry raw)
           (stop_fill_price cfg raw px) (filled_qty raw) (leverage raw))%F /\
    equity_after s = (equity + pnl_usdt r)%F /\
    tp1_hit r = tp1_hit raw /\ filled_qty r = filled_qty raw /\
    tp1_qty_closed r = tp1_qty_closed raw /\ sl r = sl raw.
Proof.
  intros O P F S _.
  unfold tick_entry. rewrite P, O. cbn [negb].
  change (("OPEN" =? "OPEN")%string) with true. cbn [negb].
  unfold tick_trade. rewrite (fgt_not_fle _ _ F), S.
  eexists; eexists. split; [reflexivity|].
  cbn. repeat split; reflexivity.
Qed.

(** A filled SHORT with stop and both targets at 100, price 100. *)
Lemma stop_before_targets_witness :
  exists s r,
    tick_entry default_config Scenario.clock_1m
      (fun _ => Some (RNum 100)) (of_Z 1000) Scenario.trade_short_filled
    = Some s /\
    stored s = Some r /\ status r = "CLOSED" /\ close_reason r = "SL" /\
    tp1_hit r = false /\ filled_qty r = of_Z 10.
Proof.
  destruct (stop_before_targets default_config Scenario.clock_1m
              (fun _ => Some (RNum 100)) (of_Z 1000)
              Scenario.trade_short_filled (Num 100))
    as (s & r & E & St & _ & C & R & _ & _ & H & Q & _);
    try reflexivity.
  - left. reflexivity.
  - exists s, r. repeat split; assumption.
Defined.

(** *** The planner *)

(** What holds of a trade the planner returns: the zone bounds coerced,
    the stop is away from the entry, the size before rounding is
    positive, and the trade is stored OPEN and unfilled with the size
    rounded to six decimals. *)
Lemma plan_from_event_inv cfg clk evt equity leverage t :
  plan_from_event cfg clk evt equity leverage = Some t ->
  exists l0 l1 u0 u1 entry0 sl0 tp10 tp20,
    evt_lower evt = Some [l0; l1] /\ evt_upper evt = Some [u0; u1] /\
    plan_levels cfg
      (if contains "SHORT" (upper (strip (evt_setup evt)))
       then "SHORT" else "LONG")
      (safe_float l0 NaN) (safe_float l1 NaN)
      (safe_float u0 NaN) (safe_float u1 NaN)
    = (entry0, sl0, tp10, tp20) /\
    fle (fabs (entry0 - sl0)%F) (of_Z 0) = false /\
    fle (plan_qty cfg equity leverage (fabs (entry0 - sl0)%F)) (of_Z 0)
    = false /\
    qty t = round_dp 6 (plan_qty cfg equity leverage (fabs (entry0 - sl0)%F))
    /\
    symbol t = strip (evt_symbol evt) /\ symbol t <> "" /\
    status t = "OPEN" /\ filled_qty t = of_Z 0 /\ pnl_usdt t = of_Z 0.
Proof.
  unfold plan_from_event.
  destruct (evt_lower evt) as [[|l0 [|l1 [|? ?]]]|]; try discriminate.
  destruct (evt_upper evt) as [[|u0 [|u1 [|? ?]]]|]; try discriminate.
  destruct (String.eqb_spec (strip (evt_symbol evt)) "") as [|Sym];
    [discriminate|].
  destruct (isnan _ || isnan _ || isnan _ || isnan _); [discriminate|].
  destruct (isnan _ || fle _ _); [discriminate|].
  destruct (plan_levels _ _ _ _ _ _) as [[[entry0 sl0] tp10] tp20] eqn:L.
  destruct (fle (fabs (entry0 - sl0)%F) (of_Z 0)) eqn:R; [discriminate|].
  destruct (negb _ || fle _ _) eqn:Q; [discriminate|].
  apply orb_false_iff in Q. destruct Q as (_ & Q).
  intro E. inversion E; subst t; cbn.
  exists l0, l1, u0, u1, entry0, sl0, tp10, tp20.
  repeat split; try reflexivity; assumption.
Qed.

(** C3 as stated fails: the planner stores the new trade with status
    OPEN; no row ever carries PENDING_ENTRY. *)
Lemma planner_status_not_pending_entry :
  exists t,
    plan_from_event default_config Scenario.clock_0 Scenario.event_long
      (of_Z 1000) 5 = Some t
    /\ status t <> "PENDING_ENTRY".
Proof.
  eexists. split; [vm_compute; reflexivity|discriminate].
Qed.

(** C3, as amended.  Every trade the planner returns has status OPEN
    and no fill; every row reachable from a planned trade has status
    OPEN, CLOSED or CANCELED; and an iteration of the fill loop leaves a
    status as it was or moves it from OPEN to CLOSED or CANCELED, never
    back. *)
Theorem planned_open_then_monotone cfg :
  (forall clk evt equity leverage t,
      plan_from_event cfg clk evt equity leverage = Some t ->
      status t = "OPEN" /\ filled_qty t = of_Z 0) /\
  (forall t, reachable cfg t ->
             In (status t) ["OPEN"; "CLOSED"; "CANCELED"]) /\
  (forall clk ticker equity raw,
      let r := row_after cfg clk ticker equity raw in
      status r = status raw \/
      status raw = "OPEN" /\ (status r = "CLOSED" \/ status r = "CANCELED")).
Proof.
  split; [|split].
  - intros clk evt equity leverage t P.
    destruct (plan_from_event_inv _ _ _ _ _ _ P)
      as (? & ? & ? & ? & ? & ? & ? & ? & H).
    tauto.
  - intros t R. induction R as [clk evt equity leverage t P | clk ticker equity raw R IH].
    + destruct (plan_from_event_inv _ _ _ _ _ _ P)
        as (? & ? & ? & ? & ? & ? & ? & ? & H).
      assert (S : status t = "OPEN") by tauto. rewrite S. simpl. tauto.
    + destruct (row_after_spec cfg clk ticker equity raw) as (_ & _ & _ & T).
      destruct T as [E | (_ & [E | E])]; rewrite E;
        [exact IH | simpl; tauto | simpl; tauto].
  - intros clk ticker equity raw.
    apply (row_after_spec cfg clk ticker equity raw).
Qed.

(** The trade planned from the LONG signal is OPEN and unfilled; after
    an hour without a touch of its entry it is CANCELED. *)
Lemma planned_open_then_monotone_witness :
  exists t,
    plan_from_event default_config Scenario.clock_0 Scenario.event_long
      (of_Z 1000) 5 = Some t
    /\ status t = "OPEN" /\ filled_qty t = of_Z 0
    /\ In (status t) ["OPEN"; "CLOSED"; "CANCELED"].
Proof.
  destruct (plan_from_event default_config Scenario.clock_0
              Scenario.event_long (of_Z 1000) 5) as [t|] eqn:P;
    [|vm_compute in P; discriminate].
  exists t.
  destruct (planned_open_then_monotone default_config) as (A & B & _).
  destruct (A _ _ _ _ _ P) as (S & F).
  repeat split; try assumption.
  apply B. exact (reach_plan _ _ _ _ _ _ P).
Defined.

(** C9 at its failing input: with an equity of 0.00001 the size before
    rounding is 0.0000001, which passes the test for a positive size and
    is then rounded to six decimals: the planner returns a trade of size
    zero. *)
Theorem planner_returns_zero_qty :
  exists t,
    plan_from_event default_config Scenario.clock_0 Scenario.event_long
      (dec 1 5) 5 = Some t
    /\ qty t = of_Z 0
    /\ plan_qty default_config (dec 1 5) 5 (dec 25 1) = dec 1 7.
Proof.
  eexists. split; [vm_compute; reflexivity|split; reflexivity].
Qed.

(** *** The cap on open trades per symbol *)

Local Open Scope Z_scope.

Lemma open_count_cons sym k v d :
  open_count sym ((k, v) :: d) = counts sym v + open_count sym d.
Proof.
  unfold open_count, per_sym, counts. cbn [filter snd].
  destruct ((symbol v =? sym)%string && (status v =? "OPEN")%string)%bool;
    cbn [map List.length]; lia.
Qed.

Lemma open_count_nonneg sym d : 0 <= open_count sym d.
Proof. unfold open_count. lia. Qed.

Lemma open_count_dict_set sym k t d :
  open_count sym (dict_set k t d) <= open_count sym d + counts sym t.
Proof.
  induction d as [|[k' v'] r IH]; cbn [dict_set].
  - rewrite open_count_cons. lia.
  - destruct (k' =? k)%string; rewrite !open_count_cons.
    + unfold counts. destruct ((symbol v' =? sym)%string && _)%bool; lia.
    + lia.
Qed.

(** An iteration cannot make a row count that did not count before. *)
Lemma counts_row_after cfg clk ticker equity raw sym :
  counts sym (row_after cfg clk ticker equity raw) <= counts sym raw.
Proof.
  destruct (row_after_spec cfg clk ticker equity raw) as (_ & S & _ & T).
  unfold counts. rewrite S.
  destruct T as [E | (O & [E | E])]; rewrite E.
  - lia.
  - rewrite O. cbn. rewrite andb_false_r. destruct (_ && _)%bool; lia.
  - rewrite O. cbn. rewrite andb_false_r. destruct (_ && _)%bool; lia.
Qed.

Lemma tick_entries_count cfg clk ticker entries equity log sym :
  open_count sym (fst (fst (tick_entries cfg clk ticker entries equity log)))
  <= open_count sym entries.
Proof.
  revert equity log.
  induction entries as [|[k raw] rest IH]; intros equity log;
    [cbn; lia|].
  rewrite tick_entries_cons. cbv zeta.
  specialize (IH (equity_of (tick_entry cfg clk ticker equity raw) equity)
                 (log_of (tick_entry cfg clk ticker equity raw) log)).
  destruct (tick_entries cfg clk ticker rest _ _) as [[rest' eq'] log'].
  cbn [fst] in *. rewrite !open_count_cons.
  pose proof (counts_row_after cfg clk ticker equity raw sym) as C.
  unfold row_after in C. lia.
Qed.

Lemma tick_pass_count cfg clk ticker w sym :
  open_count sym (open_trades (tick_pass cfg clk ticker w))
  <= open_count sym (open_trades w).
Proof.
  unfold tick_pass.
  pose proof (tick_entries_count cfg clk ticker (open_trades w) (equity w)
                (out_rows w) sym) as C.
  destruct (tick_entries cfg clk ticker _ _ _) as [[d eq'] log'].
  exact C.
Qed.

Lemma ingest_event_skips cfg clk w evt :
  MAX_OPEN_TRADES_PER_SYMBOL cfg
  <= open_count (strip (evt_symbol evt)) (open_trades w) ->
  open_trades (ingest_event cfg clk w evt) = open_trades w /\
  equity (ingest_event cfg clk w evt) = equity w /\
  out_rows (ingest_event cfg clk w evt) = out_rows w.
Proof.
  intro H. unfold ingest_event.
  destruct (dedup_accept cfg (dedup w) evt) as [accepted arr].
  destruct accepted; cbn [negb]; [|auto].
  destruct (strip (evt_symbol evt) =? "")%string; [cbn; auto|].
  cbn [open_trades]. fold (open_count (strip (evt_symbol evt)) (open_trades w)).
  apply Z.leb_le in H. rewrite H. cbn. auto.
Qed.

Lemma ingest_event_capped cfg clk w evt :
  capped cfg w -> capped cfg (ingest_event cfg clk w evt).
Proof.
  intros I sym. unfold ingest_event.
  destruct (dedup_accept cfg (dedup w) evt) as [accepted arr].
  destruct accepted; cbn [negb]; [|apply I].
  destruct (strip (evt_symbol evt) =? "")%string; [apply I|].
  cbn [open_trades equity].
  fold (open_count (strip (evt_symbol evt)) (open_trades w)).
  destruct (Z.leb_spec (MAX_OPEN_TRADES_PER_SYMBOL cfg)
              (open_count (strip (evt_symbol evt)) (open_trades w)))
    as [Full|Room]; [apply I|].
  destruct (plan_from_event cfg clk evt (equity w) (DEFAULT_LEVERAGE cfg))
    as [t|] eqn:P; [|apply I].
  cbn [open_trades].
  destruct (plan_from_event_inv _ _ _ _ _ _ P)
    as (? & ? & ? & ? & ? & ? & ? & ? & _ & _ & _ & _ & _ & _ & S & _).
  pose proof (open_count_dict_set sym (trade_id t) t (open_trades w)) as C.
  pose proof (I sym) as Isym. unfold counts in C.
  destruct (String.eqb_spec (symbol t) sym) as [E|E]; cbn [andb] in C.
  - subst sym. rewrite S in *. destruct (status t =? "OPEN")%string; lia.
  - lia.
Qed.

Lemma loop_body_capped cfg w i :
  capped cfg w -> capped cfg (loop_body cfg w i).
Proof.
  intros I sym. unfold loop_body.
  etransitivity; [apply tick_pass_count|].
  revert sym. unfold ingest. revert w I.
  induction (in_events i) as [|evt evts IH]; intros w I; [exact I|].
  cbn [fold_left]. apply IH. now apply ingest_event_capped.
Qed.

(** C10.  A signal event whose symbol already has the maximum number
    of rows with status OPEN plans nothing: store, equity and trade log
    are as before.  And a store within the cap stays within it through
    every run of the loop, whatever events, prices and clock it reads. *)
Theorem per_symbol_cap cfg :
  (forall clk w evt,
      MAX_OPEN_TRADES_PER_SYMBOL cfg
      <= open_count (strip (evt_symbol evt)) (open_trades w) ->
      open_trades (ingest_event cfg clk w evt) = open_trades w /\
      equity (ingest_event cfg clk w evt) = equity w /\
      out_rows (ingest_event cfg clk w evt) = out_rows w) /\
  (forall inputs w,
      (forall sym, open_count sym (open_trades w)
                   <= MAX_OPEN_TRADES_PER_SYMBOL cfg) ->
      forall sym, open_count sym (open_trades (run cfg inputs w))
                  <= MAX_OPEN_TRADES_PER_SYMBOL cfg).
Proof.
  split.
  - intros clk w evt. apply ingest_event_skips.
  - intros inputs. unfold run.
    induction inputs as [|i rest IH]; intros w I; [exact I|].
    cbn [fold_left]. apply IH. now apply loop_body_capped.
Qed.

(** With one OPEN trade on the symbol and the default cap of 1, a new
    signal for the symbol is skipped, and the store is within the cap
    after a pass. *)
Lemma per_symbol_cap_witness :
  open_trades (ingest_event default_config Scenario.clock_0
                 Scenario.world_AB Scenario.event_long)
  = open_trades Scenario.world_AB
  /\ forall sym,
       open_count sym
         (open_trades (run default_config [Scenario.tick_at 100]
                         Scenario.world_AB)) <= 1.
Proof.
  split.
  - apply (proj1 (per_symbol_cap default_config)).
    apply Z.leb_le. reflexivity.
  - apply (proj2 (per_symbol_cap default_config)).
    intro sym. unfold Scenario.world_AB. cbn [open_trades].
    rewrite open_count_cons. unfold counts.
    destruct (_ && _)%bool; cbn; lia.
Defined.

Local Close Scope Z_scope.

(** *** The entry fill *)

(** The iteration that fills the entry changes the local object only:
    it assigns nothing to the store. *)
Lemma entry_fill_not_stored cfg clk equity px raw :
  fle (filled_qty raw) (of_Z 0) = true ->
  should_fill_entry (side raw) (entry raw) px = true ->
  let s := tick_trade cfg clk equity px raw in
  stored s = None /\ logged s = None /\ equity_after s = equity /\
  filled_entry (local_tr s) = entry raw /\ filled_qty (local_tr s) = qty raw.
Proof.
  intros F E. unfold tick_trade. rewrite F, E. cbn. auto.
Qed.

(** So a row without a fill has none after any iteration. *)
Lemma unfilled_row_stays_unfilled cfg clk ticker equity raw :
  fle (filled_qty raw) (of_Z 0) = true ->
  filled_qty (row_after cfg clk ticker equity raw) = filled_qty raw.
Proof.
  intro F. unfold row_after, tick_entry.
  destruct (negb _); [reflexivity|].
  destruct (px_of ticker (symbol raw)) as [px|]; [|reflexivity].
  unfold tick_trade. rewrite F.
  destruct (should_fill_entry _ _ _); [reflexivity|].
  destruct (fge _ _); reflexivity.
Qed.

(** C1 at its failing input.  From the store holding the unfilled trade
    of scenario A, the pass at price 100 fills the local object (entry
    100, size 10) and stores nothing; after the passes at 100 and 94 the
    world is what it was: the row is OPEN and unfilled, no PnL, nothing
    logged, equity 1000. *)
Theorem scenario_A_fill_is_lost :
  let first :=
    tick_trade default_config Scenario.clock_1m (of_Z 1000) (of_Z 100)
      Scenario.trade_AB in
  stored first = None /\
  filled_entry (local_tr first) = of_Z 100 /\
  filled_qty (local_tr first) = of_Z 10 /\
  run default_config [Scenario.tick_at 100; Scenario.tick_at 94]
    Scenario.world_AB = Scenario.world_AB.
Proof.
  cbv zeta; repeat apply conj; vm_compute; reflexivity.
Qed.

(** On a row that does hold the fill, the tick at 94 does what scenario
    A says: CLOSED, reason SL, filled at the stop 95, PnL -50. *)
Example scenario_A_on_filled_row :
  let s :=
    tick_trade default_config Scenario.clock_1m (of_Z 1000) (of_Z 94)
      Scenario.trade_AB_filled in
  let r := row_of (Some s) Scenario.trade_AB_filled in
  stored s = Some r /\ status r = "CLOSED" /\ close_reason r = "SL" /\
  stop_fill_price default_config Scenario.trade_AB_filled (of_Z 94)
  = of_Z 95 /\
  pnl_usdt r = of_Z (-50) /\ equity_after s = of_Z 950.
Proof.
  cbv zeta; repeat apply conj; vm_compute; reflexivity.
Qed.

(** C4 at its failing input.  From the same store, the passes at 100,
    103 and 108 leave the world as it was: no PnL increment, the row
    OPEN and unfilled. *)
Theorem scenario_B_fill_is_lost :
  run default_config
    [Scenario.tick_at 100; Scenario.tick_at 103; Scenario.tick_at 108]
    Scenario.world_AB = Scenario.world_AB.
Proof.
  vm_compute. reflexivity.
Qed.

(** On a row that does hold the fill, the ticks at 103 and 108 do what
    scenario B says: PnL 15 after TP1 with half the size left and the
    stop moved to the entry, then CLOSED with reason TP2 and PnL 55. *)
Example scenario_B_on_filled_row :
  let s1 :=
    tick_trade default_config Scenario.clock_1m (of_Z 1000) (of_Z 103)
      Scenario.trade_AB_filled in
  let r1 := row_of (Some s1) Scenario.trade_AB_filled in
  let s2 :=
    tick_trade default_config Scenario.clock_1m (of_Z 1000) (of_Z 108) r1 in
  let r2 := row_of (Some s2) r1 in
  stored s1 = Some r1 /\ status r1 = "OPEN" /\ pnl_usdt r1 = of_Z 15 /\
  filled_qty r1 = of_Z 5 /\ sl r1 = of_Z 100 /\ tp1_hit r1 = true /\
  stored s2 = Some r2 /\ status r2 = "CLOSED" /\ close_reason r2 = "TP2" /\
  pnl_usdt r2 = of_Z 55.
Proof.
  cbv zeta; repeat apply conj; vm_compute; reflexivity.
Qed.

End PaperExecSpec.

(* ================================================================== *)
(** ** Further properties of paper_exec.py *)

Module PaperExecExtSpec.
Import PaperExec PaperExecExt PyFacts PaperExecSpec.
Local Open Scope list_scope.

(** *** Floats up to the value *)

Lemma feq_refl x : feq x x.
Proof. destruct x; simpl; [exact I|reflexivity|reflexivity]. Qed.

Lemma feq_trans x y z : feq x y -> feq y z -> feq x z.
Proof.
  destruct x, y, z; simpl; try tauto; try congruence.
  intros A B. now rewrite A.
Qed.

Lemma feq_fadd x y z : feq x y -> feq (x + z)%F (y + z)%F.
Proof.
  destruct x as [|a|s], y as [|b|t]; simpl; try tauto.
  - intro E. destruct z as [|c|u]; [exact I| |reflexivity].
    change (Qred (a + c) == Qred (b + c)).
    rewrite !Qred_correct. now rewrite E.
  - intros ->. apply feq_refl.
Qed.

Lemma feq_fadd_zero x : feq x (x + of_Z 0)%F.
Proof.
  destruct x as [|a|s]; simpl; [exact I| |reflexivity].
  change (a == Qred (a + inject_Z 0)). rewrite Qred_correct.
  change (inject_Z 0) with 0. lra.
Qed.

Lemma feq_credit rows x y : feq x y -> feq (credit x rows) (credit y rows).
Proof.
  revert x y. induction rows as [|r rows IH]; intros x y E; [exact E|].
  simpl. apply IH. now apply feq_fadd.
Qed.

Lemma credit_app x rows1 rows2 :
  credit x (rows1 ++ rows2) = credit (credit x rows1) rows2.
Proof. unfold credit. apply fold_left_app. Qed.

(** *** What one iteration logs and credits *)

(** Case analysis on the next boolean test of the goal. *)
Ltac bool_case :=
  match goal with
  | |- context [if ?b then _ else _] =>
      match type of b with
      | bool => destruct b eqn:?
      end
  end.

(** An iteration that logs a row stores that same row, the row is in a
    final state, and the equity grows by its PnL; an iteration that logs
    nothing leaves the equity and the status alone. *)
Lemma tick_trade_ledger cfg clk equity px raw :
  let s := tick_trade cfg clk equity px raw in
  match logged s with
  | Some r =>
      stored s = Some r /\ terminal r /\
      feq (equity_after s) (equity + pnl_usdt r)%F
  | None =>
      equity_after s = equity /\ status (row_of (Some s) raw) = status raw
  end.
Proof.
  unfold terminal, row_of, tick_trade, close_step, apply_be_move.
  repeat bool_case;
    cbv beta iota zeta delta [logged stored equity_after];
    repeat apply conj;
    first [ reflexivity | apply feq_refl | apply feq_fadd_zero
          | left; reflexivity | right; reflexivity ].
Qed.

Lemma tick_entry_ledger cfg clk ticker equity log raw :
  let s := tick_entry cfg clk ticker equity raw in
  exists new,
    log_of s log = log ++ new /\
    Forall terminal new /\
    feq (equity_of s equity) (credit equity new) /\
    (status raw = "OPEN" ->
     if (status (row_of s raw) =? "OPEN")%string then new = []
     else List.length new = 1%nat) /\
    (status raw <> "OPEN" -> row_of s raw = raw /\ new = []).
Proof.
  unfold tick_entry.
  destruct (String.eqb_spec (status raw) "OPEN") as [O|O]; cbn [negb].
  - destruct (px_of ticker (symbol raw)) as [px|].
    + pose proof (tick_trade_ledger cfg clk equity px raw) as L.
      cbv zeta in L. unfold log_of, equity_of.
      destruct (tick_trade cfg clk equity px raw) as [st lg ea lt].
      cbn [logged stored equity_after row_of] in *.
      destruct lg as [r|].
      * destruct L as (S & Tr & E). subst st. exists [r].
        split; [reflexivity|]. split; [constructor; [exact Tr|constructor]|].
        split; [exact E|]. split; [|intro; contradiction].
        intros _. destruct Tr as [C|C]; rewrite C; reflexivity.
      * destruct L as (E & S). exists [].
        split; [now rewrite app_nil_r|]. split; [constructor|].
        split; [subst ea; apply feq_refl|]. split; [|intro; contradiction].
        intros _. rewrite S, O. reflexivity.
    + exists []. cbn [log_of equity_of row_of].
      split; [now rewrite app_nil_r|]. split; [constructor|].
      split; [apply feq_refl|]. split; [|intro; contradiction].
      intros _. rewrite O. reflexivity.
  - exists []. cbn [log_of equity_of row_of].
    split; [now rewrite app_nil_r|]. split; [constructor|].
    split; [apply feq_refl|]. split; [intro; contradiction|].
    intros _. split; reflexivity.
Qed.

Lemma n_open_cons k v (d : Store) :
  n_open ((k, v) :: d)
  = ((if (status v =? "OPEN")%string then 1 else 0) + n_open d)%nat.
Proof.
  unfold n_open. cbn [filter snd].
  destruct (status v =? "OPEN")%string; reflexivity.
Qed.

Lemma tick_entries_ledger cfg clk ticker entries equity log :
  exists new,
    snd (tick_entries cfg clk ticker entries equity log) = log ++ new /\
    Forall terminal new /\
    feq (snd (fst (tick_entries cfg clk ticker entries equity log)))
        (credit equity new) /\
    n_open entries
    = (n_open (fst (fst (tick_entries cfg clk ticker entries equity log)))
       + List.length new)%nat.
Proof.
  revert equity log.
  induction entries as [|[k raw] rest IH]; intros equity log.
  - exists []. cbn. rewrite app_nil_r. auto using feq_refl.
  - rewrite tick_entries_cons. cbv zeta.
    destruct (tick_entry_ledger cfg clk ticker equity log raw)
      as (new1 & L1 & T1 & E1 & O1 & C1).
    set (s := tick_entry cfg clk ticker equity raw) in *.
    destruct (IH (equity_of s equity) (log_of s log))
      as (new2 & L2 & T2 & E2 & N2).
    destruct (tick_entries cfg clk ticker rest _ _) as [[rest' eq'] log'].
    cbn [fst snd] in *.
    exists (new1 ++ new2). rewrite app_assoc, <- L1.
    split; [exact L2|]. split; [now apply Forall_app|].
    split.
    + rewrite credit_app. eapply feq_trans; [exact E2|].
      now apply feq_credit.
    + rewrite !n_open_cons, length_app, N2.
      destruct (String.eqb_spec (status raw) "OPEN") as [O|O].
      * specialize (O1 O).
        destruct (status (row_of s raw) =? "OPEN")%string.
        -- subst new1. cbn. lia.
        -- rewrite O1. lia.
      * destruct (C1 O) as (R & ->). rewrite R.
        destruct (String.eqb_spec (status raw) "OPEN"); [contradiction|].
        cbn. lia.
Qed.

(** X1.  A pass of the fill loop only appends to the trade log; every
    row it appends is CLOSED or CANCELED; the equity afterwards is the
    equity before plus the PnL of the appended rows; and it appends one
    row for each trade that left status OPEN, no more and no fewer. *)
Theorem tick_pass_ledger cfg clk ticker w :
  exists new,
    out_rows (tick_pass cfg clk ticker w) = out_rows w ++ new /\
    Forall terminal new /\
    feq (equity (tick_pass cfg clk ticker w)) (credit (equity w) new) /\
    n_open (open_trades w)
    = (n_open (open_trades (tick_pass cfg clk ticker w))
       + List.length new)%nat.
Proof.
  destruct (tick_entries_ledger cfg clk ticker (open_trades w) (equity w)
              (out_rows w)) as (new & L & T & E & N).
  unfold tick_pass.
  destruct (tick_entries cfg clk ticker _ _ _) as [[d eq'] log'].
  exists new. auto.
Qed.

(** *** No planned trade is ever filled *)

Lemma tick_trade_unfilled cfg clk equity px raw :
  unfilled raw ->
  let s := tick_trade cfg clk equity px raw in
  unfilled (row_of (Some s) raw) /\ equity_after s = equity /\
  (status (row_of (Some s) raw) = status raw \/
   status (row_of (Some s) raw) = "CANCELED") /\
  match logged s with
  | Some r => status r = "CANCELED" /\ pnl_usdt r = of_Z 0
  | None => True
  end.
Proof.
  unfold unfilled. intro F. unfold tick_trade. rewrite F.
  destruct (should_fill_entry _ _ _); [cbn; auto|].
  destruct (fge _ _); cbn; auto.
Qed.

Lemma tick_entries_unfilled cfg clk ticker entries equity log :
  all_rows unfilled entries ->
  exists new,
    snd (tick_entries cfg clk ticker entries equity log) = log ++ new /\
    Forall (fun r => status r = "CANCELED" /\ pnl_usdt r = of_Z 0) new /\
    snd (fst (tick_entries cfg clk ticker entries equity log)) = equity /\
    all_rows unfilled
      (fst (fst (tick_entries cfg clk ticker entries equity log))).
Proof.
  unfold all_rows. revert equity log.
  induction entries as [|[k raw] rest IH]; intros equity log A.
  - exists []. cbn. rewrite app_nil_r. auto.
  - inversion A as [|? ? U Ar]; subst. cbn [snd] in U.
    rewrite tick_entries_cons. cbv zeta.
    assert (S : exists new1,
               log_of (tick_entry cfg clk ticker equity raw) log = log ++ new1
               /\ Forall (fun r => status r = "CANCELED"
                                   /\ pnl_usdt r = of_Z 0) new1
               /\ equity_of (tick_entry cfg clk ticker equity raw) equity
                  = equity
               /\ unfilled (row_of (tick_entry cfg clk ticker equity raw) raw)).
    { unfold tick_entry. destruct (negb _).
      { exists []. cbn. rewrite app_nil_r. auto. }
      destruct (px_of ticker (symbol raw)) as [px|].
      2:{ exists []. cbn. rewrite app_nil_r. auto. }
      destruct (tick_trade_unfilled cfg clk equity px raw U)
        as (U' & E & _ & L).
      unfold log_of, equity_of.
      destruct (tick_trade cfg clk equity px raw) as [st lg ea lt].
      cbn [logged equity_after] in *.
      destruct lg as [r|].
      - exists [r]. auto.
      - exists []. rewrite app_nil_r. auto. }
    destruct S as (new1 & L1 & C1 & E1 & U1).
    set (s := tick_entry cfg clk ticker equity raw) in *.
    destruct (IH (equity_of s equity) (log_of s log) Ar)
      as (new2 & L2 & C2 & E2 & A2).
    destruct (tick_entries cfg clk ticker rest _ _) as [[rest' eq'] log'].
    cbn [fst snd] in *.
    exists (new1 ++ new2). rewrite app_assoc, <- L1.
    split; [exact L2|]. split; [now apply Forall_app|].
    split; [congruence|]. constructor; assumption.
Qed.

Lemma dict_set_all_rows (P : Trade -> Prop) k v (d : Store) :
  P v -> all_rows P d -> all_rows P (dict_set k v d).
Proof.
  unfold all_rows. intros Pv A.
  induction d as [|[k' v'] r IH]; cbn [dict_set].
  - constructor; [exact Pv|constructor].
  - inversion A; subst. destruct (k' =? k)%string; constructor; auto.
Qed.

Lemma ingest_event_unfilled cfg clk w evt :
  all_rows unfilled (open_trades w) ->
  all_rows unfilled (open_trades (ingest_event cfg clk w evt)) /\
  equity (ingest_event cfg clk w evt) = equity w /\
  out_rows (ingest_event cfg clk w evt) = out_rows w.
Proof.
  intro A. unfold ingest_event.
  destruct (dedup_accept cfg (dedup w) evt) as [accepted arr].
  destruct accepted; cbn [negb]; [|auto].
  destruct (strip (evt_symbol evt) =? "")%string; [cbn; auto|].
  destruct (_ <=? _)%Z; [cbn; auto|].
  cbn [equity open_trades].
  destruct (plan_from_event cfg clk evt (equity w) (DEFAULT_LEVERAGE cfg))
    as [t|] eqn:P; [|cbn; auto].
  cbn. repeat split; try reflexivity.
  apply dict_set_all_rows; [|exact A].
  destruct (plan_from_event_inv _ _ _ _ _ _ P)
    as (? & ? & ? & ? & ? & ? & ? & ? & H).
  unfold unfilled.
  assert (F : filled_qty t = of_Z 0) by tauto. rewrite F. reflexivity.
Qed.

Lemma loop_body_unfilled cfg w i :
  all_rows unfilled (open_trades w) ->
  exists new,
    out_rows (loop_body cfg w i) = out_rows w ++ new /\
    Forall (fun r => status r = "CANCELED" /\ pnl_usdt r = of_Z 0) new /\
    equity (loop_body cfg w i) = equity w /\
    all_rows unfilled (open_trades (loop_body cfg w i)).
Proof.
  intro A. unfold loop_body.
  assert (I : all_rows unfilled
                (open_trades (ingest cfg (in_clock i) (in_events i) w))
              /\ equity (ingest cfg (in_clock i) (in_events i) w) = equity w
              /\ out_rows (ingest cfg (in_clock i) (in_events i) w)
                 = out_rows w).
  { unfold ingest. revert w A.
    induction (in_events i) as [|evt evts IH]; intros w A; [cbn; auto|].
    cbn [fold_left].
    destruct (ingest_event_unfilled cfg (in_clock i) w evt A) as (A1 & E1 & O1).
    destruct (IH _ A1) as (A2 & E2 & O2).
    repeat split; [exact A2|congruence|congruence]. }
  destruct I as (A1 & E1 & O1).
  set (w1 := ingest cfg (in_clock i) (in_events i) w) in *.
  destruct (tick_entries_unfilled cfg (in_clock i) (in_ticker i)
              (open_trades w1) (equity w1) (out_rows w1) A1)
    as (new & L & C & E & A2).
  unfold tick_pass.
  destruct (tick_entries cfg (in_clock i) (in_ticker i) _ _ _)
    as [[d eq'] log'].
  cbn [fst snd equity open_trades out_rows] in *.
  exists new. repeat split; try assumption; congruence.
Qed.

(** X2.  From a store in which no row holds a fill (the empty store of
    a first start, or any store the loop itself has built from one), no
    run of the loop ever changes the equity: whatever events, prices and
    clock it reads, every row it logs is CANCELED with PnL 0, and no row
    of the store holds a fill afterwards.  (The entry fill is made on a
    local object and never stored.) *)
Theorem unfilled_store_never_trades cfg inputs w :
  all_rows unfilled (open_trades w) ->
  exists new,
    out_rows (run cfg inputs w) = out_rows w ++ new /\
    Forall (fun r => status r = "CANCELED" /\ pnl_usdt r = of_Z 0) new /\
    equity (run cfg inputs w) = equity w /\
    all_rows unfilled (open_trades (run cfg inputs w)).
Proof.
  unfold run. revert w.
  induction inputs as [|i rest IH]; intros w A.
  - exists []. cbn. rewrite app_nil_r. auto.
  - cbn [fold_left].
    destruct (loop_body_unfilled cfg w i A) as (new1 & L1 & C1 & E1 & A1).
    destruct (IH _ A1) as (new2 & L2 & C2 & E2 & A2).
    exists (new1 ++ new2). rewrite app_assoc, <- L1.
    split; [exact L2|]. split; [now apply Forall_app|].
    split; [congruence|exact A2].
Qed.

(** A first start (empty store, equity 1000) that reads the LONG signal
    and then sees the price fall through entry and stop: the equity is
    still 1000. *)
Lemma unfilled_store_never_trades_witness :
  let w0 := {| equity := of_Z 1000; open_trades := []; dedup := [];
               out_rows := [] |} in
  let first := {| in_clock := Scenario.clock_0;
                  in_events := [Scenario.event_long];
                  in_ticker := fun _ => Some (RNum 101) |} in
  equity (run default_config [first; Scenario.tick_at 90] w0) = of_Z 1000.
Proof.
  intros w0 first.
  destruct (unfilled_store_never_trades default_config
              [first; Scenario.tick_at 90] w0) as (new & _ & _ & E & _).
  - constructor.
  - exact E.
Defined.

(** *** Replayed events *)

Lemma existsb_eqb_In k (l : list string) :
  existsb (String.eqb k) l = true <-> In k l.
Proof.
  rewrite existsb_exists. split.
  - intros (x & I & E). apply String.eqb_eq in E. now subst.
  - intro I. exists k. split; [exact I|apply String.eqb_refl].
Qed.

Lemma slice_from_keeps_last (W : Z) (arr : list string) k :
  (0 <= W)%Z ->
  exists pre, slice_from (- W) (arr ++ [k]) = pre ++ [k].
Proof.
  intro H. unfold slice_from.
  destruct (Z.ltb_spec (- W) 0).
  - exists (skipn (List.length (arr ++ [k]) - Z.to_nat (- - W)) arr).
    rewrite skipn_app, length_app. cbn [List.length].
    replace (List.length arr + 1 - Z.to_nat (- - W) - List.length arr)%nat
      with 0%nat by lia.
    reflexivity.
  - exists arr. replace (- W)%Z with 0%Z by lia. reflexivity.
Qed.

Lemma dedup_accept_spec cfg arr evt :
  (0 <= DEDUP_WINDOW cfg)%Z ->
  (fst (dedup_accept cfg arr evt) = true <-> ~ In (dedup_key evt) arr) /\
  In (dedup_key evt) (snd (dedup_accept cfg arr evt)) /\
  (fst (dedup_accept cfg arr evt) = false ->
   snd (dedup_accept cfg arr evt) = arr).
Proof.
  intro W. unfold dedup_accept.
  destruct (existsb (String.eqb (dedup_key evt)) arr) eqn:E; cbn [fst snd].
  - apply existsb_eqb_In in E.
    split; [split; [discriminate|tauto]|]. auto.
  - assert (N : ~ In (dedup_key evt) arr).
    { intro I. apply existsb_eqb_In in I. congruence. }
    split; [tauto|]. split; [|discriminate].
    destruct (_ <? _)%Z.
    + destruct (slice_from_keeps_last _ arr (dedup_key evt) W) as (pre & ->).
      apply in_or_app. right. now left.
    + apply in_or_app. right. now left.
Qed.

(** X3.  With a window that is not negative, an event that has just
    been ingested is ignored when it is read again, at any later clock:
    ingesting it twice gives the same world as ingesting it once. *)
Theorem replayed_event_is_ignored cfg clk clk' w evt :
  (0 <= DEDUP_WINDOW cfg)%Z ->
  ingest_event cfg clk' (ingest_event cfg clk w evt) evt
  = ingest_event cfg clk w evt.
Proof.
  intro W.
  assert (R : forall w1, In (dedup_key evt) (dedup w1) ->
                         ingest_event cfg clk' w1 evt = w1).
  { intros w1 I. unfold ingest_event.
    destruct (dedup_accept_spec cfg (dedup w1) evt W) as (A & _ & _).
    destruct (dedup_accept cfg (dedup w1) evt) as [ok arr]. cbn [fst] in A.
    destruct ok; [|reflexivity]. exfalso. now apply A. }
  apply R.
  destruct (dedup_accept_spec cfg (dedup w) evt W) as (A & K & U).
  unfold ingest_event.
  destruct (dedup_accept cfg (dedup w) evt) as [ok arr]. cbn [fst snd] in *.
  destruct ok; cbn [negb].
  - destruct (strip (evt_symbol evt) =? "")%string; [exact K|].
    destruct (_ <=? _)%Z; [exact K|].
    cbn [equity open_trades dedup].
    destruct (plan_from_event _ _ _ _ _); exact K.
  - rewrite <- (U eq_refl). exact K.
Qed.

Lemma replayed_event_is_ignored_witness :
  let w0 := {| equity := of_Z 1000; open_trades := []; dedup := [];
               out_rows := [] |} in
  ingest_event default_config Scenario.clock_1m
    (ingest_event default_config Scenario.clock_0 w0 Scenario.event_long)
    Scenario.event_long
  = ingest_event default_config Scenario.clock_0 w0 Scenario.event_long.
Proof.
  intro w0. apply replayed_event_is_ignored. discriminate.
Defined.

(** X4.  With a window of at least one, the list of recently seen
    events never grows past the window: a list within the window stays
    within it, and a longer one is cut to the window by the next
    accepted event. *)
Theorem dedup_list_is_bounded cfg arr evt :
  (1 <= DEDUP_WINDOW cfg)%Z ->
  fst (dedup_accept cfg arr evt) = true ->
  (Z.of_nat (List.length (snd (dedup_accept cfg arr evt)))
   <= DEDUP_WINDOW cfg)%Z.
Proof.
  intros W. unfold dedup_accept.
  destruct (existsb _ arr); cbn [fst snd]; [discriminate|]. intros _.
  destruct (Z.ltb_spec (DEDUP_WINDOW cfg)
              (Z.of_nat (List.length (arr ++ [dedup_key evt])))) as [L|L];
    [|exact L].
  unfold slice_from.
  destruct (Z.ltb_spec (- DEDUP_WINDOW cfg) 0); [|lia].
  rewrite length_skipn. lia.
Qed.

Lemma dedup_list_is_bounded_witness :
  (Z.of_nat (List.length
     (snd (dedup_accept default_config ["a"; "b"] Scenario.event_long)))
   <= 4000)%Z.
Proof.
  apply (dedup_list_is_bounded default_config ["a"; "b"] Scenario.event_long).
  - discriminate.
  - reflexivity.
Defined.

(** *** The partial close at TP1 *)

Lemma py_min_Num a b :
  exists c, py_min (Num a) (Num b) = Num c /\ c <= a /\ c <= b.
Proof.
  unfold py_min. destruct (flt (Num b) (Num a)) eqn:E.
  - apply flt_Num in E. exists b. repeat split; lra.
  - apply flt_Num_false in E. exists a. repeat split; lra.
Qed.

(** The quantity closed at TP1 is clamped into [0, filled_qty],
    whatever the configured fraction is. *)
Lemma qty_close_bounds f (frac : pyfloat) :
  0 < f ->
  exists q,
    py_max (of_Z 0) (py_min (Num f * frac)%F (Num f)) = Num q /\
    0 <= q <= f.
Proof.
  intro F. destruct frac as [|c|s].
  - exists 0. split; [reflexivity|lra].
  - change (Num f * Num c)%F with (Num (Qred (f * c))).
    destruct (py_min_Num (Qred (f * c)) f) as (m & -> & _ & M).
    destruct (py_max_Num 0 m) as (q & E & Q0 & Qm).
    exists q. split; [exact E|]. split; [exact Q0|].
    revert E. unfold py_max, fgt, of_Z.
    change (inject_Z 0) with 0.
    destruct (flt (Num 0) (Num m)); intro E; inversion E; subst; lra.
  - assert (Z : Qeq_bool f 0 = false).
    { destruct (Qeq_bool f 0) eqn:E; [|reflexivity].
      apply Qeq_bool_iff in E. lra. }
    assert (S : Qneg f = false).
    { unfold Qneg. apply negb_false_iff. apply Qle_bool_iff. lra. }
    unfold fmul. rewrite Z, S. cbn [xorb].
    destruct s.
    + exists 0. split; [reflexivity|lra].
    + exists f. split; [|lra].
      change (py_min (Inf false) (Num f)) with (Num f).
      unfold py_max, fgt, of_Z.
      assert (P : flt (Num (inject_Z 0)) (Num f) = true) by now apply flt_Num.
      now rewrite P.
Qed.

(** X5.  When TP1 triggers on a filled trade that is not stopped, the
    quantity closed lies between 0 and the filled quantity whatever the
    configured fraction; the filled quantity goes down and the quantity
    closed at TP1 goes up by exactly that amount; the PnL grows by the
    move from the filled entry to the TP1 level on that amount; the flag
    is set; and the row stays OPEN or is CLOSED with reason TP1_FULL. *)
Theorem tp1_partial_close cfg clk equity px raw f :
  filled_qty raw = Num f -> 0 < f ->
  tp1_hit raw = false ->
  stop_triggered (side raw) (sl raw) px = false ->
  tp1_triggered (side raw) (tp1 raw) px = true ->
  exists r q,
    stored (tick_trade cfg clk equity px raw) = Some r /\
    0 <= q <= f /\
    filled_qty r = (Num f - Num q)%F /\
    tp1_qty_closed r = (tp1_qty_closed raw + Num q)%F /\
    pnl_usdt r =
      (pnl_usdt raw
       + pnl_for_move (side raw) (filled_entry raw) (tp1 raw) (Num q)
           (leverage raw))%F /\
    tp1_hit r = true /\
    (status r = status raw \/
     status r = "CLOSED" /\ close_reason r = "TP1_FULL").
Proof.
  intros Ef F H S T.
  destruct (qty_close_bounds f (TP1_CLOSE_FRAC cfg) F) as (q & Eq & Q).
  unfold tick_trade.
  assert (N : fle (filled_qty raw) (of_Z 0) = false).
  { rewrite Ef. apply fle_Num_false. exact F. }
  rewrite N, S, H, T. cbn [negb andb]. rewrite Ef, Eq.
  unfold apply_be_move, close_step.
  repeat match goal with
         | |- context [if ?b then _ else _] => destruct b eqn:?
         end;
    cbn; eexists; exists q; (split; [reflexivity|]);
    cbn; rewrite ?Ef; auto 10.
Qed.

(** The filled trade of scenario B at 103 with the default half. *)
Lemma tp1_partial_close_witness :
  exists r q,
    stored (tick_trade default_config Scenario.clock_1m (of_Z 1000)
              (of_Z 103) Scenario.trade_AB_filled) = Some r /\
    0 <= q <= 10 /\ filled_qty r = (Num 10 - Num q)%F /\ tp1_hit r = true.
Proof.
  destruct (tp1_partial_close default_config Scenario.clock_1m (of_Z 1000)
              (of_Z 103) Scenario.trade_AB_filled 10)
    as (r & q & St & Q & Fq & _ & _ & H & _); try reflexivity.
  exists r, q. auto.
Defined.

(** *** Capped and market stop fills *)

(** X6.  On a tick that triggers the stop of a filled trade, the PnL
    realised at the stop-fill price is never below the PnL at the tick
    price: the capped policy books the stop level, which is at least as
    good as the price that ran through it, and the market policy books
    the tick price itself. *)
Theorem stop_fill_not_worse_than_market cfg tr (e s p q : Q) :
  filled_entry tr = Num e -> sl tr = Num s -> filled_qty tr = Num q ->
  0 < q ->
  stop_triggered (side tr) (sl tr) (Num p) = true ->
  fle (pnl_for_move (side tr) (filled_entry tr) (Num p) (filled_qty tr)
         (leverage tr))
      (pnl_for_move (side tr) (filled_entry tr)
         (stop_fill_price cfg tr (Num p)) (filled_qty tr) (leverage tr))
  = true.
Proof.
  intros Ee Es Eq Q T. unfold stop_fill_price.
  rewrite Ee, Es, Eq in *. unfold pnl_for_move.
  assert (N : fle (Num q) (of_Z 0) = false) by (apply fle_Num_false; exact Q).
  rewrite N. unfold stop_triggered in T.
  destruct (STOP_FILL_MODE cfg =? "MARKET")%string.
  - destruct (side tr =? "LONG")%string; apply fle_Num; lra.
  - destruct (side tr =? "LONG")%string.
    + apply fle_Num in T. apply fle_Num. rewrite !Qred_correct. nra.
    + unfold fge in T. apply fle_Num in T. apply fle_Num.
      rewrite !Qred_correct. nra.
Qed.

(** The filled trade of scenario A at 94: -60 at the market, -50 capped. *)
Lemma stop_fill_not_worse_than_market_witness :
  fle (pnl_for_move "LONG" (of_Z 100) (Num 94) (of_Z 10) 5)
      (pnl_for_move "LONG" (of_Z 100)
         (stop_fill_price default_config Scenario.trade_AB_filled (Num 94))
         (of_Z 10) 5) = true.
Proof.
  apply (stop_fill_not_worse_than_market default_config
           Scenario.trade_AB_filled 100 95 94 10); try reflexivity.
Defined.

(** *** Rounding for display *)






(** *** Position size *)

(** X8.  The size before rounding is such that the loss at the stop,
    size times the distance from entry to stop, equals the leverage
    times the risked share of the equity; it is zero when that share is
    not positive. *)
Theorem plan_qty_risks_the_share cfg (eq r p : Q) lev :
  RISK_PCT cfg = Num p -> 0 < r ->
  exists q,
    plan_qty cfg (Num eq) lev (Num r) = Num q /\
    (0 <= eq * p -> q * r == eq * p * inject_Z lev) /\
    (eq * p <= 0 -> q == 0).
Proof.
  intros P R. unfold plan_qty. rewrite P.
  change (Num eq * Num p)%F with (Num (Qred (eq * p))).
  unfold py_max, fgt, of_Z.
  destruct (flt (Num (inject_Z 0)) (Num (Qred (eq * p)))) eqn:C.
  - apply flt_Num in C. rewrite Qred_correct in C.
    change (inject_Z 0) with 0 in C.
    eexists. split; [reflexivity|].
    rewrite !Qred_correct. split; intro H.
    + field. lra.
    + exfalso. lra.
  - apply flt_Num_false in C. rewrite Qred_correct in C.
    change (inject_Z 0) with 0 in C.
    eexists. split; [reflexivity|].
    rewrite !Qred_correct. change (inject_Z 0) with 0. split; intro H.
    + assert (Z0 : eq * p == 0) by lra. rewrite Z0. field. lra.
    + field. lra.
Qed.

(** Equity 1000, risk 0.5%, leverage 5, stop 2.5 away: size 10, so the
    loss at the stop is 25. *)
Lemma plan_qty_risks_the_share_witness :
  exists q,
    plan_qty default_config (Num 1000) 5 (Num (5 # 2)) = Num q /\
    q * (5 # 2) == 1000 * (1 # 200) * inject_Z 5.
Proof.
  destruct (plan_qty_risks_the_share default_config 1000 (5 # 2) (1 # 200) 5)
    as (q & E & A & _).
  - reflexivity.
  - reflexivity.
  - exists q. split; [exact E|]. apply A. discriminate.
Defined.

(** *** Levels of a planned trade *)











End PaperExecExtSpec.

(* ================================================================== *)
(** ** Further properties of alerts.py *)

Module AlertsExtSpec.
Import Alerts AlertsExt PyFacts AlertsSpec.
Local Open Scope list_scope.

(** *** Regime classification *)

Lemma small_oi_not_unwinding o :
  fle (fabs o) (of_Z 200) = true -> flt o (of_Z (-250)) = false.
Proof.
  destruct o as [|q|[|]]; try discriminate.
  rewrite fabs_Num. intro H. apply fle_Num in H.
  rewrite Qred_correct in H. apply flt_Num_false.
  change (inject_Z 200) with 200 in H.
  change (inject_Z (-250)) with (-250).
  apply Qabs_Qle_condition in H. lra.
Qed.

(** X10.  The regime key of a classified snapshot is RANGE exactly when
    the price change and the zone width are available, the width is at
    most 0.30, the price change at most 0.25 in size, and the
    open-interest delta is either missing or at most 200 in size. *)
Theorem classified_range_iff px15m oi15m width_pct :
  norm_regime (Some (classify_regime px15m oi15m width_pct)) = "RANGE" <->
  exists px w,
    px15m = Some px /\ width_pct = Some w /\
    fle w (dec 30 2) = true /\ fle (fabs px) (dec 25 2) = true /\
    (oi15m = None \/
     exists o, oi15m = Some o /\ fle (fabs o) (of_Z 200) = true).
Proof.
  unfold classify_regime.
  destruct px15m as [px|].
  2:{ split; [discriminate|]. intros (? & ? & E & _). discriminate. }
  destruct width_pct as [w|].
  2:{ split; [discriminate|]. intros (? & ? & _ & E & _). discriminate. }
  destruct oi15m as [o|].
  - destruct (fle (fabs o) (of_Z 200)) eqn:O.
    + rewrite (small_oi_not_unwinding o O). cbn [andb].
      destruct (fle w (dec 30 2)) eqn:W; destruct (fle (fabs px) (dec 25 2)) eqn:P;
        cbn [andb]; split; try discriminate.
      * intros _. exists px, w. repeat split; auto. right. now exists o.
      * reflexivity.
      * intros (? & ? & A & B & C & D & _). inversion A; inversion B; subst.
        congruence.
      * intros (? & ? & A & B & C & D & _). inversion A; inversion B; subst.
        congruence.
      * intros (? & ? & A & B & C & D & _). inversion A; inversion B; subst.
        congruence.
    + split.
      * rewrite andb_false_r.
        destruct (_ && _); [discriminate|].
        destruct (_ && _); discriminate.
      * intros (? & ? & _ & _ & _ & _ & [E|(o' & E & O')]); [discriminate|].
        inversion E; subst. congruence.
  - destruct (fle w (dec 30 2)) eqn:W; destruct (fle (fabs px) (dec 25 2)) eqn:P;
      cbn [andb]; split; try discriminate.
    + intros _. exists px, w. repeat split; auto.
    + reflexivity.
    + intros (? & ? & A & B & C & D & _). inversion A; inversion B; subst.
      congruence.
    + intros (? & ? & A & B & C & D & _). inversion A; inversion B; subst.
      congruence.
    + intros (? & ? & A & B & C & D & _). inversion A; inversion B; subst.
      congruence.
Qed.

(** *** Setup detection *)

Lemma flt_fle x y : flt x y = true -> fle x y = true.
Proof.
  destruct x as [|a|[|]], y as [|b|[|]]; try discriminate; try reflexivity.
  intro H. apply flt_Num in H. apply fle_Num. lra.
Qed.

Lemma fgt_fge x y : fgt x y = true -> fge x y = true.
Proof. apply flt_fle. Qed.

(** The signals of a window of at least three candles, as the list of
    the four tests that hold. *)
Lemma detect_setups_inv regime_key kl_1m z sigs :
  detect_setups regime_key kl_1m z = Returns sigs ->
  (List.length kl_1m < 3)%nat /\ sigs = [] \/
  exists h1 l1 c1 h0 l0,
    sigs =
      (if (fgt h1 (upper_hi z) || fgt h0 (upper_hi z))
          && (flt c1 (upper_lo z) && fgt h1 (upper_lo z))
       then [{| key := "SWEEP_RECLAIM_SHORT"; direction := "SHORT" |}]
       else [])
      ++ (if (flt l1 (lower_lo z) || flt l0 (lower_lo z))
             && (fgt c1 (lower_hi z) && flt l1 (lower_hi z))
          then [{| key := "SWEEP_RECLAIM_LONG"; direction := "LONG" |}]
          else [])
      ++ (if (regime_key =? "RANGE")%string && (fge h1 (upper_lo z)
                                                 && flt c1 (upper_lo z))
          then [{| key := "MEAN_REVERT_SHORT"; direction := "SHORT" |}]
          else [])
      ++ (if (regime_key =? "RANGE")%string && (fle l1 (lower_hi z)
                                                 && fgt c1 (lower_hi z))
          then [{| key := "MEAN_REVERT_LONG"; direction := "LONG" |}]
          else []).
Proof.
  unfold detect_setups.
  destruct (Nat.ltb_spec (List.length kl_1m) 3) as [Short|Long].
  { intro E. inversion E. left. auto. }
  destruct (py_index kl_1m (-1)) as [k1|]; [|discriminate]. cbn [bind].
  destruct (cell k1 2) as [h1|]; [|discriminate]. cbn [bind].
  destruct (cell k1 3) as [l1|]; [|discriminate]. cbn [bind].
  destruct (cell k1 4) as [c1|]; [|discriminate]. cbn [bind].
  destruct (py_index kl_1m (-2)) as [k0|]; [|discriminate]. cbn [bind].
  destruct (cell k0 2) as [h0|]; [|discriminate]. cbn [bind].
  destruct (cell k0 3) as [l0|]; [|discriminate]. cbn [bind].
  intro E. right. exists h1, l1, c1, h0, l0. revert E.
  destruct ((fgt h1 (upper_hi z) || fgt h0 (upper_hi z))
            && (flt c1 (upper_lo z) && fgt h1 (upper_lo z)));
    destruct ((flt l1 (lower_lo z) || flt l0 (lower_lo z))
              && (fgt c1 (lower_hi z) && flt l1 (lower_hi z)));
    destruct (regime_key =? "RANGE")%string; cbn [andb];
    try (destruct (fge h1 (upper_lo z) && flt c1 (upper_lo z)));
    try (destruct (fle l1 (lower_hi z) && fgt c1 (lower_hi z)));
    repeat match goal with
           | |- context [fmt_int ?x] =>
               destruct (fmt_int x); cbn [bind]; [|discriminate]
           end;
    cbn [bind]; intro E; inversion E; reflexivity.
Qed.

(** X11.  Whatever the candles and zones, every detected setup has one
    of the four keys with the direction its key names; a mean-revert
    setup is detected only under the regime key RANGE, and is then
    allowed by the regime table; and a window of fewer than three
    candles gives no setup. *)
Theorem detect_setups_sound regime_key kl_1m z sigs :
  detect_setups regime_key kl_1m z = Returns sigs ->
  ((List.length kl_1m < 3)%nat -> sigs = []) /\
  forall sig, In sig sigs ->
    In (key sig) all_setups /\
    (direction sig = "SHORT" /\
     (key sig = "SWEEP_RECLAIM_SHORT" \/ key sig = "MEAN_REVERT_SHORT")
     \/
     direction sig = "LONG" /\
     (key sig = "SWEEP_RECLAIM_LONG" \/ key sig = "MEAN_REVERT_LONG")) /\
    (key sig = "MEAN_REVERT_SHORT" \/ key sig = "MEAN_REVERT_LONG" ->
     regime_key = "RANGE" /\
     is_in (key sig) (ALLOWED_SETUPS regime_key) = true).
Proof.
  intro E. split.
  { intro Short. unfold detect_setups in E.
    destruct (Nat.ltb_spec (List.length kl_1m) 3) as [_|Long]; [|lia].
    now inversion E. }
  destruct (detect_setups_inv _ _ _ _ E)
    as [(_ & ->)|(h1 & l1 & c1 & h0 & l0 & ->)]; [intros ? []|].
  intros sig I.
  destruct (String.eqb_spec regime_key "RANGE") as [->|N]; cbn [andb] in I;
    repeat match type of I with
           | context [if ?b then _ else _] => destruct b
           end;
    cbn in I; intuition (subst; cbn; auto 10; try discriminate).
Qed.

(** The last candle of the window swept above the band 106..107 and
    closed below it: both short setups, under RANGE. *)
Lemma detect_setups_sound_witness :
  detect_setups "RANGE" ScenarioExt.window_sweep_up ScenarioExt.zones_106_98
  = Returns ScenarioExt.short_setups /\
  is_in "MEAN_REVERT_SHORT" (ALLOWED_SETUPS "RANGE") = true.
Proof.
  assert (E : detect_setups "RANGE" ScenarioExt.window_sweep_up
                ScenarioExt.zones_106_98
              = Returns ScenarioExt.short_setups) by (vm_compute; reflexivity).
  split; [exact E|].
  destruct (detect_setups_sound _ _ _ _ E) as (_ & H).
  destruct (H {| key := "MEAN_REVERT_SHORT"; direction := "SHORT" |})
    as (_ & _ & A); [right; left; reflexivity|].
  apply A. left. reflexivity.
Defined.

(** X12.  Under the regime key RANGE, whenever the sweep-and-reclaim
    short setup is detected the mean-revert short setup is detected with
    it, and likewise for the two long setups. *)
Theorem sweep_implies_mean_revert kl_1m z sigs :
  detect_setups "RANGE" kl_1m z = Returns sigs ->
  (In {| key := "SWEEP_RECLAIM_SHORT"; direction := "SHORT" |} sigs ->
   In {| key := "MEAN_REVERT_SHORT"; direction := "SHORT" |} sigs) /\
  (In {| key := "SWEEP_RECLAIM_LONG"; direction := "LONG" |} sigs ->
   In {| key := "MEAN_REVERT_LONG"; direction := "LONG" |} sigs).
Proof.
  intro E.
  destruct (detect_setups_inv _ _ _ _ E)
    as [(_ & ->)|(h1 & l1 & c1 & h0 & l0 & ->)]; [split; intros []|].
  change ("RANGE" =? "RANGE")%string with true. cbn [andb].
  split; intro I.
  - destruct ((fgt h1 (upper_hi z) || fgt h0 (upper_hi z))
              && (flt c1 (upper_lo z) && fgt h1 (upper_lo z))) eqn:A.
    + apply andb_prop in A. destruct A as (_ & A).
      apply andb_prop in A. destruct A as (C & H).
      rewrite (fgt_fge _ _ H), C. cbn [andb].
      apply in_or_app. right. apply in_or_app. right.
      apply in_or_app. left. now left.
    + cbn [app] in I.
      repeat match type of I with
             | context [if ?b then _ else _] => destruct b
             end; cbn in I; intuition discriminate.
  - destruct ((flt l1 (lower_lo z) || flt l0 (lower_lo z))
              && (fgt c1 (lower_hi z) && flt l1 (lower_hi z))) eqn:A.
    + apply andb_prop in A. destruct A as (_ & A).
      apply andb_prop in A. destruct A as (C & H).
      rewrite (flt_fle _ _ H), C. cbn [andb].
      apply in_or_app. right. apply in_or_app. right.
      apply in_or_app. right. now left.
    + repeat match type of I with
             | context [if ?b then _ else _] => destruct b
             end; cbn in I; intuition discriminate.
Qed.

(** The swept window again: the sweep setup comes with the mean-revert
    setup. *)
Lemma sweep_implies_mean_revert_witness :
  In {| key := "MEAN_REVERT_SHORT"; direction := "SHORT" |}
     ScenarioExt.short_setups.
Proof.
  apply (sweep_implies_mean_revert ScenarioExt.window_sweep_up
           ScenarioExt.zones_106_98 ScenarioExt.short_setups).
  - vm_compute; reflexivity.
  - left. reflexivity.
Defined.

(** *** API health gate *)

Lemma aget_aset_same {V} k (v : V) d : aget k (aset k v d) = Some v.
Proof.
  induction d as [|[k' v'] r IH]; cbn [aset aget].
  - now rewrite String.eqb_refl.
  - destruct (k' =? k)%string eqn:E; cbn [aget]; rewrite E; auto.
Qed.

Lemma aget_aset_other {V} k k' (v : V) d :
  k <> k' -> aget k (aset k' v d) = aget k d.
Proof.
  intro N. induction d as [|[k0 v0] r IH]; cbn [aset aget].
  - destruct (String.eqb_spec k' k); [congruence|reflexivity].
  - destruct (String.eqb_spec k0 k') as [->|D]; cbn [aget].
    + destruct (String.eqb_spec k' k); [congruence|reflexivity].
    + now rewrite IH.
Qed.

Lemma Qltb_true a b : Qltb a b = true <-> a < b.
Proof.
  unfold Qltb. rewrite negb_true_iff. split; intro H.
  - apply Qnot_le_lt. intro L. apply Qle_bool_iff in L. congruence.
  - destruct (Qle_bool b a) eqn:E; [|reflexivity].
    apply Qle_bool_iff in E. lra.
Qed.

Lemma Qltb_false a b : Qltb a b = false <-> b <= a.
Proof.
  unfold Qltb. rewrite negb_false_iff. apply Qle_bool_iff.
Qed.

Lemma degraded_times_app src o1 o2 :
  degraded_times src (o1 ++ o2)
  = degraded_times src o1 ++ degraded_times src o2.
Proof.
  induction o1 as [|[s t|s n] r IH]; cbn [app degraded_times]; auto.
  destruct (s =? src)%string; cbn [app]; now rewrite IH.
Qed.

(** One probe: either no DEGRADED message and the last alert time is
    kept, or one DEGRADED message at the probe's time, at least the gap
    after the last one, and that time is kept. *)
Lemma health_step_alert src p H :
  (degraded_times src (snd (health_step src p H)) = [] /\
   last_alert src (fst (health_step src p H)) = last_alert src H) \/
  (degraded_times src (snd (health_step src p H)) = [probe_time p] /\
   last_alert src (fst (health_step src p H)) = Some (probe_time p) /\
   match last_alert src H with
   | Some l => DEGRADED_GAP_S <= probe_time p - l
   | None => True
   end).
Proof.
  unfold last_alert.
  destruct p as [now|now]; cbn [health_step probe_time].
  - unfold _health_fail. destruct (aget src H) as [st|] eqn:G.
    2:{ left. cbn. now rewrite G. }
    destruct (Qltb _ DEGRADED_AFTER_S).
    { left. cbn [fst snd degraded_times]. now rewrite aget_aset_same. }
    cbn [degraded_sent last_degraded_sent].
    destruct (degraded_sent st).
    { left. cbn [fst snd degraded_times]. now rewrite aget_aset_same. }
    destruct (last_degraded_sent st) as [l|] eqn:L.
    + destruct (Qltb (now - l) DEGRADED_GAP_S) eqn:Q.
      { left. cbn [fst snd degraded_times]. now rewrite aget_aset_same. }
      right. cbn [fst snd degraded_times]. rewrite String.eqb_refl.
      rewrite aget_aset_same. cbn. apply Qltb_false in Q. auto.
    + right. cbn [fst snd degraded_times]. rewrite String.eqb_refl.
      rewrite aget_aset_same. cbn. auto.
  - unfold _health_ok. destruct (aget src H) as [st|] eqn:G.
    2:{ left. cbn. now rewrite G. }
    destruct (down_since st).
    + left. cbn [fst snd degraded_times]. now rewrite aget_aset_same.
    + left. cbn. now rewrite G.
Qed.

Lemma spaced_cons gap prev t ts :
  spaced gap prev (t :: ts) <->
  match prev with Some p => gap <= t - p | None => True end
  /\ spaced gap (Some t) ts.
Proof. reflexivity. Qed.

(** X13.  Over any sequence of failed and answered requests to a
    source, from any state of the health table, two successive DEGRADED
    messages for the source are at least 1800 seconds apart, and the
    first is at least 1800 seconds after the last one recorded before:
    a recovery in between does not shorten the gap. *)
Theorem degraded_alerts_are_spaced src ps H :
  spaced DEGRADED_GAP_S (last_alert src H)
    (degraded_times src (snd (health_run src ps H))).
Proof.
  revert H. induction ps as [|p rest IH]; intro H; [exact I|].
  cbn [health_run].
  pose proof (health_step_alert src p H) as S.
  destruct (health_step src p H) as [H1 out1]. cbn [fst snd] in S.
  specialize (IH H1).
  destruct (health_run src rest H1) as [H2 out2]. cbn [snd] in *.
  rewrite degraded_times_app.
  destruct S as [(E & L)|(E & L & G)]; rewrite E; cbn [app].
  - rewrite <- L. exact IH.
  - apply spaced_cons. split; [exact G|].
    rewrite L in IH. exact IH.
Qed.

(** A failed request: no message, or one DEGRADED message, and then
    the source had been down for at least 180 seconds with no DEGRADED
    message sent yet in this outage; afterwards the flag is as it was or
    set. *)
Lemma health_fail_alert src now H st :
  aget src H = Some st ->
  exists st',
    aget src (fst (_health_fail src now H)) = Some st' /\
    (snd (_health_fail src now H) = [] /\
     degraded_sent st' = degraded_sent st
     \/
     snd (_health_fail src now H) = [Degraded src now] /\
     degraded_sent st' = true /\ degraded_sent st = false /\
     exists t0, down_since st = Some t0 /\ DEGRADED_AFTER_S <= now - t0).
Proof.
  intro G. unfold _health_fail. rewrite G.
  destruct (Qltb _ DEGRADED_AFTER_S) eqn:D.
  { eexists. cbn [fst snd]. rewrite aget_aset_same. split; [reflexivity|].
    left. auto. }
  cbn [degraded_sent last_degraded_sent].
  destruct (degraded_sent st) eqn:F.
  { eexists. cbn [fst snd]. rewrite aget_aset_same. split; [reflexivity|].
    left. auto. }
  assert (Down : exists t0, down_since st = Some t0
                            /\ DEGRADED_AFTER_S <= now - t0).
  { apply Qltb_false in D. destruct (down_since st) as [t0|].
    - exists t0. auto.
    - exfalso. unfold DEGRADED_AFTER_S in D. lra. }
  destruct (match last_degraded_sent st with
            | Some last => Qltb (now - last) DEGRADED_GAP_S
            | None => false
            end).
  { eexists. cbn [fst snd]. rewrite aget_aset_same. split; [reflexivity|].
    left. auto. }
  eexists. cbn [fst snd]. rewrite aget_aset_same. split; [reflexivity|].
  right. cbn. auto.
Qed.

Lemma health_fail_untracked src now H :
  aget src H = None -> _health_fail src now H = (H, []).
Proof. intro G. unfold _health_fail. now rewrite G. Qed.

Lemma fails_after_alert src ts H st :
  aget src H = Some st -> degraded_sent st = true ->
  degraded_times src (snd (health_run src (map Failed ts) H)) = [].
Proof.
  revert H st. induction ts as [|t rest IH]; intros H st G F; [reflexivity|].
  cbn [map health_run health_step].
  destruct (health_fail_alert src t H st G) as (st' & G' & C).
  destruct (_health_fail src t H) as [H1 out1]. cbn [fst snd] in *.
  specialize (IH H1 st' G').
  destruct (health_run src (map Failed rest) H1) as [H2 out2].
  cbn [snd] in *. rewrite degraded_times_app.
  destruct C as [(-> & S)|(_ & _ & N & _)]; [|congruence].
  cbn [degraded_times app]. apply IH. congruence.
Qed.

(** X14.  During one outage, that is over any run of failed requests
    with no answered one in between, at most one DEGRADED message is
    sent for the source; and a failed request sends one only when the
    source has been failing for at least 180 seconds, so never on the
    first failure. *)
Theorem one_alert_per_outage src :
  (forall ts H,
      (List.length
         (degraded_times src (snd (health_run src (map Failed ts) H)))
       <= 1)%nat) /\
  (forall now H st,
      aget src H = Some st ->
      snd (_health_fail src now H) <> [] ->
      exists t0, down_since st = Some t0 /\ 180 <= now - t0).
Proof.
  split.
  - intros ts. induction ts as [|t rest IH]; intro H; [cbn; lia|].
    cbn [map health_run health_step].
    destruct (aget src H) as [st|] eqn:G.
    + destruct (health_fail_alert src t H st G) as (st' & G' & C).
      pose proof (fails_after_alert src rest (fst (_health_fail src t H)) st' G')
        as After.
      specialize (IH (fst (_health_fail src t H))).
      destruct (_health_fail src t H) as [H1 out1]. cbn [fst snd] in *.
      destruct (health_run src (map Failed rest) H1) as [H2 out2].
      cbn [snd] in *. rewrite degraded_times_app.
      destruct C as [(-> & _)|(-> & F & _)].
      * exact IH.
      * rewrite (After F). cbn [degraded_times].
        rewrite String.eqb_refl. cbn. lia.
    + rewrite (health_fail_untracked src t H G).
      specialize (IH H).
      destruct (health_run src (map Failed rest) H) as [H2 out2].
      exact IH.
  - intros now H st G N.
    destruct (health_fail_alert src now H st G) as (st' & _ & C).
    destruct C as [(E & _)|(_ & _ & _ & D)]; [congruence|exact D].
Qed.

(** A tracked source that has been failing since 0 alerts at 200 and
    not again at 300. *)
Lemma one_alert_per_outage_witness :
  let H := [("Bybit api",
             {| down_since := Some 0; degraded_sent := false;
                last_degraded_sent := None |})] in
  snd (_health_fail "Bybit api" 200 H) <> [] /\
  exists t0, Some 0 = Some t0 /\ 180 <= 200 - t0.
Proof.
  intro H. split; [discriminate|].
  apply (proj2 (one_alert_per_outage "Bybit api") 200 H
           {| down_since := Some 0; degraded_sent := false;
              last_degraded_sent := None |});
    [reflexivity|discriminate].
Defined.

(** X15.  An answered request from a source that had failed sends one
    recovery message, whether or not a DEGRADED message had been sent,
    and clears the outage; an answered request from a source that is not
    down sends nothing and changes nothing, so a recovery is announced
    once. *)
Theorem recovery_is_announced_once src now now' H st :
  aget src H = Some st ->
  (down_since st = None -> _health_ok src now H = (H, [])) /\
  (forall t0, down_since st = Some t0 ->
     snd (_health_ok src now H) = [Recovered src (py_int (now - t0))] /\
     aget src (fst (_health_ok src now H))
     = Some {| down_since := None; degraded_sent := false;
               last_degraded_sent := last_degraded_sent st |} /\
     snd (_health_ok src now' (fst (_health_ok src now H))) = []).
Proof.
  intro G. split.
  - intro D. unfold _health_ok. now rewrite G, D.
  - intros t0 D.
    assert (E : _health_ok src now H
                = (aset src {| down_since := None; degraded_sent := false;
                               last_degraded_sent := last_degraded_sent st |} H,
                   [Recovered src (py_int (now - t0))])).
    { unfold _health_ok. now rewrite G, D. }
    rewrite E. cbn [fst snd]. rewrite aget_aset_same.
    split; [reflexivity|]. split; [reflexivity|].
    unfold _health_ok. rewrite aget_aset_same. reflexivity.
Qed.

Lemma recovery_is_announced_once_witness :
  let H := [("Bybit api",
             {| down_since := Some 0; degraded_sent := false;
                last_degraded_sent := None |})] in
  snd (_health_ok "Bybit api" 30 H) = [Recovered "Bybit api" 30] /\
  snd (_health_ok "Bybit api" 60 (fst (_health_ok "Bybit api" 30 H))) = [].
Proof.
  intro H.
  destruct (proj2 (recovery_is_announced_once "Bybit api" 30 60 H
                     {| down_since := Some 0; degraded_sent := false;
                        last_degraded_sent := None |} eq_refl) 0 eq_refl)
    as (A & _ & B).
  split; [exact A|exact B].
Defined.

(** *** Cooldown of the setups *)

(** One iteration over a setup: nothing changes, or the setup is sent,
    its cooldown has run out, and its key is stamped with the time of
    the pass. *)
Lemma btc_setup_step_inv cfg now regime_key kl_1m z oi15m g sig g1 :
  btc_setup_step cfg now regime_key kl_1m z oi15m g sig = Returns g1 ->
  g1 = g \/
  (sent g1 = sent g ++ [sig] /\
   last_setup_ts g1
   = aset (SYMBOL cfg ++ ":" ++ key sig)%string now (last_setup_ts g) /\
   inject_Z (SETUP_COOLDOWN_SEC cfg)
   <= now - match aget (SYMBOL cfg ++ ":" ++ key sig)%string
                     (last_setup_ts g) with
            | Some t => t
            | None => 0
            end).
Proof.
  unfold btc_setup_step.
  destruct (negb _); [intro E; inversion E; now left|].
  destruct (_ && negb _); [intro E; inversion E; now left|].
  destruct (Qltb _ _) eqn:C; [intro E; inversion E; now left|].
  apply Qltb_false in C.
  destruct (build_setup_message z) as [setup_msg|]; [|discriminate].
  cbn [bind].
  destruct (py_index kl_1m (-1)) as [k_last|]; [|discriminate]. cbn [bind].
  destruct (cell k_last 4) as [close_px|]; [|discriminate]. cbn [bind].
  intro E. inversion E. right. cbn. auto.
Qed.

(** X16.  A setup whose key was last emitted at time [t] is not sent
    again by any pass that runs before [t] plus the cooldown, whatever
    the regime, candles and zones say, and its stamp stays [t]; and a
    setup that a pass does send has its key stamped with the time of
    that pass. *)
Theorem cooldown_suppresses_repeats cfg now regime_key kl_1m z oi15m :
  (forall sigs g g' k t,
      aget k (last_setup_ts g) = Some t ->
      now - t < inject_Z (SETUP_COOLDOWN_SEC cfg) ->
      btc_setups_pass cfg now regime_key kl_1m z oi15m sigs g = Returns g' ->
      exists new,
        sent g' = sent g ++ new /\
        (forall s, In s new -> (SYMBOL cfg ++ ":" ++ key s)%string <> k) /\
        aget k (last_setup_ts g') = Some t) /\
  (forall g sig g1,
      btc_setup_step cfg now regime_key kl_1m z oi15m g sig = Returns g1 ->
      sent g1 <> sent g ->
      sent g1 = sent g ++ [sig] /\
      aget (SYMBOL cfg ++ ":" ++ key sig)%string (last_setup_ts g1)
      = Some now).
Proof.
  split.
  - intros sigs. induction sigs as [|sig rest IH]; intros g g' k t G C P.
    + inversion P; subst. exists []. rewrite app_nil_r. auto.
    + cbn [btc_setups_pass] in P.
      destruct (btc_setup_step cfg now regime_key kl_1m z oi15m g sig)
        as [g1|] eqn:S; [|discriminate]. cbn [bind] in P.
      destruct (btc_setup_step_inv _ _ _ _ _ _ _ _ _ S)
        as [->|(Sent & Last & Cool)].
      * apply (IH g g' k t G C P).
      * assert (N : (SYMBOL cfg ++ ":" ++ key sig)%string <> k).
        { intro E. subst k. rewrite G in Cool. lra. }
        assert (G1 : aget k (last_setup_ts g1) = Some t).
        { rewrite Last. rewrite aget_aset_other; [exact G|congruence]. }
        destruct (IH g1 g' k t G1 C P) as (new & Sn & Nn & Gn).
        exists (sig :: new). rewrite Sn, Sent, <- app_assoc.
        split; [reflexivity|]. split; [|exact Gn].
        intros s [<-|I]; [exact N|now apply Nn].
  - intros g sig g1 S N.
    destruct (btc_setup_step_inv _ _ _ _ _ _ _ _ _ S)
      as [->|(Sent & Last & _)]; [congruence|].
    split; [exact Sent|]. rewrite Last. apply aget_aset_same.
Qed.

(** The setup sent at 1000 is detected again at 1200, within the
    cooldown of 600 seconds: nothing is sent and the stamp stays 1000. *)
Lemma cooldown_suppresses_repeats_witness :
  exists new,
    sent ScenarioExt.gate_after = sent ScenarioExt.gate_after ++ new /\
    (forall s, In s new ->
       (SYMBOL default_settings ++ ":" ++ key s)%string
       <> "BTCUSDT:MEAN_REVERT_LONG"%string) /\
    aget "BTCUSDT:MEAN_REVERT_LONG" (last_setup_ts ScenarioExt.gate_after)
    = Some 1000.
Proof.
  apply (proj1 (cooldown_suppresses_repeats default_settings 1200 "RANGE"
                  ScenarioExt.window_touch_low ScenarioExt.zones_narrow None)
           [ScenarioExt.sig_long] ScenarioExt.gate_after
           ScenarioExt.gate_after "BTCUSDT:MEAN_REVERT_LONG"%string 1000).
  - reflexivity.
  - reflexivity.
  - vm_compute; reflexivity.
Defined.

(** *** Price change over 15 minutes *)

(** X17.  With fewer than 20 candles there is no price change.  When a
    change is returned as a number, the last close is a positive number
    and the close 15 candles before it is either a positive number or
    [inf].  In the first case the change is their ratio minus one in
    percent, positive exactly when the last close is the higher one and
    zero exactly when the two are equal; in the second it is -100. *)
Theorem px_change_sign kl_1m :
  ((List.length kl_1m < 20)%nat ->
   px_change_15m_from_1m kl_1m = Returns None) /\
  (forall c,
      px_change_15m_from_1m kl_1m = Returns (Some (Num c)) ->
      exists k_now k_15m a,
        py_index kl_1m (-1) = Returns k_now /\
        py_index kl_1m (-16) = Returns k_15m /\
        nth_error k_now 4 = Some (RNum a) /\ 0 < a /\
        ((exists b,
            nth_error k_15m 4 = Some (RNum b) /\ 0 < b /\
            c == (a / b - 1) * 100 /\
            (0 < c <-> b < a) /\ (c == 0 <-> a == b)) \/
         (nth_error k_15m 4 = Some (RInf false) /\ c == - (100)))).
Proof.
  unfold px_change_15m_from_1m. split.
  - intro Short. apply Nat.ltb_lt in Short. now rewrite Short.
  - intro c. destruct (List.length kl_1m <? 20)%nat; [discriminate|].
    destruct (py_index kl_1m (-1)) as [k_now|]; [|discriminate]. cbn [bind].
    destruct (py_index kl_1m (-16)) as [k_15m|].
    2:{ destruct (cell k_now 4); discriminate. }
    unfold cell, item.
    destruct (nth_error k_now 4) as [[a|s|]|] eqn:Na; cbn [bind safe_float];
      destruct (nth_error k_15m 4) as [[b|t|]|] eqn:Nb; cbn [bind safe_float];
      try discriminate;
      try (destruct (_ || _); discriminate).
    + destruct (fle (Num a) (of_Z 0)) eqn:Pa; [discriminate|].
      destruct (fle (Num b) (of_Z 0)) eqn:Pb; [discriminate|]. cbn [orb].
      apply fle_Num_false in Pa, Pb.
      change (inject_Z 0) with 0 in Pa, Pb.
      change ((Num a / Num b - of_Z 1) * of_Z 100)%F
        with (Num (Qred (Qred (Qred (a / b) - inject_Z 1) * inject_Z 100))).
      intro E.
      assert (Ec : c = Qred (Qred (Qred (a / b) - inject_Z 1) * inject_Z 100))
        by congruence.
      clear E. subst c.
      exists k_now, k_15m, a.
      do 4 (split; [first [reflexivity | assumption]|]).
      left. exists b.
      do 2 (split; [first [reflexivity | assumption]|]).
      assert (D : (a / b) * b == a) by (field; lra).
      assert (C : Qred (Qred (Qred (a / b) - inject_Z 1) * inject_Z 100)
                  == (a / b - 1) * 100).
      { rewrite !Qred_correct. reflexivity. }
      rewrite C. split; [reflexivity|].
      set (d := a / b) in *. split; split; intro H; nra.
    + destruct (fle (Num a) (of_Z 0)) eqn:Pa; [discriminate|].
      destruct t; [discriminate|].
      change (fle (Inf false) (of_Z 0)) with false. cbn [orb].
      apply fle_Num_false in Pa. change (inject_Z 0) with 0 in Pa.
      change ((Num a / Inf false - of_Z 1) * of_Z 100)%F
        with (Num (Qred (Qred (0 - inject_Z 1) * inject_Z 100))).
      intro E.
      assert (Ec : c = Qred (Qred (0 - inject_Z 1) * inject_Z 100))
        by congruence.
      clear E. subst c.
      exists k_now, k_15m, a.
      do 4 (split; [first [reflexivity | assumption]|]).
      right. split; [assumption|reflexivity].
Qed.

(** ETHBTC closing at 100 and then at 99: a change of minus one percent,
    below zero as the last close is the lower one. *)
Lemma px_change_sign_witness :
  exists k_now k_15m a,
    py_index ScenarioExt.ethbtc_falling (-1) = Returns k_now /\
    py_index ScenarioExt.ethbtc_falling (-16) = Returns k_15m /\
    nth_error k_now 4 = Some (RNum a) /\ 0 < a /\
    ((exists b,
        nth_error k_15m 4 = Some (RNum b) /\ 0 < b /\
        - (1) == (a / b - 1) * 100 /\
        (0 < - (1) <-> b < a) /\ (- (1) == 0 <-> a == b)) \/
     (nth_error k_15m 4 = Some (RInf false) /\ - (1) == - (100))).
Proof.
  apply (proj2 (px_change_sign ScenarioExt.ethbtc_falling) (- (1))).
  vm_compute; reflexivity.
Defined.

(** *** The ALT/BTC bias *)

(** Either the answer does not depend on the direction and is not a
    refusal, or a change [ch] of the ALT/BTC pair was read and the
    answer is the two tolerance tests on it. *)
Lemma altbtc_bias_cases cfg spot_klines sym :
  (exists r, (forall d, altbtc_bias_ok cfg spot_klines sym d = r) /\
             forall v, r <> Returns (false, v)) \/
  (exists ch, forall d,
      altbtc_bias_ok cfg spot_klines sym d =
      if (d =? "LONG")%string && (ch <? fneg (Num (ALT_BTC_BIAS_PCT cfg)))%F
      then Returns (false, Some ch)
      else if (d =? "SHORT")%string && (ch >? Num (ALT_BTC_BIAS_PCT cfg))%F
           then Returns (false, Some ch)
           else Returns (true, Some ch)).
Proof.
  unfold altbtc_bias_ok.
  set (s := strip (upper (or_empty sym))).
  destruct (negb (ends_with "USDT" s));
    [left; eexists; split; [reflexivity|discriminate]|].
  destruct (negb (is_in _ _));
    [left; eexists; split; [reflexivity|discriminate]|].
  destruct (spot_klines _) as [[|k kl]|];
    [left; eexists; split; [reflexivity|discriminate]| |
     left; eexists; split; [reflexivity|discriminate]].
  destruct (px_change_15m_from_1m (k :: kl)) as [[ch|]|]; cbn [bind];
    [|left; eexists; split; [reflexivity|discriminate]..].
  right. exists ch. reflexivity.
Qed.

Lemma flt_then_not_fgt x a b :
  a <= b -> flt x (Num a) = true -> fgt x (Num b) = false.
Proof.
  intros L. destruct x as [|q|[|]]; try discriminate; [|reflexivity].
  intro H. apply flt_Num in H. apply flt_Num_false. lra.
Qed.

Lemma fgt_then_not_flt x a b :
  a <= b -> fgt x (Num b) = true -> flt x (Num a) = false.
Proof.
  intros L. destruct x as [|q|[|]]; try discriminate; [|reflexivity].
  intro H. apply flt_Num in H. apply flt_Num_false. lra.
Qed.

(** X18.  With a tolerance that is not negative, a refusal of the
    ALT/BTC bias test is for the direction LONG or SHORT only, it comes
    with a change of the pair that is beyond the tolerance on the side
    against the direction, and the opposite direction passes on the same
    reading. *)
Theorem altbtc_blocks_one_side cfg spot_klines sym :
  0 <= ALT_BTC_BIAS_PCT cfg ->
  forall d v,
    altbtc_bias_ok cfg spot_klines sym d = Returns (false, v) ->
    exists ch,
      v = Some ch /\
      ((d = "LONG"%string /\
        flt ch (Num (- ALT_BTC_BIAS_PCT cfg)) = true /\
        altbtc_bias_ok cfg spot_klines sym "SHORT" = Returns (true, v)) \/
       (d = "SHORT"%string /\
        fgt ch (Num (ALT_BTC_BIAS_PCT cfg)) = true /\
        altbtc_bias_ok cfg spot_klines sym "LONG" = Returns (true, v))).
Proof.
  intros Tol d v.
  destruct (altbtc_bias_cases cfg spot_klines sym) as [(r & Hr & Nr)|(ch & Hx)].
  { rewrite Hr. intro E. now apply Nr in E. }
  rewrite !Hx. cbn [String.eqb Ascii.eqb Bool.eqb andb].
  change (fneg (Num (ALT_BTC_BIAS_PCT cfg)))
    with (Num (Qred (- ALT_BTC_BIAS_PCT cfg))).
  assert (R : Qred (- ALT_BTC_BIAS_PCT cfg) == - ALT_BTC_BIAS_PCT cfg)
    by apply Qred_correct.
  assert (Lo' : flt ch (Num (- ALT_BTC_BIAS_PCT cfg))
                = flt ch (Num (Qred (- ALT_BTC_BIAS_PCT cfg)))).
  { destruct ch as [|q|[|]]; try reflexivity.
    destruct (flt (Num q) (Num (Qred (- ALT_BTC_BIAS_PCT cfg)))) eqn:E.
    - apply flt_Num. apply flt_Num in E. lra.
    - apply flt_Num_false. apply flt_Num_false in E. lra. }
  destruct (d =? "LONG")%string eqn:DL; cbn [andb].
  - apply String.eqb_eq in DL.
    destruct (flt ch (Num (Qred _))) eqn:Lo.
    + intro E. assert (Ev : v = Some ch) by congruence. subst v.
      exists ch. split; [reflexivity|].
      left. split; [assumption|]. split; [now rewrite Lo'|].
      assert (G : fgt ch (Num (ALT_BTC_BIAS_PCT cfg)) = false).
      { apply (flt_then_not_fgt ch (Qred (- ALT_BTC_BIAS_PCT cfg)));
          [lra|exact Lo]. }
      now rewrite G.
    + subst d. cbn [String.eqb Ascii.eqb Bool.eqb andb]. discriminate.
  - destruct (d =? "SHORT")%string eqn:DS; cbn [andb]; [|discriminate].
    apply String.eqb_eq in DS.
    destruct (fgt ch _) eqn:Hi; [|discriminate].
    intro E. assert (Ev : v = Some ch) by congruence. subst v.
    exists ch. split; [reflexivity|].
    right. split; [assumption|]. split; [assumption|].
    assert (G : flt ch (Num (Qred (- ALT_BTC_BIAS_PCT cfg))) = false).
    { apply (fgt_then_not_flt ch _ (ALT_BTC_BIAS_PCT cfg)); [lra|exact Hi]. }
    now rewrite G.
Qed.

(** ETHBTC fell by one percent in 15 minutes: a LONG on ETHUSDT is
    refused and a SHORT passes. *)
Lemma altbtc_blocks_one_side_witness :
  exists ch,
    Some (Num (-1)) = Some ch /\
    (("LONG" = "LONG"%string /\
      flt ch (Num (- ALT_BTC_BIAS_PCT default_settings)) = true /\
      altbtc_bias_ok default_settings ScenarioExt.spot_ethbtc
        (Some "ethusdt") "SHORT" = Returns (true, Some (Num (-1)))) \/
     ("LONG" = "SHORT"%string /\
      fgt ch (Num (ALT_BTC_BIAS_PCT default_settings)) = true /\
      altbtc_bias_ok default_settings ScenarioExt.spot_ethbtc
        (Some "ethusdt") "LONG" = Returns (true, Some (Num (-1))))).
Proof.
  apply (altbtc_blocks_one_side default_settings ScenarioExt.spot_ethbtc
           (Some "ethusdt")).
  - discriminate.
  - vm_compute; reflexivity.
Defined.

(** *** Average true range *)

(** A column of cells that all coerce to numbers is read without an
    exception and holds numbers only. *)
Lemma column_total i sample :
  Forall (numeric_at i) sample ->
  exists xs, column i sample = Returns xs /\
             List.length xs = List.length sample /\
             Forall (fun x => isfinite x = true) xs.
Proof.
  unfold column. induction sample as [|k rest IH]; intro H.
  - exists []. repeat split. constructor.
  - inversion H as [|? ? Hk Hrest]; subst.
    destruct (IH Hrest) as (ys & E & L & F).
    unfold numeric_at in Hk. cbn [mapM]. unfold item at 1.
    destruct (nth_error k i) as [[q| |]|]; try contradiction.
    cbn [bind safe_float]. rewrite E. cbn [bind].
    eexists. split; [reflexivity|]. split; [cbn; now rewrite L|].
    constructor; [reflexivity|exact F].
Qed.

Lemma true_range_nonneg h l pc :
  exists t,
    py_max3 (Num h - Num l)%F (fabs (Num h - Num pc)%F)
      (fabs (Num l - Num pc)%F) = Num t /\ 0 <= t.
Proof.
  unfold py_max3.
  change (Num h - Num l)%F with (Num (Qred (h - l))).
  change (fabs (Num h - Num pc)%F) with (Num (Qred (Qabs (Qred (h - pc))))).
  change (fabs (Num l - Num pc)%F) with (Num (Qred (Qabs (Qred (l - pc))))).
  destruct (py_max_Num (Qred (h - l)) (Qred (Qabs (Qred (h - pc)))))
    as (m & -> & _ & M).
  destruct (py_max_Num m (Qred (Qabs (Qred (l - pc))))) as (t & -> & T & _).
  exists t. split; [reflexivity|].
  rewrite Qred_correct in M.
  pose proof (Qabs_nonneg (Qred (h - pc))). lra.
Qed.

Lemma true_ranges_nonneg highs lows closes :
  Forall (fun x => isfinite x = true) highs ->
  Forall (fun x => isfinite x = true) lows ->
  Forall (fun x => isfinite x = true) closes ->
  Forall (fun x => exists t, x = Num t /\ 0 <= t)
         (true_ranges highs lows closes).
Proof.
  intros Fh Fl Fc. unfold true_ranges.
  apply Forall_forall. intros x I. apply in_map_iff in I.
  destruct I as ([[h l] pc] & <- & I).
  pose proof (in_combine_r _ _ _ _ I) as Ic.
  apply in_combine_l in I.
  pose proof (in_combine_r _ _ _ _ I) as Il.
  apply in_combine_l in I.
  assert (Th : Forall (fun x => isfinite x = true) (tl highs))
    by (destruct Fh; [constructor|assumption]).
  assert (Tl : Forall (fun x => isfinite x = true) (tl lows))
    by (destruct Fl; [constructor|assumption]).
  rewrite Forall_forall in Th, Tl, Fc.
  specialize (Th _ I). specialize (Tl _ Il). specialize (Fc _ Ic).
  destruct h as [|h|]; try discriminate.
  destruct l as [|l|]; try discriminate.
  destruct pc as [|pc|]; try discriminate.
  apply true_range_nonneg.
Qed.

Lemma true_ranges_length highs lows closes :
  List.length highs = List.length closes ->
  List.length lows = List.length closes ->
  List.length (true_ranges highs lows closes) = (List.length closes - 1)%nat.
Proof.
  intros Lh Ll. unfold true_ranges.
  rewrite length_map, !length_combine.
  destruct highs, lows; cbn [tl List.length] in *; lia.
Qed.

Lemma fsum_nonneg xs a :
  0 <= a ->
  Forall (fun x => exists t, x = Num t /\ 0 <= t) xs ->
  exists t, fold_left fadd xs (Num a) = Num t /\ 0 <= t.
Proof.
  revert a. induction xs as [|x xs IH]; intros a A F.
  - exists a. now split.
  - inversion F as [|? ? (t & -> & T) Fr]; subst. cbn [fold_left].
    change (Num a + Num t)%F with (Num (Qred (a + t))).
    apply IH; [rewrite Qred_correct; lra|exact Fr].
Qed.

(** X22.  With fewer than [period + 2] candles there is no average true
    range.  With at least that many, a period that is not negative and
    candles whose high, low and close all coerce to numbers, the average
    true range is a number that is not negative. *)
Theorem atr_is_nonneg kl_15m period :
  ((Z.of_nat (List.length kl_15m) < period + 2)%Z ->
   atr_from_15m kl_15m period = Returns None) /\
  ((0 <= period)%Z ->
   (period + 2 <= Z.of_nat (List.length kl_15m))%Z ->
   Forall (fun k => numeric_at 2 k /\ numeric_at 3 k /\ numeric_at 4 k)
          kl_15m ->
   exists a, atr_from_15m kl_15m period = Returns (Some (Num a)) /\ 0 <= a).
Proof.
  unfold atr_from_15m. split.
  { intro Short. apply Z.ltb_lt in Short. now rewrite Short. }
  intros P Long Hn.
  destruct (Z.ltb_spec (Z.of_nat (List.length kl_15m)) (period + 2));
    [lia|].
  destruct (column_total 2 kl_15m) as (highs & -> & Lh & Fh).
  { refine (Forall_impl _ _ Hn). tauto. }
  destruct (column_total 3 kl_15m) as (lows & -> & Ll & Fl).
  { refine (Forall_impl _ _ Hn). tauto. }
  destruct (column_total 4 kl_15m) as (closes & -> & Lc & Fc).
  { refine (Forall_impl _ _ Hn). tauto. }
  cbn [bind].
  pose proof (true_ranges_nonneg _ _ _ Fh Fl Fc) as Ft.
  pose proof (true_ranges_length highs lows closes
                ltac:(congruence) ltac:(congruence)) as Lt.
  set (trs := true_ranges highs lows closes) in *.
  assert (Fr : Forall (fun x => exists t, x = Num t /\ 0 <= t)
                 (slice_from (- period) trs))
    by now apply Forall_slice_from.
  assert (Nr : (0 < List.length (slice_from (- period) trs))%nat).
  { unfold slice_from.
    destruct (Z.ltb_spec (- period) 0); rewrite length_skipn; lia. }
  destruct (slice_from (- period) trs) as [|r0 rs] eqn:Er;
    [cbn in Nr; lia|].
  destruct (fsum_nonneg (r0 :: rs) 0 ltac:(lra) Fr) as (t & Et & T).
  unfold fsum, of_Z at 1. change (inject_Z 0) with 0. rewrite Et.
  eexists. split; [reflexivity|].
  rewrite Qred_correct.
  apply Qle_shift_div_l; [|lra].
  change 0 with (inject_Z 0). rewrite <- Zlt_Qlt. cbn [List.length]. lia.
Qed.

(** Sixteen candles between 99 and 101 closing at 100, period 14: the
    average true range is 2. *)
Lemma atr_is_nonneg_witness :
  exists a,
    atr_from_15m ScenarioExt.window_15m 14 = Returns (Some (Num a)) /\ 0 <= a.
Proof.
  apply (proj2 (atr_is_nonneg ScenarioExt.window_15m 14)).
  - lia.
  - vm_compute. discriminate.
  - apply Forall_forall. intros k I. apply repeat_spec in I. subst k.
    repeat split.
Defined.

(** *** From the BTC pass to the planner *)

Lemma safe_float_as_raw x : PaperExec.safe_float (as_raw x) NaN = x.
Proof. now destruct x. Qed.

(** What the planner makes of an event whose zone bounds are the floats
    [ll], [lh], [ul], [uh] written by [alerts.py]. *)
Lemma plan_from_written pcfg clk ts e equity lev tr :
  PaperExec.plan_from_event pcfg clk (as_read ts e) equity lev = Some tr ->
  let side :=
    if contains "SHORT" (upper (strip (ev_setup e))) then "SHORT" else "LONG" in
  PaperExec.side tr = side /\
  PaperExec.symbol tr = strip (ev_symbol e) /\
  PaperExec.symbol_raw tr = strip (ev_symbol_raw e) /\
  PaperExec.setup tr = strip (ev_setup e) /\
  (PaperExec.entry tr, PaperExec.sl tr, PaperExec.tp1 tr, PaperExec.tp2 tr)
  = (let '(e0, s0, t1, t2) :=
       PaperExec.plan_levels pcfg side (fst (ev_lower e)) (snd (ev_lower e))
         (fst (ev_upper e)) (snd (ev_upper e)) in
     (round_dp 4 e0, round_dp 4 s0, round_dp 4 t1, round_dp 4 t2)).
Proof.
  unfold PaperExec.plan_from_event, as_read.
  cbn [PaperExec.evt_lower PaperExec.evt_upper PaperExec.evt_symbol
       PaperExec.evt_symbol_raw PaperExec.evt_setup PaperExec.evt_regime
       PaperExec.evt_market PaperExec.evt_exchange PaperExec.evt_close].
  rewrite !safe_float_as_raw.
  destruct (strip (ev_symbol e) =? "")%string; [discriminate|].
  destruct (isnan _ || isnan _ || isnan _ || isnan _); [discriminate|].
  destruct (isnan _ || fle _ _); [discriminate|].
  destruct (PaperExec.plan_levels _ _ _ _ _ _) as [[[e0 s0] t1] t2].
  destruct (fle (fabs (e0 - s0)%F) (of_Z 0)); [discriminate|].
  destruct (negb _ || fle _ _); [discriminate|].
  intro E. injection E as <-. cbn. auto.
Qed.

(** X21.  An iteration of the BTC pass that writes a paper event writes
    one, for a mean-revert setup that it also sends, after all four zone
    bounds were shown as integers, so they are finite.  When
    [paper_exec.py] plans a trade from that event as read back from the
    signals file, the trade has the side of the setup (LONG for
    MEAN_REVERT_LONG, SHORT for MEAN_REVERT_SHORT), the raw symbol of the
    settings, and the levels planned from the very zone bounds of
    [alerts.py], rounded to four decimals. *)
Theorem paper_event_reaches_planner cfg now regime_key kl_1m z oi15m g sig g1 :
  btc_setup_step cfg now regime_key kl_1m z oi15m g sig = Returns g1 ->
  events g1 = events g \/
  exists e side,
    events g1 = events g ++ [e] /\
    sent g1 = sent g ++ [sig] /\
    (key sig = "MEAN_REVERT_LONG" /\ side = "LONG" \/
     key sig = "MEAN_REVERT_SHORT" /\ side = "SHORT") /\
    isfinite (lower_lo z) = true /\ isfinite (lower_hi z) = true /\
    isfinite (upper_lo z) = true /\ isfinite (upper_hi z) = true /\
    forall pcfg clk ts equity lev tr,
      PaperExec.plan_from_event pcfg clk (as_read ts e) equity lev = Some tr ->
      PaperExec.side tr = side /\
      PaperExec.symbol_raw tr = strip (SYMBOL cfg) /\
      (PaperExec.entry tr, PaperExec.sl tr, PaperExec.tp1 tr,
       PaperExec.tp2 tr)
      = (let '(e0, s0, t1, t2) :=
           PaperExec.plan_levels pcfg side (lower_lo z) (lower_hi z)
             (upper_lo z) (upper_hi z) in
         (round_dp 4 e0, round_dp 4 s0, round_dp 4 t1, round_dp 4 t2)).
Proof.
  unfold btc_setup_step.
  destruct (negb _); [intro E; inversion E; now left|].
  destruct (_ && negb _); [intro E; inversion E; now left|].
  destruct (Qltb _ _); [intro E; inversion E; now left|].
  unfold build_setup_message, fmt_int.
  destruct (upper_lo z) as [|ul|] eqn:Eul; try discriminate.
  destruct (upper_hi z) as [|uh|] eqn:Euh; try discriminate.
  destruct (lower_lo z) as [|ll|] eqn:Ell; try discriminate.
  destruct (lower_hi z) as [|lh|] eqn:Elh; try discriminate.
  cbn [bind].
  destruct (py_index kl_1m (-1)) as [k_last|]; [|discriminate]. cbn [bind].
  destruct (cell k_last 4) as [close_px|]; [|discriminate]. cbn [bind].
  destruct (String.eqb_spec (key sig) "MEAN_REVERT_LONG") as [KL|NL].
  - intro E. injection E as <-. right. cbn [events sent].
    eexists. exists "LONG". split; [reflexivity|]. split; [reflexivity|].
    split; [left; now split|].
    do 4 (split; [reflexivity|]).
    intros pcfg clk ts equity lev tr P.
    apply plan_from_written in P. cbn zeta in P.
    destruct P as (Sd & _ & Sr & _ & Lv).
    cbn [paper_event ev_setup ev_symbol_raw ev_lower ev_upper fst snd] in *.
    change (contains "SHORT" (upper (strip "MEAN_REVERT_LOWER_TOUCH_LONG")))
      with false in *.
    rewrite Eul, Euh, Ell, Elh in Lv. auto.
  - destruct (String.eqb_spec (key sig) "MEAN_REVERT_SHORT") as [KS|NS].
    + intro E. injection E as <-. right. cbn [events sent].
      eexists. exists "SHORT". split; [reflexivity|]. split; [reflexivity|].
      split; [right; now split|].
      do 4 (split; [reflexivity|]).
      intros pcfg clk ts equity lev tr P.
      apply plan_from_written in P. cbn zeta in P.
      destruct P as (Sd & _ & Sr & _ & Lv).
      cbn [paper_event ev_setup ev_symbol_raw ev_lower ev_upper fst snd] in *.
      change (contains "SHORT" (upper (strip "MEAN_REVERT_UPPER_TOUCH_SHORT")))
        with true in *.
      rewrite Eul, Euh, Ell, Elh in Lv. auto.
    + intro E. injection E as <-. left. cbn [events].
      apply app_nil_r.
Qed.

(** The mean-revert long setup on narrow zones, sent at time 1000
    from an empty gate: one event, for the side LONG. *)
Lemma paper_event_reaches_planner_witness :
  exists e side,
    events ScenarioExt.gate_after = [e] /\ side = "LONG"%string /\
    isfinite (lower_lo ScenarioExt.zones_narrow) = true.
Proof.
  destruct (paper_event_reaches_planner default_settings 1000 "RANGE"
              ScenarioExt.window_touch_low ScenarioExt.zones_narrow None
              ScenarioExt.gate_empty ScenarioExt.sig_long
              ScenarioExt.gate_after)
    as [L|(e & side & Ev & _ & K & F & _)].
  - vm_compute; reflexivity.
  - discriminate L.
  - exists e, side. split; [exact Ev|]. split; [|exact F].
    destruct K as [(_ & K)|(K & _)]; [exact K|discriminate K].
Defined.

End AlertsExtSpec.

(* ================================================================== *)
(** ** Properties of the reports *)

Module ReportsSpec.
Import Reports PyFacts.

(** *** Escaping for the HTML report *)

Lemma occurs_app c s t : occurs c (s ++ t) = occurs c s || occurs c t.
Proof.
  induction s as [|a s IH]; [reflexivity|].
  cbn [append occurs]. rewrite IH. apply orb_assoc.
Qed.

Lemma escape_step a r : escape (String a r) = escape_char a ++ escape r.
Proof.
  unfold escape, escape_char.
  destruct (Ascii.eqb_spec a "&") as [->|N1]; [reflexivity|].
  destruct (Ascii.eqb_spec a "<") as [->|N2]; [reflexivity|].
  destruct (Ascii.eqb_spec a ">") as [->|N3]; [reflexivity|].
  destruct (Ascii.eqb_spec a (ascii_of_nat 34)) as [->|N4]; [reflexivity|].
  destruct (Ascii.eqb_spec a "'") as [->|N5]; [reflexivity|].
  apply Ascii.eqb_neq in N1, N2, N3, N4, N5.
  cbn [replace_char]. rewrite N1.
  cbn [replace_char]. rewrite N2.
  cbn [replace_char]. rewrite N3.
  cbn [replace_char]. rewrite N4.
  cbn [replace_char]. rewrite N5.
  reflexivity.
Qed.

Lemma escape_char_clean c a :
  In c ["<"; ">"; ascii_of_nat 34; "'"]%char ->
  occurs c (escape_char a) = false.
Proof.
  intro I. unfold escape_char.
  destruct (Ascii.eqb_spec a "&") as [->|N1].
  { cbn in I. decompose [or] I; subst; try reflexivity; contradiction. }
  destruct (Ascii.eqb_spec a "<") as [->|N2].
  { cbn in I. decompose [or] I; subst; try reflexivity; contradiction. }
  destruct (Ascii.eqb_spec a ">") as [->|N3].
  { cbn in I. decompose [or] I; subst; try reflexivity; contradiction. }
  destruct (Ascii.eqb_spec a (ascii_of_nat 34)) as [->|N4].
  { cbn in I. decompose [or] I; subst; try reflexivity; contradiction. }
  destruct (Ascii.eqb_spec a "'") as [->|N5].
  { cbn in I. decompose [or] I; subst; try reflexivity; contradiction. }
  cbn [occurs]. rewrite orb_false_r. apply Ascii.eqb_neq.
  cbn in I. decompose [or] I; subst; try assumption; contradiction.
Qed.

(** X19.  The five replacements of [escape], made one after the other
    over the whole text with the ampersand first, give what a single
    pass that replaces each character on its own gives: no replacement
    touches the text that an earlier one wrote.  The result holds none of
    the characters [<], [>], the double quote and the apostrophe, and a
    text without the five characters is returned as it is. *)
Theorem escape_is_one_pass s :
  escape s = escape_each s /\
  (forall c, In c ["<"; ">"; ascii_of_nat 34; "'"]%char ->
             occurs c (escape s) = false) /\
  (occurs "&" s = false -> occurs "<" s = false -> occurs ">" s = false ->
   occurs (ascii_of_nat 34) s = false -> occurs "'" s = false ->
   escape s = s).
Proof.
  assert (E : escape s = escape_each s).
  { induction s as [|a r IH]; [reflexivity|].
    rewrite escape_step, IH. reflexivity. }
  split; [exact E|]. split.
  - intros c I. rewrite E. clear E.
    induction s as [|a r IH]; [reflexivity|].
    cbn [escape_each]. rewrite occurs_app, IH, (escape_char_clean c a I).
    reflexivity.
  - rewrite E. clear E.
    induction s as [|a r IH]; [reflexivity|].
    cbn [occurs escape_each]. intros H1 H2 H3 H4 H5.
    apply orb_false_iff in H1, H2, H3, H4, H5.
    destruct H1 as (A1 & R1), H2 as (A2 & R2), H3 as (A3 & R3),
             H4 as (A4 & R4), H5 as (A5 & R5).
    rewrite (IH R1 R2 R3 R4 R5).
    unfold escape_char. rewrite A1, A2, A3, A4, A5. reflexivity.
Qed.

(** A regime label holds none of the five characters and is shown as it
    is. *)
Lemma escape_is_one_pass_witness : escape "RANGE / CHOP" = "RANGE / CHOP".
Proof.
  apply (proj2 (proj2 (escape_is_one_pass "RANGE / CHOP"))); reflexivity.
Defined.

(** *** The day's figures *)

Lemma flt_asym x y : flt x y = true -> flt y x = false.
Proof.
  destruct x as [|a|[|]], y as [|b|[|]]; try discriminate; try reflexivity.
  intro H. apply flt_Num in H. apply flt_Num_false. lra.
Qed.

Lemma three_way (xs : list pyfloat) :
  (count_if (fun x => x >? of_Z 0)%F xs
   + count_if (fun x => x <? of_Z 0)%F xs
   + count_if (fun x => negb (x >? of_Z 0)%F && negb (x <? of_Z 0)%F) xs
   = List.length xs)%nat.
Proof.
  unfold count_if. induction xs as [|x xs IH]; [reflexivity|].
  cbn [filter List.length].
  destruct (fgt x (of_Z 0)) eqn:G.
  - unfold fgt in G. rewrite (flt_asym _ _ G).
    cbn [negb andb List.length]. lia.
  - destruct (flt x (of_Z 0)); cbn [negb andb List.length]; lia.
Qed.

Lemma count_if_le p (xs : list pyfloat) :
  (count_if p xs <= List.length xs)%nat.
Proof. unfold count_if. apply filter_length_le. Qed.

(** X20.  In the day's figures the wins, the losses and the flat trades
    add up to the number of trades; the flat trades are those whose PnL
    is neither above nor below zero, which takes in a PnL of [nan], so
    their number is never negative; and on a day with trades the win
    rate is a number from 0 to 100. *)
Theorem day_stats_counts today :
  let d := day_stats today in
  (Z.of_nat (wins d) + Z.of_nat (losses d) + flats d = Z.of_nat (n d))%Z /\
  flats d
  = Z.of_nat
      (count_if (fun x => negb (x >? of_Z 0)%F && negb (x <? of_Z 0)%F) today)
  /\
  (today <> [] -> exists r, winrate d = Num r /\ 0 <= r <= 100).
Proof.
  cbn zeta. unfold day_stats. cbn [wins losses flats n winrate].
  pose proof (three_way today) as T.
  repeat apply conj; try lia.
  intro N. destruct today as [|x xs]; [congruence|].
  set (l := x :: xs) in *. cbn [List.length].
  change (List.length l) with (S (List.length xs)).
  set (w := count_if _ l).
  assert (W : (w <= S (List.length xs))%nat) by apply count_if_le.
  eexists. split; [reflexivity|].
  rewrite !Qred_correct.
  set (a := inject_Z (Z.of_nat w)).
  set (b := inject_Z (Z.of_nat (S (List.length xs)))).
  assert (A : 0 <= a).
  { change 0 with (inject_Z 0). subst a. rewrite <- Zle_Qle. lia. }
  assert (B : 0 < b).
  { change 0 with (inject_Z 0). subst b. rewrite <- Zlt_Qlt. lia. }
  assert (AB : a <= b).
  { subst a b. rewrite <- Zle_Qle. lia. }
  assert (L : 0 <= a / b) by (apply Qle_shift_div_l; lra).
  assert (U : a / b <= 1) by (apply Qle_shift_div_r; lra).
  change (inject_Z 100) with 100. split; nra.
Qed.

(** A win of 5, a loss of 3 and a trade whose PnL is [nan]: one win in
    three. *)
Lemma day_stats_counts_witness :
  exists r,
    winrate (day_stats [of_Z 5; of_Z (-3); NaN]) = Num r /\ 0 <= r <= 100.
Proof.
  apply (proj2 (proj2 (day_stats_counts [of_Z 5; of_Z (-3); NaN]))).
  discriminate.
Defined.

End ReportsSpec.
